(** * makeSnapshot: the request pipeline of the root command, embedded and verified

    The Go program (package [cmd]) drives six REST steps against a vRealize
    Automation platform: token, resource lookup, action lookup, template
    (a placeholder), snapshot request, and the polling of the request
    state.  The steps are embedded here as state-passing programs over a
    scripted environment: the replies that [client.Do] will hand back, one
    per call, and the events observed so far (requests, sleeps, log lines).
    The fragment of Go's [regexp] package that the steps rely on is embedded
    with them: compilation of the pattern text, leftmost-first matching,
    [FindStringSubmatch].

    Conventions.
    - A Go string is represented by the sequence of its code points (valid
      UTF-8 is assumed), so that the regexp [.] consumes one list element
      and [strings.TrimSpace] leaves nothing exactly when every element is
      white space.
    - [ioutil.ReadAll(resp.Body)] yields the [Body] of the response.
    - In the string constants that are passed to [jtxt], the apostrophe
      stands for the double quote of the Go source.
    - Functions of the Go libraries whose results the pipeline only passes
      on ([json.Marshal], [json.Unmarshal], [http.NewRequest]'s verdict on a
      URL, [req.ParseForm], [os.Stat]) are parameters, gathered in [Lib]. *)

From Stdlib Require Import NArith ZArith String Ascii.
From stdpp Require Import base option list strings gmap.

Set Default Proof Using "Type".
Open Scope N_scope.
Open Scope nat_scope.

(** ** Text *)

Definition rune := N.
Abbreviation text := (list rune).

Fixpoint txt (s : string) : text :=
  match s with
  | EmptyString => []
  | String a s' => N_of_ascii a :: txt s'
  end.

Definition dquote : rune := 34%N.
Definition apostrophe : rune := 39%N.

(** [jtxt] reads a constant in which ['] was written for the double quote. *)
Definition jtxt (s : string) : text :=
  map (fun x => if (x =? apostrophe)%N then dquote else x) (txt s).

Definition is_nl (x : rune) : bool := (x =? 10)%N.

(** [unicode.IsSpace]: the White_Space property. *)
Definition IsSpace (x : rune) : bool :=
  ((9 <=? x) && (x <=? 13) || (x =? 32) || (x =? 133) || (x =? 160)
   || (x =? 5760) || (8192 <=? x) && (x <=? 8202) || (x =? 8232)
   || (x =? 8233) || (x =? 8239) || (x =? 8287) || (x =? 12288))%N.

(** [len(strings.TrimSpace(s)) == 0] *)
Definition blank (s : text) : bool := forallb IsSpace s.

Fixpoint strip_prefix (t s : text) : option text :=
  match t, s with
  | [], _ => Some s
  | a :: t', b :: s' => if (a =? b)%N then strip_prefix t' s' else None
  | _ :: _, [] => None
  end.

(** ** The fragment of Go's [regexp] used by the pipeline *)

Module Regexp.

(** Syntax trees for the constructs that occur in the program's patterns:
    literal runs, [.], [.*], [.*?], [.{n}] and capturing groups. *)
Inductive regex :=
| Str (t : text)
| Any
| AnyStar (greedy : bool)
| AnyRep (n : nat)
| Grp (i : nat) (r : regex)
| Cat (r1 r2 : regex).

Definition caps := list (nat * text).

Section Exec.
Context {X : Type}.

(** [.*]: prefer the longest run, give characters back on failure. *)
Fixpoint star_greedy (k : text -> option X) (s : text) : option X :=
  match s with
  | x :: s' =>
      if is_nl x then k s
      else match star_greedy k s' with
           | Some v => Some v
           | None => k s
           end
  | [] => k s
  end.

(** [.*?]: prefer the shortest run, extend on failure. *)
Fixpoint star_lazy (k : text -> option X) (s : text) : option X :=
  match k s with
  | Some v => Some v
  | None =>
      match s with
      | x :: s' => if is_nl x then None else star_lazy k s'
      | [] => None
      end
  end.

Fixpoint rep (n : nat) (k : text -> option X) (s : text) : option X :=
  match n with
  | O => k s
  | S n' =>
      match s with
      | x :: s' => if is_nl x then None else rep n' k s'
      | [] => None
      end
  end.

(** Backtracking execution in continuation-passing style; the order in
    which alternatives are tried is the leftmost-first order of Go. *)
Fixpoint exec (r : regex) (k : text -> caps -> option X)
    (s : text) (c : caps) : option X :=
  match r with
  | Str t =>
      match strip_prefix t s with
      | Some s' => k s' c
      | None => None
      end
  | Any =>
      match s with
      | x :: s' => if is_nl x then None else k s' c
      | [] => None
      end
  | AnyStar true => star_greedy (fun s' => k s' c) s
  | AnyStar false => star_lazy (fun s' => k s' c) s
  | AnyRep n => rep n (fun s' => k s' c) s
  | Grp i r =>
      exec r (fun s' c' => k s' ((i, take (length s - length s') s) :: c')) s c
  | Cat r1 r2 => exec r1 (exec r2 k) s c
  end.
End Exec.

(** The leftmost match: try every start position in turn. *)
Fixpoint find (r : regex) (s : text) : option (text * caps) :=
  match exec r (fun s' c => Some (take (length s - length s') s, c)) s [] with
  | Some v => Some v
  | None =>
      match s with
      | [] => None
      | _ :: s' => find r s'
      end
  end.

Fixpoint group (c : caps) (i : nat) : text :=
  match c with
  | [] => []
  | (j, t) :: c' => if Nat.eqb i j then t else group c' i
  end.

(** *** Compilation of pattern text *)

Inductive pmode :=
| Normal
| AfterOpen
| AfterQuest
| AfterP
| InName (n : nat)
| InBrace (ds : text).

Record pstate := PState {
  stack : list (nat * list regex);
  top : list regex;
  count : nat;
  mode : pmode
}.

Definition is_meta (x : rune) : bool :=
  existsb (N.eqb x) (92%N :: txt ".+*?()|[]{}^$").

Definition is_digit (x : rune) : bool := ((48 <=? x) && (x <=? 57))%N.

Definition is_word (x : rune) : bool :=
  (is_digit x || (65 <=? x) && (x <=? 90) || (97 <=? x) && (x <=? 122)
   || (x =? 95))%N.

Definition push_lit (x : rune) (items : list regex) : list regex :=
  match items with
  | Str t :: rest => Str (t ++ [x]) :: rest
  | _ => Str [x] :: items
  end.

Fixpoint cat_all (l : list regex) : regex :=
  match l with
  | [] => Str []
  | [r] => r
  | r :: l' => Cat r (cat_all l')
  end.

Definition digits_value (ds : text) : nat :=
  fold_left (fun acc d => 10 * acc + N.to_nat (d - 48)) ds 0.

Definition with_top (st : pstate) (items : list regex) : pstate :=
  PState (stack st) items (count st) Normal.

Definition ch (a : ascii) : rune := N_of_ascii a.

(** One character in [Normal] mode.  [None]: outside the fragment (the
    pattern is either a syntax error or uses a construct not modelled). *)
Definition step_normal (st : pstate) (x : rune) : option pstate :=
  if (x =? ch "(")%N then
    Some (PState ((S (count st), top st) :: stack st) [] (S (count st)) AfterOpen)
  else if (x =? ch ")")%N then
    match stack st with
    | (i, parent) :: rest =>
        Some (PState rest (Grp i (cat_all (rev (top st))) :: parent) (count st) Normal)
    | [] => None
    end
  else if (x =? ch ".")%N then Some (with_top st (Any :: top st))
  else if (x =? ch "*")%N then
    match top st with
    | Any :: rest => Some (with_top st (AnyStar true :: rest))
    | _ => None
    end
  else if (x =? ch "?")%N then
    match top st with
    | AnyStar true :: rest => Some (with_top st (AnyStar false :: rest))
    | _ => None
    end
  else if (x =? ch "{")%N then
    Some (PState (stack st) (top st) (count st) (InBrace []))
  else if (x =? ch "}")%N then Some (with_top st (push_lit x (top st)))
  else if is_meta x then None
  else Some (with_top st (push_lit x (top st))).

(** A brace that does not open a repetition is a literal. *)
Definition flush_brace (st : pstate) (ds : text) : pstate :=
  with_top st (fold_left (fun items x => push_lit x items) (ch "{" :: ds) (top st)).

Definition step (st : pstate) (x : rune) : option pstate :=
  match mode st with
  | Normal => step_normal st x
  | AfterOpen =>
      if (x =? ch "?")%N
      then Some (PState (stack st) (top st) (count st) AfterQuest)
      else step_normal (with_top st (top st)) x
  | AfterQuest =>
      if (x =? ch "P")%N
      then Some (PState (stack st) (top st) (count st) AfterP)
      else None
  | AfterP =>
      if (x =? ch "<")%N
      then Some (PState (stack st) (top st) (count st) (InName 0))
      else None
  | InName n =>
      if (x =? ch ">")%N then
        match n with
        | O => None
        | S _ => Some (with_top st (top st))
        end
      else if is_word x then Some (PState (stack st) (top st) (count st) (InName (S n)))
      else None
  | InBrace ds =>
      if is_digit x then Some (PState (stack st) (top st) (count st) (InBrace (ds ++ [x])))
      else
        match ds with
        | [] => step_normal (flush_brace st ds) x
        | d :: ds' =>
            if (x =? ch "}")%N then
              if ((d =? 48)%N && negb (Nat.eqb (length ds') 0)) || (1000 <? digits_value ds)
              then None
              else
                match top st with
                | Any :: rest => Some (with_top st (AnyRep (digits_value ds) :: rest))
                | _ => None
                end
            else if (x =? ch ",")%N then None
            else step_normal (flush_brace st ds) x
        end
  end.

Fixpoint steps (st : pstate) (p : text) : option pstate :=
  match p with
  | [] => Some st
  | x :: p' =>
      match step st x with
      | Some st' => steps st' p'
      | None => None
      end
  end.

Record Regexp := MkRegexp { prog : regex; ngroups : nat }.

Definition finish (st : pstate) : option Regexp :=
  match stack st with
  | _ :: _ => None
  | [] =>
      match mode st with
      | Normal => Some (MkRegexp (cat_all (rev (top st))) (count st))
      | InBrace ds => Some (MkRegexp (cat_all (rev (top (flush_brace st ds)))) (count st))
      | _ => None
      end
  end.

Definition Compile (p : text) : option Regexp :=
  match steps (PState [] [] 0 Normal) p with
  | Some st => finish st
  | None => None
  end.

(** [re.FindStringSubmatch(s)]: the nil slice when nothing matches,
    otherwise the whole match followed by one entry per group. *)
Definition FindStringSubmatch (re : Regexp) (s : text) : list text :=
  match find (prog re) s with
  | Some (whole, c) => whole :: map (group c) (seq 1 (ngroups re))
  | None => []
  end.

(** *** Declarative meaning of a syntax tree *)

Definition not_nl (x : rune) : Prop := is_nl x = false.

(** [parses r s c]: [r] matches exactly the text [s], its groups capturing
    [c] (most recently closed group first). *)
Inductive parses : regex -> text -> caps -> Prop :=
| P_Str t : parses (Str t) t []
| P_Any x : not_nl x -> parses Any [x] []
| P_Star g s : Forall not_nl s -> parses (AnyStar g) s []
| P_Rep s : Forall not_nl s -> parses (AnyRep (length s)) s []
| P_Grp i r s c : parses r s c -> parses (Grp i r) s ((i, s) :: c)
| P_Cat r1 r2 s1 s2 c1 c2 :
    parses r1 s1 c1 -> parses r2 s2 c2 ->
    parses (Cat r1 r2) (s1 ++ s2) (c2 ++ c1).

Definition lang (r : regex) (s : text) : Prop := exists c, parses r s c.

(** [s] has a substring in the language of [r]. *)
Definition contains_match (r : regex) (s : text) : Prop :=
  exists pre mid post, s = pre ++ mid ++ post /\ lang r mid.

End Regexp.

Import Regexp.

(** ** The environment of a run *)

(** The text of a Go [error] value. *)
Definition error := text.

(** [http.Header]: values are collected per canonical key. *)
Abbreviation Header := (gmap string (list text)).

Definition Header_Add (h : Header) (key : string) (value : text) : Header :=
  <[key := default [] (h !! key) ++ [value]]> h.

Definition Header_Set (h : Header) (key : string) (value : text) : Header :=
  <[key := [value]]> h.

Definition Header_Get (h : Header) (key : string) : text :=
  match h !! key with
  | Some (v :: _) => v
  | _ => []
  end.

Record Request := MkRequest {
  Method : text;
  URL : text;
  ReqHeader : Header;
  ReqBody : option text
}.

Record Response := MkResponse {
  StatusCode : Z;
  RespHeader : Header;
  Body : text
}.

(** What [client.Do] hands back: a response, or an error, which comes with
    a response whose body is already closed only when the redirect policy
    fails, and with a nil response otherwise. *)
Inductive reply :=
| Replied (resp : Response)
| Failed (err : error) (resp : option Response).

Inductive arg :=
| AStr (s : text)
| AInt (n : Z)
| AErr (e : error).

(** Observable actions.  Log lines are kept unformatted: the format and its
    arguments. *)
Inductive event :=
| Println (args : list arg)
| Fatalf (format : text) (args : list arg)
| Sleep (nanoseconds : Z)
| Do (req : Request).

(** The replies still to come, and what has been observed so far (oldest
    first). *)
Record world := World {
  script : list reply;
  observed : list event
}.

(** How a computation ends: with a value; by [os.Exit]; by a run-time
    panic (nil dereference, index out of range); still [Waiting] for a
    reply when the script is exhausted.  [Unmodelled] is no outcome of the
    program: it marks the place where the embedding stops following a run,
    because a pattern falls outside the fragment of regexp syntax embedded
    here.  What the program does from there on is left open. *)
Inductive result (A : Type) :=
| Ret (a : A)
| Exit (code : Z)
| Panic
| Waiting
| Unmodelled.
Arguments Ret {A} a.
Arguments Exit {A} code.
Arguments Panic {A}.
Arguments Waiting {A}.
Arguments Unmodelled {A}.

(** The exit status of the process, when it has exited: [os.Exit(code)], a
    normal return of [main], or the status 2 of a Go run-time panic. *)
Definition exit_status {A} (r : result A) : option Z :=
  match r with
  | Ret _ => Some 0%Z
  | Exit code => Some code
  | Panic => Some 2%Z
  | Waiting => None
  | Unmodelled => None
  end.

Definition M (A : Type) : Type := world -> result A * world.

#[global] Instance M_ret : MRet M := fun A a w => (Ret a, w).

#[global] Instance M_bind : MBind M := fun A B f m w =>
  match m w with
  | (Ret a, w') => f a w'
  | (Exit code, w') => (Exit code, w')
  | (Panic, w') => (Panic, w')
  | (Waiting, w') => (Waiting, w')
  | (Unmodelled, w') => (Unmodelled, w')
  end.

(** The world after some more events were observed. *)
Definition note (w : world) (tr : list event) : world :=
  World (script w) (observed w ++ tr).

Definition emit (e : event) : M unit := fun w => (Ret (), note w [e]).

Definition stop {A} (r : result A) : M A := fun w => (r, w).

Definition panic {A} : M A := stop Panic.

(** Dereference of a pointer that may be nil. *)
Definition deref {A} (p : option A) : M A :=
  match p with
  | Some a => mret a
  | None => panic
  end.

(** [matches[i]] on a slice. *)
Definition index (matches : list text) (i : nat) : M text :=
  deref (matches !! i).

Definition log_Println (args : list arg) : M unit := emit (Println args).

(** [log.Fatalf] prints and calls [os.Exit(1)]. *)
Definition log_Fatalf {A} (format : text) (args : list arg) : M A :=
  emit (Fatalf format args);; stop (Exit 1).

(** [regexp.MustCompile], for the patterns of the embedded fragment.  On
    any other pattern Go may well compile it and go on: the embedding does
    not follow the run any further (see [Unmodelled]).  The fixed patterns
    of the program lie in the fragment, and so does the pattern of step 2
    for a machine name without regexp metacharacters ([plain]); where a
    property depends on what step 2 finds, it is stated for such names. *)
Definition MustCompile (pattern : text) : M Regexp :=
  match Compile pattern with
  | Some re => mret re
  | None => stop Unmodelled
  end.

(** A response that comes with an error has its body closed: reading it
    yields nothing. *)
Definition closed (resp : Response) : Response :=
  MkResponse (StatusCode resp) (RespHeader resp) [].

(** [client.Do(req)]: the request goes out and the next reply of the script
    comes back. *)
Definition client_Do (req : Request) : M (option Response * option error) :=
  fun w =>
    let w' := note w [Do req] in
    match script w with
    | [] => (Waiting, w')
    | Replied resp :: rest =>
        (Ret (Some resp, None), World rest (observed w'))
    | Failed err resp :: rest =>
        (Ret (closed <$> resp, Some err), World rest (observed w'))
    end.

Definition Second : Z := 1000000000.

Definition time_Sleep (d : Z) : M unit := emit (Sleep d).

(** ** Types of [cmd/vrealizetypes.go] *)

Record GetBearerTokenRequest := MkGetBearerTokenRequest {
  Username : text;
  Password : text;
  Tenant : text
}.

Record GetBearerTokenResponse := MkGetBearerTokenResponse {
  Expires : text;
  ID : text;
  RespTenant : text
}.

(** ** Globals and library functions *)

(** The command-line flag variables.  [domain] is [None] when the flag was
    not given, in which case viper falls back to the configuration file. *)
Record Flags := MkFlags {
  configFile : text;
  domain : option text;
  dryRun : bool;
  keepExisting : bool;
  machineName : text;
  trace : bool
}.

Inductive stat_result :=
| StatInfo (isDir : bool)
| StatNotExist
| StatOtherError.

(** The functions of the Go libraries that the pipeline calls and that are
    not modelled further. *)
Record Lib := MkLib {
  (** [http.NewRequest(method, url, body)] returns no error *)
  NewRequest_ok : text -> bool;
  json_Marshal : GetBearerTokenRequest -> text;
  (** [json.Unmarshal(body, &v)]: the value left in [v] and the error *)
  json_Unmarshal : text -> GetBearerTokenResponse * option error;
  (** [req.ParseForm()] *)
  ParseForm : Request -> option error;
  os_Stat : text -> stat_result
}.

(** viper after [initConfig]: the values read from the configuration file
    (as [GetString] casts them) and the file that was used. *)
Record Viper := MkViper {
  store : gmap string text;
  ConfigFileUsed : text
}.

Definition version : text := txt "0.9.2".
Definition userAgent : text := txt "makeSnapShot " ++ version.

Definition text_eqb (a b : text) : bool := bool_decide (a = b).

(** ** The pipeline of the root command *)

Section Pipeline.

Context (lib : Lib) (flags : Flags) (viper : Viper).

(** [viper.GetString(key)]: the [domain] key is bound to the flag of that
    name, which wins when it was given; a missing key reads as the empty
    string. *)
Definition GetString (key : string) : text :=
  match (if String.eqb key "domain" then domain flags else None) with
  | Some v => v
  | None => default [] (store viper !! key)
  end.

(** [http.NewRequest]: the request, or nil when the library returns an
    error (which the program ignores). *)
Definition NewRequest (method url : text) (body : option text) : option Request :=
  if NewRequest_ok lib url then Some (MkRequest method url ∅ body) else None.

(** [req.Header.Add] and [req.Header.Set] *)
Definition req_Header_Add (key : string) (value : text) (req : Request) : Request :=
  MkRequest (Method req) (URL req) (Header_Add (ReqHeader req) key value) (ReqBody req).

Definition req_Header_Set (key : string) (value : text) (req : Request) : Request :=
  MkRequest (Method req) (URL req) (Header_Set (ReqHeader req) key value) (ReqBody req).

(** Print trace info when the trace flag is set on the commandline *)
Definition traceInfo (info : text) : M unit :=
  if trace flags then log_Println [AStr info] else mret ().

Definition exitOnEmptyString (stringName stringValue : text) : M unit :=
  if blank stringValue
  then log_Fatalf (txt "Error: zero-length string `%s`") [AStr stringName]
  else mret ().

(** Log the error and exit *)
Definition logFatalError (err : option error) : M unit :=
  match err with
  | Some e => log_Fatalf (txt "Error: %s") [AErr e]
  | None => mret ()
  end.

Definition fileExists (filename : text) : M bool :=
  match os_Stat lib filename with
  | StatNotExist => mret false
  | StatInfo isDir => mret (negb isDir)
  | StatOtherError => panic
  end.

Definition validateConfig : M unit :=
  exists_ ← fileExists (ConfigFileUsed viper);
  if exists_ : bool then
    exitOnEmptyString (txt "baseURL") (GetString "baseURL");;
    exitOnEmptyString (txt "tenant") (GetString "tenant");;
    exitOnEmptyString (txt "domain") (GetString "domain");;
    exitOnEmptyString (txt "userName") (GetString "userName");;
    exitOnEmptyString (txt "password") (GetString "password")
  else
    log_Fatalf (txt "Error: Unable to find configfile %q") [AStr (ConfigFileUsed viper)].

(** The request of step 1, with its headers. *)
Definition tokenRequest : option Request :=
  let requestVars :=
    MkGetBearerTokenRequest
      (GetString "userName" ++ txt "@" ++ GetString "domain")
      (GetString "password")
      (GetString "tenant") in
  let jsonValue := json_Marshal lib requestVars in
  req ← NewRequest (txt "POST") (GetString "baseURL" ++ txt "/identity/api/tokens")
        (Some jsonValue);
  Some (req_Header_Set "User-Agent" userAgent
         (req_Header_Add "Accept" (txt "application/json")
           (req_Header_Add "Content-Type" (txt "application/json") req))).

Definition systemMessage_pattern : text :=
  jtxt "('systemMessage':')(.*)(','moreInfoUrl)".

Definition h1_pattern : text := txt "<h1>(.*)</h1>".

(** Step 1 - Get bearer token (POST {baseURL}/identity/api/tokens) *)
Definition getBearerToken : M text :=
  traceInfo (txt "Step 1 - Get bearer token");;
  req ← deref tokenRequest;
  '(resp, err) ← client_Do req;
  logFatalError err;;
  resp ← deref resp;
  let respBody := Body resp in
  (if negb (StatusCode resp =? 200)%Z then
     re ← MustCompile systemMessage_pattern;
     let matches := FindStringSubmatch re respBody in
     m2 ← index matches 2;
     log_Fatalf (txt "Error: Unexpected HTTP response status code %d, %s")
       [AInt (StatusCode resp); AStr m2]
   else mret ());;
  let '(gbtResponse, err) := json_Unmarshal lib respBody in
  logFatalError err;;
  exitOnEmptyString (txt "bearerToken") (ID gbtResponse);;
  mret (txt "Bearer " ++ ID gbtResponse).

Definition resourcesRequest (token : text) : option Request :=
  req ← NewRequest (txt "GET")
        (GetString "baseURL" ++ txt "/catalog-service/api/consumer/resources?page=1&limit=5000")
        None;
  Some (req_Header_Set "User-Agent" userAgent
         (req_Header_Add "Authorization" token
           (req_Header_Add "Accept" (txt "application/json")
             (req_Header_Add "Content-Type" (txt "application/json") req)))).

(** The pattern of step 2; the machine name is spliced in as it is. *)
Definition resource_pattern (machine : text) : text :=
  jtxt "'@type':'CatalogResource','id':'(?P<id>.{36})','iconId':'Infrastructure.CatalogItem.Machine.Virtual.vSphere','resourceTypeRef':{'id':'Infrastructure.Virtual','label':'Virtual Machine'},'name':'.{3}(?P<name>"
  ++ machine ++ jtxt ")','description'".

(** Step 2 - Get VirtualMachine Resource id
    (GET {baseURL}/catalog-service/api/consumer/resources?page=1&limit=5000) *)
Definition getVirtualMachineResourceID (token machine : text) : M text :=
  traceInfo (txt "Step 2 - Get virtual machine resource ID for " ++ machine);;
  req ← deref (resourcesRequest token);
  match ParseForm lib req with
  | Some parseFormErr => log_Println [AErr parseFormErr]
  | None => mret ()
  end;;
  '(resp, err) ← client_Do req;
  logFatalError err;;
  resp ← deref resp;
  let respBody := Body resp in
  (if negb (StatusCode resp =? 200)%Z then
     re ← MustCompile h1_pattern;
     let matches := FindStringSubmatch re respBody in
     m1 ← index matches 1;
     log_Fatalf (txt "Error: %s") [AStr m1]
   else mret ());;
  re ← MustCompile (resource_pattern machine);
  let matches := FindStringSubmatch re respBody in
  match matches with
  | [] =>
      log_Fatalf (txt "Error: Unable to find Catalog Resource id for virtual machine %q")
        [AStr machine]
  | _ =>
      m1 ← index matches 1;
      exitOnEmptyString (txt "machineID") m1
  end;;
  index matches 1.

Definition actionsRequest (token vmID : text) : option Request :=
  req ← NewRequest (txt "GET")
        (GetString "baseURL" ++ txt "/catalog-service/api/consumer/resources/" ++ vmID
         ++ txt "/actions/")
        None;
  Some (req_Header_Set "User-Agent" userAgent
         (req_Header_Add "Authorization" token
           (req_Header_Add "Accept" (txt "application/json")
             (req_Header_Add "Content-Type" (txt "application/json") req)))).

Definition action_pattern : text :=
  jtxt "'name':'Create VM Snapshot'.*?'ACTION','id':'(?P<id>.*?)',".

(** Step 3 - Get snapshot resource resource action id
    (GET {baseURL}/catalog-service/api/consumer/resources/{vmID}/actions/) *)
Definition getSnapshotResourceActionID (token vmID : text) : M text :=
  traceInfo (txt "Step 3 - Get snapshot resource action ID for " ++ machineName flags);;
  req ← deref (actionsRequest token vmID);
  '(resp, err) ← client_Do req;
  match err with
  | Some e => log_Println [AStr (txt "Failure : "); AErr e]
  | None => mret ()
  end;;
  resp ← deref resp;
  let respBody := Body resp in
  (if negb (StatusCode resp =? 200)%Z then
     re ← MustCompile h1_pattern;
     let matches := FindStringSubmatch re respBody in
     m1 ← index matches 1;
     log_Fatalf (txt "Error: %s") [AStr m1]
   else mret ());;
  re ← MustCompile action_pattern;
  let matches := FindStringSubmatch re respBody in
  match matches with
  | [] => log_Fatalf (txt "Error: Unable to find Create Snapshot Action id") []
  | _ =>
      m1 ← index matches 1;
      exitOnEmptyString (txt "Create Snapshot Action ID") m1
  end;;
  index matches 1.

(** Step 4 - Get resource action template: only the trace line. *)
Definition getResourceActionTemplate : M unit :=
  traceInfo (txt "Step 4 - Get resource action template").

(** The two payloads of step 5, as the source spells them. *)
Definition snapshot_json : text :=
  if keepExisting flags then
    jtxt "{'type': 'com.vmware.vcac.catalog.domain.request.CatalogResourceRequest','data': {'provider-existingSnapshotName': null,'provider-deleteExisting': false,'provider-description': 'Snapshotdescription','provider-name': 'Snapshot name','provider-__ASD_PRESENTATION_INSTANCE': null,'provider-__asd_tenantRef': '"
    ++ GetString "tenant" ++ jtxt "'},'description': 'makeSnapshot call'}"
  else
    jtxt "{'type': 'com.vmware.vcac.catalog.domain.request.CatalogResourceRequest','data': {'provider-existingSnapshotName': null,'provider-deleteExisting': true,'provider-description': 'Snapshotdescription','provider-name': 'Snapshot name','provider-__ASD_PRESENTATION_INSTANCE': null,'provider-__asd_tenantRef': '"
    ++ GetString "tenant" ++ jtxt "'},'description': 'makeSnapshot call'}".

Definition snapshotRequest (token vmID snapshotActionID : text) : option Request :=
  req ← NewRequest (txt "POST")
        (GetString "baseURL" ++ txt "/catalog-service/api/consumer/resources/" ++ vmID
         ++ txt "/actions/" ++ snapshotActionID ++ txt "/requests/")
        (Some snapshot_json);
  Some (req_Header_Set "User-Agent" userAgent
         (req_Header_Add "Authorization" token
           (req_Header_Add "Accept" (txt "application/json;charset=UTF-8")
             (req_Header_Add "Content-Type" (txt "application/json;charset=UTF-8") req)))).

(** Step 5 - Send snapshot request
    (POST {baseURL}/catalog-service/api/consumer/resources/{vmID}/actions/{actionID}/requests/) *)
Definition sendSnapshotRequest (token vmID snapshotActionID : text) : M text :=
  traceInfo (txt "Step 5 - Send snapshot request for " ++ machineName flags);;
  req ← deref (snapshotRequest token vmID snapshotActionID);
  '(resp, err) ← client_Do req;
  logFatalError err;;
  resp ← deref resp;
  (if negb (StatusCode resp =? 201)%Z then
     re ← MustCompile h1_pattern;
     let respBody := Body resp in
     let matches := FindStringSubmatch re respBody in
     m1 ← index matches 1;
     log_Fatalf (txt "Error: %s") [AStr m1]
   else mret ());;
  exitOnEmptyString (txt "Resource Action Request URL")
    (Header_Get (RespHeader resp) "Location");;
  mret (Header_Get (RespHeader resp) "Location").

Definition statusRequest (token requestStatusURL : text) : option Request :=
  req ← NewRequest (txt "GET") requestStatusURL None;
  Some (req_Header_Add "Authorization" token
         (req_Header_Add "Accept" (txt "application/json;charset=UTF-8")
           (req_Header_Add "Content-Type" (txt "application/json;charset=UTF-8") req))).

Definition stateName_pattern : text := jtxt "'stateName':'(?P<state>.*?)'".

(** One turn of the polling loop; [true] is [break]. *)
Definition poll_once (req : Request) (re : Regexp) : M bool :=
  time_Sleep (10 * Second);;
  '(resp, err) ← client_Do req;
  match err with
  | Some e => log_Println [AStr (txt "Failure : "); AErr e]
  | None => mret ()
  end;;
  resp ← deref resp;
  let respBody := Body resp in
  let matches := FindStringSubmatch re respBody in
  m1 ← index matches 1;
  traceInfo (txt "Step 6 - Snapshot request status: " ++ m1);;
  (if text_eqb m1 (txt "Failed") then
     log_Fatalf (txt "Error: Snapshot request failed, check the vRA portal for more info") []
   else mret ());;
  if text_eqb m1 (txt "Successful") then mret true else mret false.

(** [for { ... }]: the body is repeated until it breaks.  Every turn takes a
    reply from the script, so [fuel] turns more than the script holds are
    never needed (see [for_ever_fuel]); a run that outlives the script ends
    in [Waiting]. *)
Fixpoint repeat_until (fuel : nat) (body : M bool) : M unit :=
  match fuel with
  | O => stop Waiting
  | S fuel' => brk ← body; if brk : bool then mret () else repeat_until fuel' body
  end.

Definition for_ever (body : M bool) : M unit :=
  fun w => repeat_until (S (length (script w))) body w.

(** Step 6 - Get request result state (GET {requestStatusURL}) *)
Definition getRequestResultState (token requestStatusURL : text) : M unit :=
  traceInfo (txt "Step 6 - Get snapshot request status...");;
  req ← deref (statusRequest token requestStatusURL);
  re ← MustCompile stateName_pattern;
  for_ever (poll_once req re).

(** [rootCmd.Run] *)
Definition Run : M unit :=
  validateConfig;;
  traceInfo (txt "Creating snapshot of virtual machine " ++ [dquote] ++ machineName flags
             ++ [dquote] ++ txt " for tenant " ++ [dquote] ++ GetString "tenant" ++ [dquote]);;
  bearerToken ← getBearerToken;
  virtualMachineID ← getVirtualMachineResourceID bearerToken (machineName flags);
  snapshotActionID ← getSnapshotResourceActionID bearerToken virtualMachineID;
  getResourceActionTemplate;;
  (if negb (dryRun flags) then
     requestStatusURL ← sendSnapshotRequest bearerToken virtualMachineID snapshotActionID;
     getRequestResultState bearerToken requestStatusURL
   else
     traceInfo (txt "Step 5 - Skipped because of dry-run");;
     traceInfo (txt "Step 6 - Skipped because of dry-run"));;
  traceInfo (txt "Bye from makeSnapshot").

(** [Run], cut after step 4: what comes before the dry-run test, and what
    comes after it. *)
Definition stages_1_to_4 : M (text * text * text) :=
  validateConfig;;
  traceInfo (txt "Creating snapshot of virtual machine " ++ [dquote] ++ machineName flags
             ++ [dquote] ++ txt " for tenant " ++ [dquote] ++ GetString "tenant" ++ [dquote]);;
  bearerToken ← getBearerToken;
  virtualMachineID ← getVirtualMachineResourceID bearerToken (machineName flags);
  snapshotActionID ← getSnapshotResourceActionID bearerToken virtualMachineID;
  getResourceActionTemplate;;
  mret (bearerToken, virtualMachineID, snapshotActionID).

Definition stages_5_and_6 (ids : text * text * text) : M unit :=
  let '(bearerToken, virtualMachineID, snapshotActionID) := ids in
  (if negb (dryRun flags) then
     requestStatusURL ← sendSnapshotRequest bearerToken virtualMachineID snapshotActionID;
     getRequestResultState bearerToken requestStatusURL
   else
     traceInfo (txt "Step 5 - Skipped because of dry-run");;
     traceInfo (txt "Step 6 - Skipped because of dry-run"));;
  traceInfo (txt "Bye from makeSnapshot").

End Pipeline.

(** ** Vocabulary of the specification

    The compiled patterns, the lines and events of each step, and the
    predicates in which the properties below are stated. *)

Definition systemMessage_re : Regexp :=
  MkRegexp
    (Cat (Grp 1 (Str (jtxt "'systemMessage':'")))
      (Cat (Grp 2 (AnyStar true))
        (Grp 3 (Str (jtxt "','moreInfoUrl")))))
    3.

Definition h1_re : Regexp :=
  MkRegexp (Cat (Str (txt "<h1>")) (Cat (Grp 1 (AnyStar true)) (Str (txt "</h1>")))) 1.

Definition action_re : Regexp :=
  MkRegexp
    (Cat (Str (jtxt "'name':'Create VM Snapshot'"))
      (Cat (AnyStar false)
        (Cat (Str (jtxt "'ACTION','id':'"))
          (Cat (Grp 1 (AnyStar false)) (Str (jtxt "',"))))))
    1.

Definition stateName_re : Regexp :=
  MkRegexp
    (Cat (Str (jtxt "'stateName':'")) (Cat (Grp 1 (AnyStar false)) (Str [dquote])))
    1.

(** The pattern of step 2 for a machine name that is read literally: the
    dots of the icon and type names are wildcards. *)
Definition resource_re (machine : text) : Regexp :=
  MkRegexp
    (Cat (Str (jtxt "'@type':'CatalogResource','id':'"))
    (Cat (Grp 1 (AnyRep 36))
    (Cat (Str (jtxt "','iconId':'Infrastructure"))
    (Cat Any
    (Cat (Str (txt "CatalogItem"))
    (Cat Any
    (Cat (Str (txt "Machine"))
    (Cat Any
    (Cat (Str (txt "Virtual"))
    (Cat Any
    (Cat (Str (jtxt "vSphere','resourceTypeRef':{'id':'Infrastructure"))
    (Cat Any
    (Cat (Str (jtxt "Virtual','label':'Virtual Machine'},'name':'"))
    (Cat (AnyRep 3)
    (Cat (Grp 2 (Str machine))
         (Str (jtxt "','description'")))))))))))))))))
    2.

(** A machine name without regexp metacharacters. *)
Definition plain (machine : text) : bool := forallb (fun x => negb (is_meta x)) machine.

(** The items of a pattern under compilation after the literal run [m]. *)
Definition lits_onto (m : text) (items : list regex) : list regex :=
  match m with
  | [] => items
  | _ :: _ =>
      match items with
      | Str t :: rest => Str (t ++ m) :: rest
      | _ => Str m :: items
      end
  end.

Section Vocabulary.

Context (lib : Lib) (flags : Flags) (viper : Viper).

(** The line [traceInfo] prints, if any. *)
Definition trace_line (info : text) : list event :=
  if trace flags then [Println [AStr info]] else [].

(** The state that the polling loop reads in a body: [matches[1]] for the
    [stateName] pattern, if the index is in bounds. *)
Definition stateName (body : text) : option text :=
  FindStringSubmatch stateName_re body !! 1.

Definition Failed_message : text :=
  txt "Error: Snapshot request failed, check the vRA portal for more info".

Definition status_line (st : text) : list event :=
  trace_line (txt "Step 6 - Snapshot request status: " ++ st).

(** A reply that keeps the loop going: it carries a state that is neither
    ["Failed"] nor ["Successful"]. *)
Definition pending_reply (r : reply) : Prop :=
  exists resp st,
    r = Replied resp /\ stateName (Body resp) = Some st /\
    st <> txt "Failed" /\ st <> txt "Successful".

(** What is observed during the turn that receives [r]. *)
Definition turn (req : Request) (r : reply) : list event :=
  [Sleep (10 * Second); Do req] ++
  match r with
  | Replied resp =>
      match stateName (Body resp) with
      | Some st => status_line st
      | None => []
      end
  | Failed err _ => [Println [AStr (txt "Failure : "); AErr err]]
  end.

(** ... and during the turns that receive [rs], one after the other. *)
Definition turns (req : Request) (rs : list reply) : list event :=
  concat (map (turn req) rs).

Definition is_Do (e : event) : bool :=
  match e with Do _ => true | _ => false end.

(** The number of requests sent. *)
Definition attempts (tr : list event) : nat := length (List.filter is_Do tr).

(** Every request in [tr] comes right after a sleep of ten seconds. *)
Fixpoint slept_before_each (tr : list event) : bool :=
  match tr with
  | [] => true
  | Sleep d :: Do _ :: tr' => (d =? 10 * Second)%Z && slept_before_each tr'
  | Do _ :: _ => false
  | _ :: tr' => slept_before_each tr'
  end.

(** The sleeps and the requests to [url] among the events. *)
Definition polls_of (url : text) (tr : list event) : list event :=
  List.filter
    (fun e =>
       match e with
       | Sleep _ => true
       | Do req => text_eqb (URL req) url
       | _ => false
       end)
    tr.

Definition zero_length (name : text) : event :=
  Fatalf (txt "Error: zero-length string `%s`") [AStr name].

Definition Step1_line : list event := trace_line (txt "Step 1 - Get bearer token").

Definition Step2_line (machine : text) : list event :=
  trace_line (txt "Step 2 - Get virtual machine resource ID for " ++ machine).

Definition ParseForm_line (req : Request) : list event :=
  match ParseForm lib req with
  | Some parseFormErr => [Println [AErr parseFormErr]]
  | None => []
  end.

Definition not_found (machine : text) : event :=
  Fatalf (txt "Error: Unable to find Catalog Resource id for virtual machine %q")
    [AStr machine].

Definition Step3_line : list event :=
  trace_line (txt "Step 3 - Get snapshot resource action ID for " ++ machineName flags).

Definition Failure_line (err : error) : event :=
  Println [AStr (txt "Failure : "); AErr err].

(** Step 3 once a response is at hand. *)
Definition action_of (resp : Response) (w1 : world) : result text * world :=
  if negb (StatusCode resp =? 200)%Z then
    match FindStringSubmatch h1_re (Body resp) !! 1 with
    | Some m1 => (Exit 1, note w1 [Fatalf (txt "Error: %s") [AStr m1]])
    | None => (Panic, w1)
    end
  else
    match FindStringSubmatch action_re (Body resp) with
    | [] =>
        (Exit 1, note w1 [Fatalf (txt "Error: Unable to find Create Snapshot Action id") []])
    | matches =>
        match matches !! 1 with
        | Some m1 =>
            if blank m1
            then (Exit 1, note w1 [zero_length (txt "Create Snapshot Action ID")])
            else (Ret m1, w1)
        | None => (Panic, w1)
        end
    end.

Definition Step5_line : list event :=
  trace_line (txt "Step 5 - Send snapshot request for " ++ machineName flags).

Definition Step6_line : list event :=
  trace_line (txt "Step 6 - Get snapshot request status...").

(** The body has a ["stateName":"..."] member on one line. *)
Definition has_stateName (body : text) : Prop :=
  exists pre st post,
    body = pre ++ jtxt "'stateName':'" ++ st ++ [dquote] ++ post /\ Forall not_nl st.

(** The body has the system message of an identity-service error. *)
Definition has_systemMessage (body : text) : Prop :=
  exists pre msg post,
    body = pre ++ jtxt "'systemMessage':'" ++ msg ++ jtxt "','moreInfoUrl" ++ post /\
    Forall not_nl msg.

(** The body has a first-level heading on one line. *)
Definition has_h1 (body : text) : Prop :=
  exists pre title post,
    body = pre ++ txt "<h1>" ++ title ++ txt "</h1>" ++ post /\ Forall not_nl title.

(** Log lines are always allowed, sleeps never, requests when [R] holds. *)
Definition only_requests (R : Request -> Prop) (e : event) : Prop :=
  match e with
  | Println _ | Fatalf _ _ => True
  | Sleep _ => False
  | Do req => R req
  end.

(** Every run of [m] extends the observations by events that satisfy [P]. *)
Definition emits {A} (P : event -> Prop) (m : M A) : Prop :=
  forall w, exists tr, observed (m w).2 = observed w ++ tr /\ Forall P tr.

(** The requests of steps 1 to 3. *)
Definition read_request (req : Request) : Prop :=
  tokenRequest lib flags viper = Some req \/
  (exists token, resourcesRequest lib flags viper token = Some req) \/
  (exists token vmID, actionsRequest lib flags viper token vmID = Some req).

Definition skipped_lines : list event :=
  trace_line (txt "Step 5 - Skipped because of dry-run")
  ++ trace_line (txt "Step 6 - Skipped because of dry-run")
  ++ trace_line (txt "Bye from makeSnapshot").

(** The configuration values [validateConfig] insists on, in its order. *)
Definition required_keys : list string :=
  ["baseURL"; "tenant"; "domain"; "userName"; "password"]%string.

Definition first_blank : option string :=
  List.find (fun key => blank (GetString flags viper key)) required_keys.

Definition no_config_file : event :=
  Fatalf (txt "Error: Unable to find configfile %q") [AStr (ConfigFileUsed viper)].

(** No request and no sleep among the events. *)
Definition quiet (tr : list event) : Prop :=
  Forall (only_requests (fun _ => False)) tr.

Definition json_bool (b : bool) : text := if b then txt "true" else txt "false".

Definition payload_head : text :=
  jtxt "{'type': 'com.vmware.vcac.catalog.domain.request.CatalogResourceRequest','data': {'provider-existingSnapshotName': null,'provider-deleteExisting': ".

Definition payload_tail (tenant : text) : text :=
  jtxt ",'provider-description': 'Snapshotdescription','provider-name': 'Snapshot name','provider-__ASD_PRESENTATION_INSTANCE': null,'provider-__asd_tenantRef': '"
  ++ tenant ++ jtxt "'},'description': 'makeSnapshot call'}".

(** [mid] is the text of a catalog entry that the pattern of step 2 accepts
    for [machine], with identifier [id]: the markers of a virtual machine
    (each dot of the pattern standing for any character [d1] to [d5]), an
    identifier of 36 characters, and a name made of three characters
    followed by exactly [machine]. *)
Definition matched_entry (machine id mid : text) : Prop :=
  exists d1 d2 d3 d4 d5 pfx,
    mid =
      jtxt "'@type':'CatalogResource','id':'" ++ id
      ++ jtxt "','iconId':'Infrastructure" ++ [d1] ++ txt "CatalogItem" ++ [d2]
      ++ txt "Machine" ++ [d3] ++ txt "Virtual" ++ [d4]
      ++ jtxt "vSphere','resourceTypeRef':{'id':'Infrastructure" ++ [d5]
      ++ jtxt "Virtual','label':'Virtual Machine'},'name':'" ++ pfx ++ machine
      ++ jtxt "','description'" /\
    length id = 36 /\ length pfx = 3 /\
    Forall not_nl id /\ Forall not_nl pfx /\ Forall not_nl [d1; d2; d3; d4; d5].

(** The listing has such an entry. *)
Definition has_entry (machine body : text) : Prop :=
  exists pre id mid post, body = pre ++ mid ++ post /\ matched_entry machine id mid.

(** The leftmost entry for [machine] in [body], with its identifier. *)
Definition first_entry (machine body id : text) : Prop :=
  exists pre whole post,
    body = pre ++ whole ++ post /\ matched_entry machine id whole /\
    forall pre' id' mid' post',
      body = pre' ++ mid' ++ post' -> matched_entry machine id' mid' ->
      length pre <= length pre'.

End Vocabulary.

(** ** Sample data for concrete runs *)

Module Sample.

Definition id_re : Regexp :=
  MkRegexp (Cat (Str (jtxt "'id':'")) (Cat (Grp 1 (AnyStar false)) (Str [dquote]))) 1.

(** Stand-ins for the library functions: every URL is accepted, and the
    token response is read by looking for its [id] member. *)
Definition lib : Lib :=
  MkLib
    (fun _ => true)
    (fun r => jtxt "{'username':'" ++ Username r ++ jtxt "','password':'" ++ Password r
              ++ jtxt "','tenant':'" ++ Tenant r ++ jtxt "'}")
    (fun body =>
       match FindStringSubmatch id_re body with
       | [_; id] => (MkGetBearerTokenResponse [] id [], None)
       | _ => (MkGetBearerTokenResponse [] [] [], Some (txt "unexpected end of JSON input"))
       end)
    (fun _ => None)
    (fun _ => StatInfo false).

Definition flags : Flags := MkFlags [] None false false (txt "web01") false.

Definition viper : Viper :=
  MkViper
    (list_to_map
       [("baseURL"%string, txt "https://vra.example");
        ("tenant"%string, txt "acme");
        ("domain"%string, txt "corp.local");
        ("userName"%string, txt "deploy");
        ("password"%string, txt "s3cret")])
    (txt "makeSnapshot.yaml").

Definition ok (body : text) : reply := Replied (MkResponse 200 ∅ body).

Definition token_reply : reply :=
  ok (jtxt "{'expires':'2019-05-01T12:00:00.000Z','id':'MTU1NjUzNzA3NDIxNTo=','tenant':'acme'}").

(** One entry of the resource listing. *)
Definition entry (id name : text) : text :=
  jtxt "{'@type':'CatalogResource','id':'" ++ id
  ++ jtxt "','iconId':'Infrastructure.CatalogItem.Machine.Virtual.vSphere','resourceTypeRef':{'id':'Infrastructure.Virtual','label':'Virtual Machine'},'name':'"
  ++ name ++ jtxt "','description':null}".

Definition listing (entries : list text) : text :=
  jtxt "{'content':[" ++ concat entries ++ jtxt "]}".

Definition web01_id : text := txt "2a415ba9-81f5-4bff-b35f-bccfd5587165".

Definition resources_reply : reply :=
  ok (listing [entry web01_id (txt "KPNweb01")]).

Definition actions_reply : reply :=
  ok (jtxt "{'content':[{'name':'Create VM Snapshot','bindingId':'x','type':'ACTION','id':'fcf490d5-a7e9-4640-be83-ac74d4484c91','extensionId':null}]}").

Definition status_url : text := txt "https://vra.example/catalog-service/api/consumer/requests/7c1d".

Definition created_reply : reply :=
  Replied (MkResponse 201 {["Location"%string := [status_url]]} []).

Definition poll_reply (state : text) : reply :=
  ok (jtxt "{'@type':'CatalogItemRequest','id':'7c1d','stateName':'" ++ state
      ++ jtxt "','phase':'x'}").

Definition in_progress : reply := poll_reply (txt "In Progress").
Definition successful : reply := poll_reply (txt "Successful").
Definition failed : reply := poll_reply (txt "Failed").

(** The replies of the stages before the polling loop. *)
Definition submitted : list reply :=
  [token_reply; resources_reply; actions_reply; created_reply].

Definition start (replies : list reply) : world := World replies [].

Definition token : text := txt "Bearer MTU1NjUzNzA3NDIxNTo=".

End Sample.

(** ** Concrete runs *)

Module Runs.

Import Sample.

Definition refused : error := txt "dial tcp 10.0.0.1:443: connect: connection refused".

(** The connection drops when step 3 asks for the actions. *)
Definition step3_refused : world :=
  start [token_reply; resources_reply; Failed refused None].

(** A listing whose only entry for web01 has a blank identifier. *)
Definition blank_id : text := replicate 36 32%N.

Definition blank_listing : text := listing [entry blank_id (txt "KPNweb01")].

(** The requests that steps 1, 2, 3 and 5 send in the sample runs. *)
Definition request2 : Request :=
  req_Header_Set "User-Agent" userAgent
    (req_Header_Add "Authorization" token
      (req_Header_Add "Accept" (txt "application/json")
        (req_Header_Add "Content-Type" (txt "application/json")
          (MkRequest (txt "GET")
             (txt "https://vra.example/catalog-service/api/consumer/resources?page=1&limit=5000")
             ∅ None)))).

(** A listing whose only machine is named KPNwebX1. *)
Definition other_listing : text := listing [entry web01_id (txt "KPNwebX1")].


(** The sample flags with dry-run set. *)
Definition dry : Flags := MkFlags [] None true false (txt "web01") false.


(** The error page of an application server. *)
Definition server_error : Response :=
  MkResponse 500 ∅ (txt "<html><body><h1>HTTP Status 500 - Internal Server Error</h1></body></html>").

Definition request5 : Request :=
  req_Header_Set "User-Agent" userAgent
    (req_Header_Add "Authorization" token
      (req_Header_Add "Accept" (txt "application/json;charset=UTF-8")
        (req_Header_Add "Content-Type" (txt "application/json;charset=UTF-8")
          (MkRequest (txt "POST")
             (txt "https://vra.example/catalog-service/api/consumer/resources/2a415ba9-81f5-4bff-b35f-bccfd5587165/actions/fcf490d5-a7e9-4640-be83-ac74d4484c91/requests/")
             ∅ (Some (snapshot_json flags viper)))))).

Definition action_id : text := txt "fcf490d5-a7e9-4640-be83-ac74d4484c91".

Definition request1 : Request :=
  req_Header_Set "User-Agent" userAgent
    (req_Header_Add "Accept" (txt "application/json")
      (req_Header_Add "Content-Type" (txt "application/json")
        (MkRequest (txt "POST") (txt "https://vra.example/identity/api/tokens") ∅
           (Some (jtxt "{'username':'deploy@corp.local','password':'s3cret','tenant':'acme'}"))))).

Definition request3 : Request :=
  req_Header_Set "User-Agent" userAgent
    (req_Header_Add "Authorization" token
      (req_Header_Add "Accept" (txt "application/json")
        (req_Header_Add "Content-Type" (txt "application/json")
          (MkRequest (txt "GET")
             (txt "https://vra.example/catalog-service/api/consumer/resources/2a415ba9-81f5-4bff-b35f-bccfd5587165/actions/")
             ∅ None)))).

End Runs.

(** ** Vocabulary of the further properties *)

(** *** Fields between two literals *)

(** [r] reads the literal [a] and nothing else, capturing [ca]. *)
Definition literal (r : regex) (a : text) (ca : caps) : Prop :=
  forall (X : Type) (K : text -> caps -> option X) s c,
    exec r K s c =
    match strip_prefix a s with
    | Some s' => K s' (ca ++ c)
    | None => None
    end.

(** The continuation of [find] at the start position whose rest is [rest]. *)
Definition found (rest : text) : text -> caps -> option (text * caps) :=
  fun s' c => Some (take (length rest - length s') rest, c).

(** [body] has the field [st] on one line between the literals [a] and
    [e], after [pre] and before [post]. *)
Definition field_at (a e body pre st post : text) : Prop :=
  body = pre ++ a ++ st ++ e ++ post /\ Forall not_nl st.

(** No such field starts before the end of [pre]. *)
Definition leftmost_field (a e body pre : text) : Prop :=
  forall pre' st' post', field_at a e body pre' st' post' -> length pre <= length pre'.

(** The field that a greedy run between [a] and [e] reads: it opens at the
    leftmost [a] that has an [e] further on its line, and closes at the
    last [e] of that line. *)
Definition widest_field (a e body st : text) : Prop :=
  exists pre post,
    field_at a e body pre st post /\ leftmost_field a e body pre /\
    forall p q, e ++ post = p ++ e ++ q -> p <> [] -> ~ Forall not_nl p.

(** The field that a lazy run between [a] and [e] reads: it opens at the
    same place and closes at the first [e] from there. *)
Definition narrowest_field (a e body st : text) : Prop :=
  exists pre post,
    field_at a e body pre st post /\ leftmost_field a e body pre /\
    forall p q r, st = p ++ q -> q <> [] -> q ++ e ++ post <> e ++ r.

Definition stateName_marker : text := jtxt "'stateName':'".

(** [st] is the value of the first ["stateName":"..."] member of [body]
    that is closed on its line, up to the next double quote. *)
Definition first_stateName (body st : text) : Prop :=
  exists pre post,
    body = pre ++ stateName_marker ++ st ++ [dquote] ++ post /\
    Forall not_nl st /\ (dquote ∉ st) /\
    forall pre' st' post',
      body = pre' ++ stateName_marker ++ st' ++ [dquote] ++ post' ->
      Forall not_nl st' -> length pre <= length pre'.

(** *** The diagnostics of an unexpected status *)

(** The delimiters of the diagnostics that steps 1, 2, 3 and 5 print when
    the status of a response is not the expected one. *)
Definition systemMessage_open : text := jtxt "'systemMessage':'".
Definition systemMessage_close : text := jtxt "','moreInfoUrl".
Definition h1_open : text := txt "<h1>".
Definition h1_close : text := txt "</h1>".

Definition Unexpected_status (status : Z) (message : text) : event :=
  Fatalf (txt "Error: Unexpected HTTP response status code %d, %s")
    [AInt status; AStr message].

Definition Error_line (title : text) : event := Fatalf (txt "Error: %s") [AStr title].

(** *** The snapshot action of step 3 *)

(** The three literals of the pattern of step 3. *)
Definition action_name : text := jtxt "'name':'Create VM Snapshot'".
Definition action_kind : text := jtxt "'ACTION','id':'".
Definition action_close : text := jtxt "',".

(** [body] names the snapshot action after [pre]; on the same line, after
    [gap], comes the identifier [id] of an action. *)
Definition action_at (body pre gap id post : text) : Prop :=
  body = pre ++ action_name ++ gap ++ action_kind ++ id ++ action_close ++ post /\
  Forall not_nl gap /\ Forall not_nl id.

Definition has_action (body : text) : Prop :=
  exists pre gap id post, action_at body pre gap id post.

(** The identifier that step 3 reads: after the leftmost name that has an
    identifier on its line, the first identifier from there, up to the
    first closing delimiter. *)
Definition first_action (body id : text) : Prop :=
  exists pre gap post,
    action_at body pre gap id post /\
    (forall pre' gap' id' post',
       action_at body pre' gap' id' post' -> length pre <= length pre') /\
    (forall p q id' post',
       gap = p ++ q -> q <> [] ->
       ~ field_at action_kind action_close
           (q ++ action_kind ++ id ++ action_close ++ post) [] id' post') /\
    (forall p q r, id = p ++ q -> q <> [] -> q ++ action_close ++ post <> action_close ++ r).

Definition no_action : event :=
  Fatalf (txt "Error: Unable to find Create Snapshot Action id") [].

(** *** Programs built alike *)

(** The flags with the trace flag set to [b]. *)
Definition with_trace (b : bool) (flags : Flags) : Flags :=
  MkFlags (configFile flags) (domain flags) (dryRun flags) (keepExisting flags)
    (machineName flags) b.

(** Everything but the lines that [traceInfo] prints. *)
Definition silent (e : event) : bool :=
  match e with
  | Println [AStr _] => false
  | _ => true
  end.

(** Two programs built in the same way from the primitive actions, the
    one under the flags [f1], the other under [f2], which [traceInfo]
    reads. *)
Inductive alike (f1 f2 : Flags) : forall A : Type, M A -> M A -> Prop :=
| alike_ret A (a : A) : alike f1 f2 A (mret a) (mret a)
| alike_Panic A : alike f1 f2 A panic panic
| alike_Unmodelled A : alike f1 f2 A (stop Unmodelled) (stop Unmodelled)
| alike_Println args :
    silent (Println args) = true -> alike f1 f2 unit (log_Println args) (log_Println args)
| alike_Sleep d : alike f1 f2 unit (time_Sleep d) (time_Sleep d)
| alike_Fatalf A format args :
    alike f1 f2 A (log_Fatalf format args) (log_Fatalf format args)
| alike_Do req : alike f1 f2 _ (client_Do req) (client_Do req)
| alike_traceInfo info : alike f1 f2 unit (traceInfo f1 info) (traceInfo f2 info)
| alike_bind A B m1 m2 (k1 k2 : A -> M B) :
    alike f1 f2 A m1 m2 -> (forall a, alike f1 f2 B (k1 a) (k2 a)) ->
    alike f1 f2 B (m1 ≫= k1) (m2 ≫= k2)
| alike_for_ever body1 body2 :
    alike f1 f2 bool body1 body2 -> alike f1 f2 unit (for_ever body1) (for_ever body2).

Definition is_Fatalf (e : event) : bool :=
  match e with Fatalf _ _ => true | _ => false end.

(** The same outcome, the same replies left, and the same observations
    apart from the trace lines. *)
Definition same_but_trace {A} (x y : result A * world) : Prop :=
  x.1 = y.1 /\ script x.2 = script y.2 /\
  List.filter silent (observed x.2) = List.filter silent (observed y.2).

(** [tr] is what a run with outcome [r] may log: a fatal diagnostic is the
    last event of an exit with status 1, and occurs nowhere else. *)
Definition fatal_last {A} (r : result A) (tr : list event) : Prop :=
  match r with
  | Exit code =>
      code = 1%Z /\
      exists tr0 format args,
        tr = tr0 ++ [Fatalf format args] /\ List.filter is_Fatalf tr0 = []
  | _ => List.filter is_Fatalf tr = []
  end.

(** *** The lines, the URLs and the paths of a run *)

(** The lines of [Run] itself and of step 4. *)
Definition Creating_line (flags : Flags) (viper : Viper) : list event :=
  trace_line flags
    (txt "Creating snapshot of virtual machine " ++ [dquote] ++ machineName flags
     ++ [dquote] ++ txt " for tenant " ++ [dquote] ++ GetString flags viper "tenant"
     ++ [dquote]).

Definition Step4_line (flags : Flags) : list event :=
  trace_line flags (txt "Step 4 - Get resource action template").

Definition Bye_line (flags : Flags) : list event :=
  trace_line flags (txt "Bye from makeSnapshot").

(** The URLs of steps 1, 2, 3 and 5. *)
Definition tokens_url (flags : Flags) (viper : Viper) : text :=
  GetString flags viper "baseURL" ++ txt "/identity/api/tokens".

Definition resources_url (flags : Flags) (viper : Viper) : text :=
  GetString flags viper "baseURL"
  ++ txt "/catalog-service/api/consumer/resources?page=1&limit=5000".

Definition actions_url (flags : Flags) (viper : Viper) (vmID : text) : text :=
  GetString flags viper "baseURL" ++ txt "/catalog-service/api/consumer/resources/" ++ vmID
  ++ txt "/actions/".

Definition requests_url (flags : Flags) (viper : Viper) (vmID actionID : text) : text :=
  GetString flags viper "baseURL" ++ txt "/catalog-service/api/consumer/resources/" ++ vmID
  ++ txt "/actions/" ++ actionID ++ txt "/requests/".

(** The one way in which a run that is not a dry run returns normally, from
    the world [w] to the world [w']: the configuration, the replies taken
    and what they hold, the requests sent, the observations.  The machine
    identifier is that of the leftmost entry of the listing which is named
    with the machine name read literally. *)
Definition success_path (lib : Lib) (flags : Flags) (viper : Viper) (w w' : world) : Prop :=
  exists r1 r2 r3 r4 pending last q1 q2 q3 q5 q6 gbt vmID actionID,
    let token := txt "Bearer " ++ ID gbt in
    let url := Header_Get (RespHeader r4) "Location" in
    (os_Stat lib (ConfigFileUsed viper) = StatInfo false /\
     first_blank flags viper = None) /\
    script w =
      Replied r1 :: Replied r2 :: Replied r3 :: Replied r4
      :: pending ++ Replied last :: script w' /\
    (tokenRequest lib flags viper = Some q1 /\
     resourcesRequest lib flags viper token = Some q2 /\
     actionsRequest lib flags viper token vmID = Some q3 /\
     snapshotRequest lib flags viper token vmID actionID = Some q5 /\
     statusRequest lib token url = Some q6) /\
    (StatusCode r1 = 200%Z /\ json_Unmarshal lib (Body r1) = (gbt, None) /\
     blank (ID gbt) = false) /\
    (StatusCode r2 = 200%Z /\ first_entry (machineName flags) (Body r2) vmID /\
     blank vmID = false) /\
    (StatusCode r3 = 200%Z /\ first_action (Body r3) actionID /\ blank actionID = false) /\
    (StatusCode r4 = 201%Z /\ blank url = false) /\
    (Forall pending_reply pending /\ stateName (Body last) = Some (txt "Successful")) /\
    observed w' =
      observed w ++ Creating_line flags viper
      ++ Step1_line flags ++ [Do q1]
      ++ Step2_line flags (machineName flags) ++ ParseForm_line lib q2 ++ [Do q2]
      ++ Step3_line flags ++ [Do q3]
      ++ Step4_line flags
      ++ Step5_line flags ++ [Do q5]
      ++ Step6_line flags ++ turns flags q6 (pending ++ [Replied last])
      ++ Bye_line flags.

(** The way through steps 1 to 4, from the world [w] to the world [w4],
    with the token and the identifiers that the steps hand on. *)
Definition read_path (lib : Lib) (flags : Flags) (viper : Viper) (w w4 : world)
    (ids : text * text * text) : Prop :=
  exists r1 r2 r3 q1 q2 q3 gbt,
    let '(token, vmID, actionID) := ids in
    (os_Stat lib (ConfigFileUsed viper) = StatInfo false /\
     first_blank flags viper = None) /\
    script w = Replied r1 :: Replied r2 :: Replied r3 :: script w4 /\
    (tokenRequest lib flags viper = Some q1 /\
     resourcesRequest lib flags viper token = Some q2 /\
     actionsRequest lib flags viper token vmID = Some q3) /\
    (StatusCode r1 = 200%Z /\ json_Unmarshal lib (Body r1) = (gbt, None) /\
     blank (ID gbt) = false /\ token = txt "Bearer " ++ ID gbt) /\
    (StatusCode r2 = 200%Z /\ first_entry (machineName flags) (Body r2) vmID /\
     blank vmID = false) /\
    (StatusCode r3 = 200%Z /\ first_action (Body r3) actionID /\ blank actionID = false) /\
    observed w4 =
      observed w ++ Creating_line flags viper
      ++ Step1_line flags ++ [Do q1]
      ++ Step2_line flags (machineName flags) ++ ParseForm_line lib q2 ++ [Do q2]
      ++ Step3_line flags ++ [Do q3]
      ++ Step4_line flags.

(** The run never stops at a pattern outside the embedded fragment. *)
Definition modelled {A} (m : M A) : Prop := forall w, (m w).1 <> Unmodelled.

(** *** A machine name with a dot *)

Definition dot : rune := ch ".".

(** What the pattern of step 2 holds in its second group for the machine
    name [m1.m2]: the dot stands for any character. *)
Definition dotted_name (m1 m2 : text) : regex :=
  cat_all (rev (lits_onto m2 (Any :: lits_onto m1 []))).

Definition dotted_re (m1 m2 : text) : Regexp :=
  MkRegexp
    (Cat (Str (jtxt "'@type':'CatalogResource','id':'"))
    (Cat (Grp 1 (AnyRep 36))
    (Cat (Str (jtxt "','iconId':'Infrastructure"))
    (Cat Any
    (Cat (Str (txt "CatalogItem"))
    (Cat Any
    (Cat (Str (txt "Machine"))
    (Cat Any
    (Cat (Str (txt "Virtual"))
    (Cat Any
    (Cat (Str (jtxt "vSphere','resourceTypeRef':{'id':'Infrastructure"))
    (Cat Any
    (Cat (Str (jtxt "Virtual','label':'Virtual Machine'},'name':'"))
    (Cat (AnyRep 3)
    (Cat (Grp 2 (dotted_name m1 m2))
         (Str (jtxt "','description'")))))))))))))))))
    2.

(** [mid] is an entry of a virtual machine whose name is three characters
    followed by [m1], any one character, and [m2]. *)
Definition dotted_entry (m1 m2 id mid : text) : Prop :=
  exists d, not_nl d /\ matched_entry (m1 ++ [d] ++ m2) id mid.

Definition has_dotted_entry (m1 m2 body : text) : Prop :=
  exists pre id mid post, body = pre ++ mid ++ post /\ dotted_entry m1 m2 id mid.

(** The leftmost such entry of [body], with its identifier. *)
Definition first_dotted_entry (m1 m2 body id : text) : Prop :=
  exists pre whole post,
    body = pre ++ whole ++ post /\ dotted_entry m1 m2 id whole /\
    forall pre' id' mid' post',
      body = pre' ++ mid' ++ post' -> dotted_entry m1 m2 id' mid' ->
      length pre <= length pre'.

(** ** The [generateConfig] command *)

(** What the command does to the file system and to the log.  A call on a
    nil [*os.File] returns [os.ErrInvalid] and does nothing: it leaves no
    event.  Writes to an open file are taken to succeed (the program
    ignores their results). *)
Inductive fs_event :=
| Created (name : text)
| Wrote (name : text) (s : text)
| Synced (name : text)
| Closed (name : text)
| Printf (format : text) (args : list arg).

Definition FsM (A : Type) : Type := list fs_event -> result A * list fs_event.

#[global] Instance FsM_ret : MRet FsM := fun A a tr => (Ret a, tr).

#[global] Instance FsM_bind : MBind FsM := fun A B f m tr =>
  match m tr with
  | (Ret a, tr') => f a tr'
  | (Exit code, tr') => (Exit code, tr')
  | (Panic, tr') => (Panic, tr')
  | (Waiting, tr') => (Waiting, tr')
  | (Unmodelled, tr') => (Unmodelled, tr')
  end.

Definition fs_emit (e : fs_event) : FsM unit := fun tr => (Ret (), tr ++ [e]).

(** A computation of the root command that neither sends nor logs, run
    beside the file system. *)
Definition beside {A} (m : M A) : FsM A := fun tr => ((m (World [] [])).1, tr).

Definition log_Printf (format : text) (args : list arg) : FsM unit :=
  fs_emit (Printf format args).

(** A method of [*os.File] that checks its receiver. *)
Definition on_file (file : option text) (call : text -> fs_event) : FsM unit :=
  match file with
  | Some name => fs_emit (call name)
  | None => mret ()
  end.

Definition file_WriteString (file : option text) (s : text) : FsM unit :=
  on_file file (fun name => Wrote name s).

Definition file_Sync (file : option text) : FsM unit := on_file file Synced.

Definition file_Close (file : option text) : FsM unit := on_file file Closed.

Definition nl : rune := 10%N.

Section GenerateConfig.

Context (lib : Lib).

(** The error of [os.Create(name)], if any. *)
Context (os_Create_error : text -> option error).

(** [os.Create]: the open file, or nil and the error. *)
Definition os_Create (name : text) : FsM (option text * option error) :=
  match os_Create_error name with
  | None => fs_emit (Created name);; mret (Some name, None)
  | Some err => mret (None, Some err)
  end.

Definition writeSampleConfigFile (configFile : text) : FsM unit :=
  exists_ ← beside (fileExists lib configFile);
  if negb exists_ then
    '(file, err) ← os_Create configFile;
    match err with
    | Some e => log_Printf (txt "Error: %s") [AErr e]
    | None => mret ()
    end;;
    file_WriteString file (txt "---" ++ [nl]);;
    file_WriteString file (jtxt "baseURL: 'https://your.base.url'" ++ [nl]);;
    file_WriteString file (jtxt "tenant: 'your tenant name'" ++ [nl]);;
    file_WriteString file (jtxt "domain: 'your domain name'" ++ [nl]);;
    file_WriteString file (jtxt "username: 'your username without domain'" ++ [nl]);;
    file_WriteString file (jtxt "password: 'your password'" ++ [nl]);;
    file_WriteString file (txt "..." ++ [nl]);;
    file_Sync file;;
    file_Close file;;
    log_Printf (txt "Created config file %q") [AStr configFile]
  else
    log_Printf (txt "Error: Unable to create %q, file or directory already exists")
      [AStr configFile].

End GenerateConfig.

(** The lines of the sample configuration. *)
Definition sample_lines : list text :=
  [ txt "---";
    jtxt "baseURL: 'https://your.base.url'";
    jtxt "tenant: 'your tenant name'";
    jtxt "domain: 'your domain name'";
    jtxt "username: 'your username without domain'";
    jtxt "password: 'your password'";
    txt "..." ].

(** What has been written to the file [name], in order. *)
Fixpoint written (name : text) (tr : list fs_event) : text :=
  match tr with
  | [] => []
  | Wrote name' s :: tr' =>
      (if text_eqb name' name then s else []) ++ written name tr'
  | _ :: tr' => written name tr'
  end.

(** The events that touch the file system. *)
Definition touches (e : fs_event) : bool :=
  match e with
  | Printf _ _ => false
  | _ => true
  end.

Definition Created_line (name : text) : fs_event :=
  Printf (txt "Created config file %q") [AStr name].

Definition already_exists (name : text) : fs_event :=
  Printf (txt "Error: Unable to create %q, file or directory already exists") [AStr name].

(** ** Sample data for the further properties *)

Module Cases.

(** The body of a poll reply. *)
Definition poll_body : text :=
  jtxt "{'@type':'CatalogItemRequest','id':'7c1d','stateName':'In Progress','phase':'x'}".

(** The response of the identity service to wrong credentials. *)
Definition identity_error : Response :=
  MkResponse 400 ∅
    (jtxt "{'errors':[{'code':90135,'message':'Unable to authenticate user.','systemMessage':'Invalid username or password.','moreInfoUrl':null}]}").

Definition actions_response : Response :=
  MkResponse 200 ∅
    (jtxt "{'content':[{'name':'Create VM Snapshot','bindingId':'x','type':'ACTION','id':'fcf490d5-a7e9-4640-be83-ac74d4484c91','extensionId':null}]}").

(** A library whose [http.NewRequest] rejects a URL with a space in it. *)
Definition strict : Lib :=
  MkLib (fun url => negb (existsb (N.eqb 32) url))
    (json_Marshal Sample.lib) (json_Unmarshal Sample.lib) (ParseForm Sample.lib)
    (os_Stat Sample.lib).

(** The sample configuration with a space in the host of the base URL. *)
Definition spaced : Viper :=
  MkViper (<["baseURL"%string := txt "https://vra example"]> (store Sample.viper))
    (ConfigFileUsed Sample.viper).

(** A reply to the submission without a heading: an error of the catalog
    service in JSON. *)
Definition forbidden : Response :=
  MkResponse 403 ∅ (jtxt "{'errors':[{'code':10103,'message':'Forbidden'}]}").

(** A reply of status 200 whose body holds none of the patterns. *)
Definition empty_object : reply := Sample.ok (txt "{}").

Definition request6 : Request :=
  req_Header_Add "Authorization" Sample.token
    (req_Header_Add "Accept" (txt "application/json;charset=UTF-8")
      (req_Header_Add "Content-Type" (txt "application/json;charset=UTF-8")
        (MkRequest (txt "GET") Sample.status_url ∅ None))).

End Cases.

(** * Proofs *)

(** ** Correctness of the matcher *)

Section MatcherFacts.

Lemma strip_prefix_Some t s s' : strip_prefix t s = Some s' -> s = t ++ s'.
Proof.
  revert s. induction t as [|a t IH]; intros [|b s] H; simpl in *; try congruence.
  destruct (N.eqb_spec a b); [|discriminate].
  subst. f_equal. by apply IH.
Qed.

Lemma strip_prefix_app t s : strip_prefix t (t ++ s) = Some s.
Proof.
  induction t as [|a t IH]; simpl; [by destruct s|].
  by rewrite N.eqb_refl.
Qed.

Lemma take_app_sub (s1 s2 : text) :
  take (length (s1 ++ s2) - length s2) (s1 ++ s2) = s1.
Proof.
  rewrite length_app.
  replace (length s1 + length s2 - length s2) with (length s1) by lia.
  by rewrite take_app_length.
Qed.

Context {X : Type}.
Implicit Types (k : text -> option X) (K : text -> caps -> option X).

Lemma star_greedy_sound k s v :
  star_greedy k s = Some v ->
  exists s1 s2, s = s1 ++ s2 /\ Forall not_nl s1 /\ k s2 = Some v.
Proof.
  induction s as [|x s IH]; simpl; intros H.
  - by exists [], [].
  - destruct (is_nl x) eqn:Hx.
    + by exists [], (x :: s).
    + destruct (star_greedy k s) as [w|] eqn:Hs.
      * destruct (IH H) as (s1 & s2 & -> & Hall & Hk).
        exists (x :: s1), s2. split_and!; [done| by constructor | done].
      * by exists [], (x :: s).
Qed.

Lemma star_lazy_sound k s v :
  star_lazy k s = Some v ->
  exists s1 s2, s = s1 ++ s2 /\ Forall not_nl s1 /\ k s2 = Some v.
Proof.
  induction s as [|x s IH]; simpl; intros H.
  - exists [], []. by destruct (k []).
  - destruct (k (x :: s)) as [w|] eqn:Hk.
    + exists [], (x :: s). split_and!; [done | constructor | congruence].
    + destruct (is_nl x) eqn:Hx; [discriminate|].
      destruct (IH H) as (s1 & s2 & -> & Hall & Hk').
      exists (x :: s1), s2. split_and!; [done | by constructor | done].
Qed.

Lemma rep_sound n k s v :
  rep n k s = Some v ->
  exists s1 s2, s = s1 ++ s2 /\ length s1 = n /\ Forall not_nl s1 /\ k s2 = Some v.
Proof.
  revert s. induction n as [|n IH]; simpl; intros s H.
  - by exists [], s.
  - destruct s as [|x s]; [discriminate|].
    destruct (is_nl x) eqn:Hx; [discriminate|].
    destruct (IH _ H) as (s1 & s2 & -> & Hlen & Hall & Hk).
    exists (x :: s1), s2. split_and!; [done | simpl; lia | by constructor | done].
Qed.

Lemma star_greedy_complete k s1 s2 :
  Forall not_nl s1 -> is_Some (k s2) -> is_Some (star_greedy k (s1 ++ s2)).
Proof.
  intros Hall Hk. induction Hall as [|x s1 Hx _ IH]; simpl.
  - destruct s2 as [|y s2]; simpl; [done|].
    destruct (is_nl y); [done|]. by destruct (star_greedy k s2).
  - rewrite Hx. destruct IH as [w ->]. by eexists.
Qed.

Lemma star_lazy_complete k s1 s2 :
  Forall not_nl s1 -> is_Some (k s2) -> is_Some (star_lazy k (s1 ++ s2)).
Proof.
  intros Hall [w Hk]. induction Hall as [|x s1 Hx _ IH]; simpl.
  - destruct s2; simpl; rewrite Hk; by eexists.
  - destruct (k (x :: s1 ++ s2)); [by eexists|]. by rewrite Hx.
Qed.

Lemma rep_complete k s1 s2 :
  Forall not_nl s1 -> is_Some (k s2) -> is_Some (rep (length s1) k (s1 ++ s2)).
Proof.
  intros Hall Hk. induction Hall as [|x s1 Hx _ IH]; simpl; [done|].
  by rewrite Hx.
Qed.

(** Every successful execution follows a parse of a prefix of the input. *)
Lemma exec_sound r K s c v :
  exec r K s c = Some v ->
  exists s1 s2 c1, s = s1 ++ s2 /\ parses r s1 c1 /\ K s2 (c1 ++ c) = Some v.
Proof.
  revert K s c. induction r as [t| |g|n|i r IH|r1 IH1 r2 IH2]; intros K s c H; simpl in H.
  - destruct (strip_prefix t s) as [s'|] eqn:Hp; [|discriminate].
    apply strip_prefix_Some in Hp as ->.
    exists t, s', []. split_and!; [done | constructor | done].
  - destruct s as [|x s]; [discriminate|].
    destruct (is_nl x) eqn:Hx; [discriminate|].
    exists [x], s, []. split_and!; [done | by constructor | done].
  - assert (exists s1 s2, s = s1 ++ s2 /\ Forall not_nl s1 /\ K s2 c = Some v)
      as (s1 & s2 & -> & Hall & Hk).
    { destruct g; [by apply star_greedy_sound in H | by apply star_lazy_sound in H]. }
    exists s1, s2, []. split_and!; [done | by constructor | done].
  - apply rep_sound in H as (s1 & s2 & -> & <- & Hall & Hk).
    exists s1, s2, []. split_and!; [done | by constructor | done].
  - apply IH in H as (s1 & s2 & c1 & -> & Hp & Hk).
    rewrite take_app_sub in Hk.
    exists s1, s2, ((i, s1) :: c1). split_and!; [done | by constructor | done].
  - apply IH1 in H as (s1 & s2 & c1 & -> & Hp1 & H).
    apply IH2 in H as (s1' & s2' & c2 & -> & Hp2 & H).
    exists (s1 ++ s1'), s2', (c2 ++ c1).
    split_and!; [by rewrite (assoc_L (++)) | by constructor | by rewrite <- (assoc_L (++))].
Qed.

(** Whenever a prefix is in the language and the continuation accepts the
    rest, the execution succeeds (possibly along another parse). *)
Lemma exec_complete r K s1 s2 c :
  lang r s1 -> (forall c', is_Some (K s2 c')) -> is_Some (exec r K (s1 ++ s2) c).
Proof.
  intros [c1 Hp]. revert K s2 c.
  induction Hp as [t|x Hx|g s Hall|s Hall|i r s c1 Hp IH|r1 r2 s1 s1' c1 c2 Hp1 IH1 Hp2 IH2];
    intros K s2 c HK; simpl.
  - rewrite strip_prefix_app. apply HK.
  - rewrite Hx. apply HK.
  - destruct g; [apply star_greedy_complete | apply star_lazy_complete]; auto.
  - apply rep_complete; auto.
  - apply IH. intros c'. apply HK.
  - rewrite <- (assoc_L (++)). apply IH1. intros c'. by apply IH2.
Qed.

End MatcherFacts.

Lemma find_unfold r s :
  find r s =
  match exec r (fun s' c => Some (take (length s - length s') s, c)) s [] with
  | Some v => Some v
  | None => match s with [] => None | _ :: s' => find r s' end
  end.
Proof. by destruct s. Qed.

Lemma find_sound r s whole c :
  find r s = Some (whole, c) ->
  exists pre post, s = pre ++ whole ++ post /\ parses r whole c.
Proof.
  induction s as [|x s IH]; rewrite find_unfold;
    destruct (exec r _ _ []) as [v|] eqn:He; try discriminate.
  - intros [= ->]. apply exec_sound in He as (s1 & s2 & c1 & Hs & Hp & Hk).
    rewrite Hs, take_app_sub, (right_id_L [] (++)) in Hk. simplify_eq.
    by exists [], s2.
  - intros [= ->]. apply exec_sound in He as (s1 & s2 & c1 & Hs & Hp & Hk).
    rewrite Hs, take_app_sub, (right_id_L [] (++)) in Hk. simplify_eq.
    exists [], s2. by rewrite Hs.
  - intros H. destruct (IH H) as (pre & post & -> & Hp).
    by exists (x :: pre), post.
Qed.

Lemma find_complete r s : contains_match r s -> is_Some (find r s).
Proof.
  intros (pre & mid & post & -> & Hl).
  induction pre as [|x pre IH]; rewrite find_unfold.
  - destruct (exec_complete r
      (fun s' c => Some (take (length ([] ++ mid ++ post) - length s') ([] ++ mid ++ post), c))
      mid post [] Hl) as [v Hv]; [by eexists|].
    simpl in *. by rewrite Hv.
  - destruct (exec r _ _ []); [by eexists|]. apply IH.
Qed.

Lemma find_None r s : find r s = None <-> ~ contains_match r s.
Proof.
  split.
  - intros H Hc. apply find_complete in Hc as [v Hv]. congruence.
  - intros H. destruct (find r s) as [[whole c]|] eqn:Hf; [|done].
    destruct H. apply find_sound in Hf as (pre & post & -> & Hp).
    exists pre, whole, post. split; [done|by exists c].
Qed.

(** The result slice is nil, or has one entry for the whole match and one
    for each group. *)
Lemma FindStringSubmatch_length re s :
  length (FindStringSubmatch re s) =
  match find (prog re) s with Some _ => S (ngroups re) | None => 0 end.
Proof.
  unfold FindStringSubmatch. destruct (find (prog re) s) as [[whole c]|]; [|done].
  simpl. by rewrite length_map, length_seq.
Qed.

(** ** The patterns of the pipeline, compiled *)

Section ParsesInversion.

Lemma parses_Str t s c : parses (Str t) s c <-> s = t /\ c = [].
Proof. split; [by inversion 1 | intros [-> ->]; constructor]. Qed.

Lemma parses_Any s c : parses Any s c <-> exists x, s = [x] /\ not_nl x /\ c = [].
Proof.
  split; [inversion 1; subst; eauto | intros (x & -> & Hx & ->); by constructor].
Qed.

Lemma parses_AnyStar g s c : parses (AnyStar g) s c <-> Forall not_nl s /\ c = [].
Proof. split; [by inversion 1 | intros [H ->]; by constructor]. Qed.

Lemma parses_AnyRep n s c :
  parses (AnyRep n) s c <-> length s = n /\ Forall not_nl s /\ c = [].
Proof. split; [by inversion 1 | intros (<- & H & ->); by constructor]. Qed.

Lemma parses_Grp i r s c :
  parses (Grp i r) s c <-> exists c', parses r s c' /\ c = (i, s) :: c'.
Proof.
  split; [inversion 1; subst; eauto | intros (c' & H & ->); by constructor].
Qed.

Lemma parses_Cat r1 r2 s c :
  parses (Cat r1 r2) s c <->
  exists s1 s2 c1 c2, s = s1 ++ s2 /\ c = c2 ++ c1 /\ parses r1 s1 c1 /\ parses r2 s2 c2.
Proof.
  split.
  - inversion 1; subst. eauto 10.
  - intros (s1 & s2 & c1 & c2 & -> & -> & H1 & H2). by constructor.
Qed.

End ParsesInversion.

(** The leftmost match: nothing in the language starts further left. *)
Lemma find_leftmost r s whole c :
  find r s = Some (whole, c) ->
  exists pre post,
    s = pre ++ whole ++ post /\ parses r whole c /\
    forall pre' mid' post',
      s = pre' ++ mid' ++ post' -> lang r mid' -> length pre <= length pre'.
Proof.
  induction s as [|x s IH]; rewrite find_unfold;
    destruct (exec r _ _ []) as [v|] eqn:He; try discriminate.
  - intros [= ->]. apply exec_sound in He as (s1 & s2 & c1 & Hs & Hp & Hk).
    rewrite Hs, take_app_sub, (right_id_L [] (++)) in Hk. simplify_eq.
    exists [], s2. split_and!; [done..|]. intros; simpl; lia.
  - intros [= ->]. apply exec_sound in He as (s1 & s2 & c1 & Hs & Hp & Hk).
    rewrite Hs, take_app_sub, (right_id_L [] (++)) in Hk. simplify_eq.
    exists [], s2. rewrite Hs. split_and!; [done..|]. intros; simpl; lia.
  - intros H. destruct (IH H) as (pre & post & -> & Hp & Hleft).
    exists (x :: pre), post. split_and!; [done..|].
    intros [|y pre'] mid' post' Hs Hl.
    + simpl in Hs.
      destruct (exec_complete r
        (fun s' c0 => Some (take (length (x :: pre ++ whole ++ post) - length s')
                               (x :: pre ++ whole ++ post), c0))
        mid' post' [] Hl) as [v Hv]; [by eexists|].
      rewrite <- Hs in Hv. congruence.
    + simpl in Hs. injection Hs as -> Hs. simpl.
      specialize (Hleft _ _ _ Hs Hl). lia.
Qed.

Lemma Compile_systemMessage : Compile systemMessage_pattern = Some systemMessage_re.
Proof. reflexivity. Qed.

Lemma Compile_h1 : Compile h1_pattern = Some h1_re.
Proof. reflexivity. Qed.

Lemma Compile_action : Compile action_pattern = Some action_re.
Proof. reflexivity. Qed.

Lemma Compile_stateName : Compile stateName_pattern = Some stateName_re.
Proof. reflexivity. Qed.

Lemma steps_app st p q :
  steps st (p ++ q) = steps st p ≫= fun st' => steps st' q.
Proof.
  revert st. induction p as [|x p IH]; intros st; simpl; [done|].
  destruct (step st x); simpl; [apply IH | done].
Qed.

Lemma step_normal_plain st x :
  is_meta x = false ->
  step_normal st x = Some (with_top st (push_lit x (top st))).
Proof.
  intros Hmeta. assert (H := Hmeta). unfold is_meta in H. cbn in H.
  repeat (apply orb_false_iff in H as [? H]).
  unfold step_normal, ch. cbn -[is_meta].
  repeat match goal with Hx : (x =? _)%N = false |- _ => rewrite Hx; clear Hx end.
  by rewrite Hmeta.
Qed.

Lemma push_lit_lits_onto x m items :
  lits_onto m (push_lit x items) = lits_onto (x :: m) items.
Proof.
  destruct m as [|y m]; simpl.
  - by destruct items as [|[] ?].
  - destruct items as [|[] ?]; simpl; try done. by rewrite <- (assoc_L (++)).
Qed.

Lemma steps_plain st m :
  mode st = Normal -> plain m = true ->
  steps st m = Some (with_top st (lits_onto m (top st))).
Proof.
  revert st. induction m as [|x m IH]; intros st Hmode Hplain.
  - simpl. destruct st; simpl in *; by subst.
  - simpl in Hplain. apply andb_true_iff in Hplain as [Hx Hm].
    apply negb_true_iff in Hx.
    simpl. unfold step. rewrite Hmode, (step_normal_plain _ _ Hx).
    rewrite IH by done. unfold with_top; simpl. by rewrite push_lit_lits_onto.
Qed.

Lemma Compile_resource machine :
  plain machine = true ->
  Compile (resource_pattern machine) = Some (resource_re machine).
Proof.
  intros Hplain. unfold Compile, resource_pattern.
  rewrite steps_app.
  match goal with |- context [steps ?st (jtxt ?s)] =>
    let v := eval vm_compute in (steps st (jtxt s)) in
    change (steps st (jtxt s)) with v
  end.
  cbn [mbind option_bind]. rewrite steps_app.
  rewrite steps_plain by done.
  cbn [mbind option_bind].
  destruct machine as [|x machine]; reflexivity.
Qed.

(** ** Reasoning about runs *)

Arguments txt : simpl never.
Arguments jtxt : simpl never.
Arguments FindStringSubmatch : simpl never.
Arguments Compile : simpl never.

Section RunFacts.

Lemma note_nil w : note w [] = w.
Proof. destruct w. unfold note; simpl. by rewrite (right_id_L [] (++)). Qed.

Lemma note_note w tr1 tr2 : note (note w tr1) tr2 = note w (tr1 ++ tr2).
Proof. unfold note; simpl. by rewrite (assoc_L (++)). Qed.

Lemma bind_Ret {A B} (m : M A) (f : A -> M B) w a w' :
  m w = (Ret a, w') -> (m ≫= f) w = f a w'.
Proof. unfold mbind, M_bind. by intros ->. Qed.

Lemma ret_bind {A B} (a : A) (f : A -> M B) w : (mret a ≫= f) w = f a w.
Proof. done. Qed.

Lemma emit_bind {B} e (f : unit -> M B) w : (emit e ≫= f) w = f () (note w [e]).
Proof. done. Qed.

Lemma deref_Some_bind {A B} (a : A) (f : A -> M B) w : (deref (Some a) ≫= f) w = f a w.
Proof. done. Qed.

Lemma deref_None_bind {A B} (f : A -> M B) w : (deref None ≫= f) w = (Panic, w).
Proof. done. Qed.

Lemma log_Fatalf_bind {A B} format args (f : A -> M B) w :
  (log_Fatalf format args ≫= f) w = (Exit 1, note w [Fatalf format args]).
Proof. done. Qed.

Lemma log_Println_bind {B} args (f : unit -> M B) w :
  (log_Println args ≫= f) w = f () (note w [Println args]).
Proof. done. Qed.

Lemma mret_run {A} (a : A) w : mret (M:=M) a w = (Ret a, w).
Proof. done. Qed.

Lemma client_Do_Replied_bind {B} req (f : _ -> M B) w resp rest :
  script w = Replied resp :: rest ->
  (client_Do req ≫= f) w = f (Some resp, None) (World rest (observed w ++ [Do req])).
Proof. unfold mbind, M_bind, client_Do. by intros ->. Qed.

Lemma client_Do_Failed_bind {B} req (f : _ -> M B) w err resp rest :
  script w = Failed err resp :: rest ->
  (client_Do req ≫= f) w =
  f (closed <$> resp, Some err) (World rest (observed w ++ [Do req])).
Proof. unfold mbind, M_bind, client_Do. by intros ->. Qed.

Lemma client_Do_Waiting_bind {B} req (f : _ -> M B) w :
  script w = [] -> (client_Do req ≫= f) w = (Waiting, note w [Do req]).
Proof. unfold mbind, M_bind, client_Do. by intros ->. Qed.

Lemma MustCompile_bind {B} pattern re (f : _ -> M B) w :
  Compile pattern = Some re -> (MustCompile pattern ≫= f) w = f re w.
Proof. unfold mbind, M_bind, MustCompile. by intros ->. Qed.

Context (lib : Lib) (flags : Flags) (viper : Viper).

Lemma traceInfo_run info w :
  traceInfo flags info w = (Ret (), note w (trace_line flags info)).
Proof.
  unfold traceInfo, trace_line. destruct (trace flags); [done|].
  by rewrite note_nil.
Qed.

Lemma traceInfo_bind {B} info (f : unit -> M B) w :
  (traceInfo flags info ≫= f) w = f () (note w (trace_line flags info)).
Proof. unfold mbind, M_bind. by rewrite traceInfo_run. Qed.

Lemma exitOnEmptyString_bind {B} name value (f : unit -> M B) w :
  (exitOnEmptyString name value ≫= f) w =
  if blank value
  then (Exit 1, note w [Fatalf (txt "Error: zero-length string `%s`") [AStr name]])
  else f () w.
Proof. unfold exitOnEmptyString. by destruct (blank value). Qed.

Lemma logFatalError_bind {B} err (f : unit -> M B) w :
  (logFatalError err ≫= f) w =
  match err with
  | Some e => (Exit 1, note w [Fatalf (txt "Error: %s") [AErr e]])
  | None => f () w
  end.
Proof. by destruct err. Qed.

Lemma poll_once_Replied req w resp rest :
  script w = Replied resp :: rest ->
  poll_once flags req stateName_re w =
  let polled := [Sleep (10 * Second); Do req] in
  match stateName (Body resp) with
  | None => (Panic, World rest (observed w ++ polled))
  | Some st =>
      if text_eqb st (txt "Failed") then
        (Exit 1, World rest (observed w ++ polled ++ status_line flags st ++ [Fatalf Failed_message []]))
      else
        (Ret (text_eqb st (txt "Successful")),
         World rest (observed w ++ polled ++ status_line flags st))
  end.
Proof.
  intros Hs. unfold poll_once, stateName, index, status_line, time_Sleep.
  rewrite emit_bind, (client_Do_Replied_bind _ _ _ resp rest) by done.
  rewrite ret_bind, deref_Some_bind.
  cbn [observed note]. rewrite <- (assoc_L (++)). cbn [app].
  destruct (FindStringSubmatch stateName_re (Body resp) !! 1) as [st|].
  - rewrite deref_Some_bind, traceInfo_bind.
    unfold note; cbn [observed script]. rewrite <- (assoc_L (++)). cbn [app].
    destruct (text_eqb st (txt "Failed")).
    + rewrite log_Fatalf_bind. unfold note; cbn [observed script].
      by rewrite <- (assoc_L (++)).
    + rewrite ret_bind. by destruct (text_eqb st (txt "Successful")).
  - by rewrite deref_None_bind.
Qed.

End RunFacts.

(** ** Step 6: the polling loop *)

Section Poller.

Context (lib : Lib) (flags : Flags).

Lemma poll_once_shrinks req re w b w' :
  poll_once flags req re w = (Ret b, w') -> length (script w) = S (length (script w')).
Proof.
  unfold poll_once, time_Sleep. rewrite emit_bind.
  destruct (script w) as [|[resp|err resp] rest] eqn:Hs.
  - by rewrite client_Do_Waiting_bind.
  - rewrite (client_Do_Replied_bind _ _ _ resp rest) by done.
    rewrite ret_bind, deref_Some_bind. unfold index.
    destruct (_ !! 1) as [m1|]; [|by rewrite deref_None_bind].
    rewrite deref_Some_bind, traceInfo_bind.
    destruct (text_eqb m1 (txt "Failed")); [by rewrite log_Fatalf_bind|].
    rewrite ret_bind. destruct (text_eqb m1 (txt "Successful")); by intros [= <- <-].
  - rewrite (client_Do_Failed_bind _ _ _ err resp rest) by done.
    rewrite log_Println_bind.
    destruct resp as [resp|]; cbn [fmap option_fmap option_map];
      [|by rewrite deref_None_bind].
    rewrite deref_Some_bind. unfold index.
    destruct (_ !! 1) as [m1|]; [|by rewrite deref_None_bind].
    rewrite deref_Some_bind, traceInfo_bind.
    destruct (text_eqb m1 (txt "Failed")); [by rewrite log_Fatalf_bind|].
    rewrite ret_bind. destruct (text_eqb m1 (txt "Successful")); by intros [= <- <-].
Qed.

(** More fuel than the script has replies is never used. *)
Lemma repeat_until_fuel req re n m w :
  length (script w) < n -> length (script w) < m ->
  repeat_until n (poll_once flags req re) w = repeat_until m (poll_once flags req re) w.
Proof.
  revert m w. induction n as [|n IH]; intros [|m] w Hn Hm; try lia.
  simpl. unfold mbind, M_bind.
  destruct (poll_once flags req re w) as [[[]| | | |] w'] eqn:Hp; try done.
  apply poll_once_shrinks in Hp. apply IH; lia.
Qed.

Lemma for_ever_fuel req re n w :
  length (script w) < n ->
  repeat_until n (poll_once flags req re) w = for_ever (poll_once flags req re) w.
Proof. intros H. unfold for_ever. apply repeat_until_fuel; lia. Qed.

Lemma text_eqb_false (a b : text) : a <> b -> text_eqb a b = false.
Proof. intros H. unfold text_eqb. by apply bool_decide_eq_false. Qed.

Lemma text_eqb_refl (a : text) : text_eqb a a = true.
Proof. unfold text_eqb. by apply bool_decide_eq_true. Qed.

(** The loop goes through every pending reply, one turn each. *)
Lemma repeat_until_pending req pending rest n w :
  Forall pending_reply pending ->
  script w = pending ++ rest ->
  repeat_until (length pending + n) (poll_once flags req stateName_re) w =
  repeat_until n (poll_once flags req stateName_re)
    (World rest (observed w ++ turns flags req pending)).
Proof.
  intros Hall. revert w. induction Hall as [|r pending Hr _ IH]; intros w Hs.
  - simpl in *. unfold turns; simpl. rewrite (right_id_L [] (++)).
    destruct w; simpl in *; by subst.
  - destruct Hr as (resp & st & -> & Hst & Hf & Hsucc).
    cbn [length Nat.add repeat_until].
    unfold mbind at 1, M_bind at 1.
    rewrite (poll_once_Replied _ _ _ _ (pending ++ rest)) by done.
    cbv zeta. rewrite Hst, (text_eqb_false _ _ Hf), (text_eqb_false _ _ Hsucc).
    rewrite IH by done. cbn [observed]. unfold turns; cbn [map concat].
    replace (turn flags req (Replied resp))
      with ([Sleep (10 * Second); Do req] ++ status_line flags st)
      by (unfold turn; by rewrite Hst).
    by rewrite <- !(assoc_L (++)).
Qed.

Lemma attempts_app tr1 tr2 : attempts (tr1 ++ tr2) = attempts tr1 + attempts tr2.
Proof. unfold attempts. by rewrite List.filter_app, length_app. Qed.

Lemma attempts_trace_line info : attempts (trace_line flags info) = 0.
Proof. unfold trace_line. by destruct (trace flags). Qed.

Lemma attempts_turn req r : attempts (turn flags req r) = 1.
Proof.
  unfold turn. rewrite attempts_app.
  destruct r as [resp|]; [|done].
  destruct (stateName (Body resp)); [|done].
  unfold status_line. by rewrite attempts_trace_line.
Qed.

Lemma attempts_turns req rs : attempts (turns flags req rs) = length rs.
Proof.
  induction rs as [|r rs IH]; [done|].
  unfold turns in *; cbn [map concat length].
  by rewrite attempts_app, attempts_turn, IH.
Qed.

Lemma slept_before_each_logs tr1 tr2 :
  Forall (fun e => match e with Sleep _ | Do _ => False | _ => True end) tr1 ->
  slept_before_each (tr1 ++ tr2) = slept_before_each tr2.
Proof.
  induction 1 as [|e tr1 He _ IH]; [done|]. by destruct e.
Qed.

Lemma trace_line_logs info :
  Forall (fun e => match e with Sleep _ | Do _ => False | _ => True end)
    (trace_line flags info).
Proof. unfold trace_line. destruct (trace flags); repeat constructor. Qed.

Lemma slept_before_each_turn req r tr :
  slept_before_each (turn flags req r ++ tr) = slept_before_each tr.
Proof.
  unfold turn. rewrite <- (assoc_L (++)).
  change (slept_before_each ([Sleep (10 * Second); Do req] ++ ?l))
    with ((10 * Second =? 10 * Second)%Z && slept_before_each l).
  rewrite Z.eqb_refl. cbn [andb].
  apply slept_before_each_logs.
  destruct r as [resp|]; [|repeat constructor].
  destruct (stateName (Body resp)); [apply trace_line_logs | constructor].
Qed.

Lemma slept_before_each_turns req rs tr :
  slept_before_each (turns flags req rs ++ tr) = slept_before_each tr.
Proof.
  induction rs as [|r rs IH]; [done|].
  unfold turns in *; cbn [map concat]. rewrite <- (assoc_L (++)).
  by rewrite slept_before_each_turn.
Qed.

End Poller.

(** ** Step 6: first terminal state, and no bound on the turns *)

(** C1.  Driven by a sequence of poll replies, the status poller sleeps ten
    seconds before every request, including the first; it leaves the loop
    normally at the first reply whose state is ["Successful"], exits with
    status 1 at the first whose state is ["Failed"], and keeps polling
    through every other state, however many there are: when all replies of
    the script are pending it is still waiting after one more request.  For
    the sequence In Progress, In Progress, Successful the whole run exits 0
    after three requests to the status URL, each right after a sleep, and
    for In Progress, Failed it exits 1 after two. *)
Theorem C1_status_poller lib flags token url req pending w :
  statusRequest lib token url = Some req ->
  Forall pending_reply pending ->
  let started := Step6_line flags in
  (forall resp rest,
     script w = pending ++ Replied resp :: rest ->
     (stateName (Body resp) = Some (txt "Successful") ->
      let tr := turns flags req (pending ++ [Replied resp]) in
      getRequestResultState lib flags token url w =
        (Ret (), World rest (observed w ++ started ++ tr)) /\
      attempts tr = S (length pending) /\ slept_before_each tr = true) /\
     (stateName (Body resp) = Some (txt "Failed") ->
      let tr := turns flags req (pending ++ [Replied resp]) in
      getRequestResultState lib flags token url w =
        (Exit 1, World rest (observed w ++ started ++ tr ++ [Fatalf Failed_message []])) /\
      attempts tr = S (length pending) /\ slept_before_each tr = true)) /\
  (script w = pending ->
   let tr := turns flags req pending ++ [Sleep (10 * Second); Do req] in
   getRequestResultState lib flags token url w =
     (Waiting, World [] (observed w ++ started ++ tr)) /\
   attempts tr = S (length pending) /\ slept_before_each tr = true) /\
  (let '(res, w') :=
     Run Sample.lib Sample.flags Sample.viper
       (Sample.start (Sample.submitted ++
          [Sample.in_progress; Sample.in_progress; Sample.successful])) in
   exit_status res = Some 0%Z /\ script w' = [] /\
   attempts (polls_of Sample.status_url (observed w')) = 3 /\
   slept_before_each (polls_of Sample.status_url (observed w')) = true) /\
  (let '(res, w') :=
     Run Sample.lib Sample.flags Sample.viper
       (Sample.start (Sample.submitted ++ [Sample.in_progress; Sample.failed])) in
   exit_status res = Some 1%Z /\ script w' = [] /\
   attempts (polls_of Sample.status_url (observed w')) = 2 /\
   slept_before_each (polls_of Sample.status_url (observed w')) = true).
Proof.
  intros Hreq Hpending started.
  assert (Hstart : forall n,
    length (script w) < n ->
    getRequestResultState lib flags token url w =
    repeat_until n (poll_once flags req stateName_re) (note w started)).
  { intros n Hn. unfold getRequestResultState.
    rewrite traceInfo_bind, Hreq, deref_Some_bind.
    rewrite (MustCompile_bind _ _ _ _ Compile_stateName).
    symmetry. by apply for_ever_fuel. }
  split_and!.
  - intros resp rest Hs.
    assert (Hturns : turns flags req (pending ++ [Replied resp]) =
                     turns flags req pending ++ turn flags req (Replied resp)).
    { unfold turns. rewrite map_app, concat_app. simpl. by rewrite (right_id_L [] (++)). }
    assert (Hfacts : attempts (turns flags req (pending ++ [Replied resp])) = S (length pending)
                     /\ slept_before_each (turns flags req (pending ++ [Replied resp])) = true).
    { split.
      - rewrite attempts_turns, length_app. simpl. lia.
      - rewrite <- (right_id_L [] (++) (turns _ _ _)). by rewrite slept_before_each_turns. }
    rewrite (Hstart (length pending + S (S (length rest))))
      by (rewrite Hs, length_app; simpl; lia).
    rewrite (repeat_until_pending _ _ _ (Replied resp :: rest)) by done.
    cbn [repeat_until]. unfold mbind at 1 3, M_bind at 1 3.
    rewrite !(poll_once_Replied _ _ _ resp rest) by done. cbv zeta.
    split; intros Hst; rewrite Hst; cbn [observed note].
    + split; [|done]. rewrite Hturns. unfold turn. rewrite Hst.
      replace (text_eqb (txt "Successful") (txt "Failed")) with false by done.
      rewrite text_eqb_refl. cbn [mret M_ret]. by rewrite <- !(assoc_L (++)).
    + split; [|done]. rewrite Hturns. unfold turn. rewrite Hst.
      rewrite text_eqb_refl. by rewrite <- !(assoc_L (++)).
  - intros Hs. split_and!.
    + rewrite (Hstart (length pending + 1)) by (rewrite Hs; lia).
      rewrite (repeat_until_pending _ _ _ []) by (by rewrite ?(right_id_L [] (++))).
      cbn [repeat_until]. unfold mbind at 1, M_bind at 1. unfold poll_once, time_Sleep.
      rewrite emit_bind, client_Do_Waiting_bind by done.
      unfold note; cbn [observed script]. by rewrite <- !(assoc_L (++)).
    + rewrite attempts_app, attempts_turns.
      change (attempts [Sleep (10 * Second); Do req]) with 1. lia.
    + by rewrite slept_before_each_turns.
  - by vm_compute.
  - by vm_compute.
Qed.

(** ** What each stage does with the reply it receives *)

Section StageFacts.

Context (lib : Lib) (flags : Flags) (viper : Viper).

Lemma getBearerToken_Replied req resp rest w :
  tokenRequest lib flags viper = Some req ->
  script w = Replied resp :: rest ->
  getBearerToken lib flags viper w =
  let w1 := World rest (observed w ++ Step1_line flags ++ [Do req]) in
  if negb (StatusCode resp =? 200)%Z then
    match FindStringSubmatch systemMessage_re (Body resp) !! 2 with
    | Some m2 =>
        (Exit 1,
         note w1 [Fatalf (txt "Error: Unexpected HTTP response status code %d, %s")
                    [AInt (StatusCode resp); AStr m2]])
    | None => (Panic, w1)
    end
  else
    match json_Unmarshal lib (Body resp) with
    | (_, Some e) => (Exit 1, note w1 [Fatalf (txt "Error: %s") [AErr e]])
    | (gbtResponse, None) =>
        if blank (ID gbtResponse)
        then (Exit 1, note w1 [zero_length (txt "bearerToken")])
        else (Ret (txt "Bearer " ++ ID gbtResponse), w1)
    end.
Proof.
  intros Hreq Hs. unfold getBearerToken, Step1_line.
  rewrite traceInfo_bind, Hreq, deref_Some_bind.
  rewrite (client_Do_Replied_bind _ _ _ resp rest) by done.
  cbv beta iota zeta. rewrite logFatalError_bind, deref_Some_bind.
  cbn [observed note]. rewrite <- (assoc_L (++)).
  unfold mbind at 1, M_bind at 1.
  destruct (negb (StatusCode resp =? 200)%Z).
  - rewrite (MustCompile_bind _ _ _ _ Compile_systemMessage). unfold index.
    destruct (_ !! 2) as [m2|]; [by rewrite deref_Some_bind | by rewrite deref_None_bind].
  - rewrite mret_run.
    destruct (json_Unmarshal lib (Body resp)) as [g [e|]]; [done|].
    rewrite logFatalError_bind, exitOnEmptyString_bind.
    by destruct (blank (ID g)).
Qed.

Lemma getBearerToken_Failed req err resp rest w :
  tokenRequest lib flags viper = Some req ->
  script w = Failed err resp :: rest ->
  getBearerToken lib flags viper w =
  (Exit 1, World rest (observed w ++ Step1_line flags ++ [Do req; Fatalf (txt "Error: %s") [AErr err]])).
Proof.
  intros Hreq Hs. unfold getBearerToken, Step1_line.
  rewrite traceInfo_bind, Hreq, deref_Some_bind.
  rewrite (client_Do_Failed_bind _ _ _ err resp rest) by done.
  cbv beta iota zeta. rewrite logFatalError_bind.
  unfold note; cbn [observed script]. by rewrite <- !(assoc_L (++)).
Qed.

Lemma getVirtualMachineResourceID_Replied token machine req resp rest w :
  resourcesRequest lib flags viper token = Some req ->
  script w = Replied resp :: rest ->
  getVirtualMachineResourceID lib flags viper token machine w =
  let w1 := World rest (observed w ++ Step2_line flags machine ++ ParseForm_line lib req ++ [Do req]) in
  if negb (StatusCode resp =? 200)%Z then
    match FindStringSubmatch h1_re (Body resp) !! 1 with
    | Some m1 => (Exit 1, note w1 [Fatalf (txt "Error: %s") [AStr m1]])
    | None => (Panic, w1)
    end
  else
    match Compile (resource_pattern machine) with
    | None => (Unmodelled, w1)
    | Some re =>
        match FindStringSubmatch re (Body resp) with
        | [] => (Exit 1, note w1 [not_found machine])
        | matches =>
            match matches !! 1 with
            | Some m1 =>
                if blank m1
                then (Exit 1, note w1 [zero_length (txt "machineID")])
                else (Ret m1, w1)
            | None => (Panic, w1)
            end
        end
    end.
Proof.
  intros Hreq Hs. unfold getVirtualMachineResourceID, Step2_line, ParseForm_line.
  rewrite traceInfo_bind, Hreq, deref_Some_bind.
  assert (Hpf : forall B (f : unit -> M B) w0,
    (match ParseForm lib req with
     | Some parseFormErr => log_Println [AErr parseFormErr]
     | None => mret ()
     end ≫= f) w0 =
    f () (note w0 (match ParseForm lib req with
                   | Some parseFormErr => [Println [AErr parseFormErr]]
                   | None => []
                   end))).
  { intros B f w0. destruct (ParseForm lib req); [done|]. by rewrite ret_bind, note_nil. }
  rewrite Hpf. rewrite (client_Do_Replied_bind _ _ _ resp rest) by done.
  cbv beta iota zeta. rewrite logFatalError_bind, deref_Some_bind.
  cbn [observed note]. rewrite <- !(assoc_L (++)).
  unfold mbind at 1, M_bind at 1.
  destruct (negb (StatusCode resp =? 200)%Z).
  - rewrite (MustCompile_bind _ _ _ _ Compile_h1). unfold index.
    destruct (_ !! 1) as [m1|]; [by rewrite deref_Some_bind | by rewrite deref_None_bind].
  - rewrite mret_run. unfold MustCompile.
    destruct (Compile (resource_pattern machine)) as [re|]; [|done].
    rewrite ret_bind. destruct (FindStringSubmatch re (Body resp)) as [|whole ms] eqn:Hm.
    + by rewrite log_Fatalf_bind.
    + unfold index. unfold mbind at 1, M_bind at 1.
      destruct ((whole :: ms) !! 1) as [m1|]; [|by rewrite deref_None_bind].
      rewrite deref_Some_bind. unfold exitOnEmptyString.
      by destruct (blank m1).
Qed.

Lemma getVirtualMachineResourceID_Failed token machine req err resp rest w :
  resourcesRequest lib flags viper token = Some req ->
  script w = Failed err resp :: rest ->
  getVirtualMachineResourceID lib flags viper token machine w =
  (Exit 1,
   World rest (observed w ++ Step2_line flags machine ++ ParseForm_line lib req
               ++ [Do req; Fatalf (txt "Error: %s") [AErr err]])).
Proof.
  intros Hreq Hs. unfold getVirtualMachineResourceID, Step2_line, ParseForm_line.
  rewrite traceInfo_bind, Hreq, deref_Some_bind.
  destruct (ParseForm lib req) as [e|].
  - rewrite log_Println_bind.
    rewrite (client_Do_Failed_bind _ _ _ err resp rest) by done.
    cbv beta iota zeta. rewrite logFatalError_bind.
    unfold note; cbn [observed script]. by rewrite <- !(assoc_L (++)).
  - rewrite ret_bind.
    rewrite (client_Do_Failed_bind _ _ _ err resp rest) by done.
    cbv beta iota zeta. rewrite logFatalError_bind.
    unfold note; cbn [observed script]. by rewrite <- !(assoc_L (++)).
Qed.

Lemma getSnapshotResourceActionID_reply token vmID req r rest w :
  actionsRequest lib flags viper token vmID = Some req ->
  script w = r :: rest ->
  getSnapshotResourceActionID lib flags viper token vmID w =
  let w1 := World rest (observed w ++ Step3_line flags ++ [Do req]) in
  match r with
  | Replied resp => action_of resp w1
  | Failed err (Some resp) => action_of (closed resp) (note w1 [Failure_line err])
  | Failed err None => (Panic, note w1 [Failure_line err])
  end.
Proof.
  intros Hreq Hs. unfold getSnapshotResourceActionID, Step3_line.
  rewrite traceInfo_bind, Hreq, deref_Some_bind.
  assert (Hrest : forall resp w1,
    (deref (Some resp) ≫= λ resp0 : Response,
       (if negb (StatusCode resp0 =? 200)%Z
        then re ← MustCompile h1_pattern;
             m1 ← index (FindStringSubmatch re (Body resp0)) 1;
             log_Fatalf (txt "Error: %s") [AStr m1]
        else mret ());;
       re ← MustCompile action_pattern;
       match FindStringSubmatch re (Body resp0) with
       | [] => log_Fatalf (txt "Error: Unable to find Create Snapshot Action id") []
       | _ :: _ =>
           m1 ← index (FindStringSubmatch re (Body resp0)) 1;
           exitOnEmptyString (txt "Create Snapshot Action ID") m1
       end;;
       index (FindStringSubmatch re (Body resp0)) 1) w1 = action_of resp w1).
  { intros resp w1. rewrite deref_Some_bind. unfold action_of.
    unfold mbind at 1, M_bind at 1.
    destruct (negb (StatusCode resp =? 200)%Z).
    - rewrite (MustCompile_bind _ _ _ _ Compile_h1). unfold index.
      destruct (_ !! 1) as [m1|]; [by rewrite deref_Some_bind | by rewrite deref_None_bind].
    - rewrite mret_run. rewrite (MustCompile_bind _ _ _ _ Compile_action).
      destruct (FindStringSubmatch action_re (Body resp)) as [|whole ms] eqn:Hm.
      + by rewrite log_Fatalf_bind.
      + unfold index. unfold mbind at 1, M_bind at 1.
        destruct ((whole :: ms) !! 1) as [m1|]; [|by rewrite deref_None_bind].
        rewrite deref_Some_bind. unfold exitOnEmptyString.
        by destruct (blank m1). }
  destruct r as [resp|err [resp|]].
  - rewrite (client_Do_Replied_bind _ _ _ resp rest) by done.
    cbv beta iota zeta. rewrite ret_bind, Hrest.
    cbn [observed note]. by rewrite <- !(assoc_L (++)).
  - rewrite (client_Do_Failed_bind _ _ _ err (Some resp) rest) by done.
    cbv beta iota zeta. rewrite log_Println_bind.
    cbn [fmap option_fmap option_map]. rewrite Hrest.
    unfold note; cbn [observed script]. by rewrite <- !(assoc_L (++)).
  - rewrite (client_Do_Failed_bind _ _ _ err None rest) by done.
    cbv beta iota zeta. rewrite log_Println_bind.
    cbn [fmap option_fmap option_map]. rewrite deref_None_bind.
    unfold note; cbn [observed script]. by rewrite <- !(assoc_L (++)).
Qed.

Lemma sendSnapshotRequest_Replied token vmID actionID req resp rest w :
  snapshotRequest lib flags viper token vmID actionID = Some req ->
  script w = Replied resp :: rest ->
  sendSnapshotRequest lib flags viper token vmID actionID w =
  let w1 := World rest (observed w ++ Step5_line flags ++ [Do req]) in
  if negb (StatusCode resp =? 201)%Z then
    match FindStringSubmatch h1_re (Body resp) !! 1 with
    | Some m1 => (Exit 1, note w1 [Fatalf (txt "Error: %s") [AStr m1]])
    | None => (Panic, w1)
    end
  else if blank (Header_Get (RespHeader resp) "Location")
  then (Exit 1, note w1 [zero_length (txt "Resource Action Request URL")])
  else (Ret (Header_Get (RespHeader resp) "Location"), w1).
Proof.
  intros Hreq Hs. unfold sendSnapshotRequest, Step5_line.
  rewrite traceInfo_bind, Hreq, deref_Some_bind.
  rewrite (client_Do_Replied_bind _ _ _ resp rest) by done.
  cbv beta iota zeta. rewrite logFatalError_bind, deref_Some_bind.
  cbn [observed note]. rewrite <- (assoc_L (++)).
  unfold mbind at 1, M_bind at 1.
  destruct (negb (StatusCode resp =? 201)%Z).
  - rewrite (MustCompile_bind _ _ _ _ Compile_h1). unfold index.
    destruct (_ !! 1) as [m1|]; [by rewrite deref_Some_bind | by rewrite deref_None_bind].
  - rewrite mret_run. unfold exitOnEmptyString.
    by destruct (blank (Header_Get (RespHeader resp) "Location")).
Qed.

Lemma sendSnapshotRequest_Failed token vmID actionID req err resp rest w :
  snapshotRequest lib flags viper token vmID actionID = Some req ->
  script w = Failed err resp :: rest ->
  sendSnapshotRequest lib flags viper token vmID actionID w =
  (Exit 1, World rest (observed w ++ Step5_line flags ++ [Do req; Fatalf (txt "Error: %s") [AErr err]])).
Proof.
  intros Hreq Hs. unfold sendSnapshotRequest, Step5_line.
  rewrite traceInfo_bind, Hreq, deref_Some_bind.
  rewrite (client_Do_Failed_bind _ _ _ err resp rest) by done.
  cbv beta iota zeta. rewrite logFatalError_bind.
  unfold note; cbn [observed script]. by rewrite <- !(assoc_L (++)).
Qed.

End StageFacts.

(** ** Indices into the submatch slice *)

Ltac invert_parses :=
  repeat match goal with
  | H : parses (Cat _ _) _ _ |- _ =>
      apply parses_Cat in H as (? & ? & ? & ? & -> & -> & ? & ?)
  | H : parses (Grp _ _) _ _ |- _ => apply parses_Grp in H as (? & ? & ->)
  | H : parses (Str _) _ _ |- _ => apply parses_Str in H as [-> ->]
  | H : parses Any _ _ |- _ => apply parses_Any in H as (? & -> & ? & ->)
  | H : parses (AnyStar _) _ _ |- _ => apply parses_AnyStar in H as [? ->]
  | H : parses (AnyRep _) _ _ |- _ => apply parses_AnyRep in H as (? & ? & ->)
  end.

Ltac parses_intro :=
  repeat first
    [ eapply P_Cat | eapply P_Grp | eapply P_Str | eapply P_Star; eassumption
    | eapply P_Any; eassumption | eapply P_Rep; eassumption ].

Lemma contains_stateName body :
  contains_match (prog stateName_re) body <-> has_stateName body.
Proof.
  unfold stateName_re. split.
  - intros (pre & mid & post & -> & c & Hp). cbn [prog] in Hp. invert_parses.
    eexists pre, _, post. split; [|done]. by rewrite <- !(assoc_L (++)).
  - intros (pre & st & post & -> & Hst).
    exists pre, (jtxt "'stateName':'" ++ st ++ [dquote]), post.
    split; [by rewrite <- !(assoc_L (++))|].
    eexists. cbn [prog]. parses_intro.
Qed.

Lemma contains_systemMessage body :
  contains_match (prog systemMessage_re) body <-> has_systemMessage body.
Proof.
  unfold systemMessage_re. split.
  - intros (pre & mid & post & -> & c & Hp). cbn [prog] in Hp. invert_parses.
    eexists pre, _, post. split; [|done]. by rewrite <- !(assoc_L (++)).
  - intros (pre & st & post & -> & Hst).
    exists pre, (jtxt "'systemMessage':'" ++ st ++ jtxt "','moreInfoUrl"), post.
    split; [by rewrite <- !(assoc_L (++))|].
    eexists. cbn [prog]. parses_intro.
Qed.

Lemma contains_h1 body : contains_match (prog h1_re) body <-> has_h1 body.
Proof.
  unfold h1_re. split.
  - intros (pre & mid & post & -> & c & Hp). cbn [prog] in Hp. invert_parses.
    eexists pre, _, post. split; [|done]. by rewrite <- !(assoc_L (++)).
  - intros (pre & st & post & -> & Hst).
    exists pre, (txt "<h1>" ++ st ++ txt "</h1>"), post.
    split; [by rewrite <- !(assoc_L (++))|].
    eexists. cbn [prog]. parses_intro.
Qed.

(** An index into the result of [FindStringSubmatch] is in bounds exactly
    when the text has a match and the pattern has that many groups. *)
Lemma matches_lookup re body i :
  is_Some (FindStringSubmatch re body !! i) <->
  contains_match (prog re) body /\ i <= ngroups re.
Proof.
  rewrite lookup_lt_is_Some, FindStringSubmatch_length.
  destruct (find (prog re) body) as [v|] eqn:Hf.
  - split; [|lia]. intros ?. split; [|lia].
    destruct v as [whole c]. apply find_sound in Hf as (pre & post & -> & Hp).
    exists pre, whole, post. split; [done|by exists c].
  - apply find_None in Hf. split; [lia|]. by intros [? _].
Qed.

Lemma matches_lookup_None re body i :
  i <= ngroups re ->
  FindStringSubmatch re body !! i = None <-> ~ contains_match (prog re) body.
Proof.
  intros Hi. rewrite eq_None_not_Some, matches_lookup. tauto.
Qed.

(** The outcome of an unguarded [matches[i]] that feeds a fatal exit. *)
Lemma unguarded_index_outcome {A} re body i (fatal : text -> result A * world) w1 :
  i <= ngroups re ->
  (forall m, (fatal m).1 = Exit 1) ->
  let run := match FindStringSubmatch re body !! i with
             | Some m => fatal m
             | None => (Panic, w1)
             end in
  (run.1 = Panic <-> ~ contains_match (prog re) body) /\
  (contains_match (prog re) body -> run.1 = Exit 1).
Proof.
  intros Hi Hfatal run. subst run.
  pose proof (matches_lookup_None re body i Hi) as Hnone.
  destruct (FindStringSubmatch re body !! i) as [m|].
  - rewrite Hfatal. split; [|done]. split; [done|].
    intros Hno. apply Hnone in Hno. discriminate.
  - split; [by split; [intros _; apply Hnone|]|].
    intros Hc. by apply Hnone in Hc.
Qed.

Lemma stateName_None body : stateName body = None <-> ~ has_stateName body.
Proof.
  rewrite <- contains_stateName. by apply (matches_lookup_None stateName_re _ 1).
Qed.

Lemma status_differs (status expected : Z) :
  status <> expected -> negb (status =? expected)%Z = true.
Proof. intros H. apply negb_true_iff. by apply Z.eqb_neq. Qed.

Lemma C1_status_poller_witness :
  let '(res, w') :=
    getRequestResultState Sample.lib Sample.flags Sample.token Sample.status_url
      (Sample.start [Sample.in_progress; Sample.in_progress; Sample.successful]) in
  res = Ret () /\ script w' = [] /\ attempts (observed w') = 3 /\
  slept_before_each (observed w') = true.
Proof.
  assert (Hpending : Forall pending_reply [Sample.in_progress; Sample.in_progress]).
  { repeat constructor; eexists _, _;
      (split_and!; [reflexivity | vm_compute; reflexivity | by vm_compute | by vm_compute]). }
  destruct (C1_status_poller Sample.lib Sample.flags Sample.token Sample.status_url _
    [Sample.in_progress; Sample.in_progress]
    (Sample.start [Sample.in_progress; Sample.in_progress; Sample.successful])
    eq_refl Hpending) as [Hterm _].
  destruct (Hterm _ [] eq_refl) as [Hsucc _].
  destruct (Hsucc ltac:(vm_compute; reflexivity)) as (Hrun & Ha & Hsl).
  rewrite Hrun. split_and!; [done | done | by vm_compute | by vm_compute].
Defined.

(** ** What a program may add to the observations *)

Section Emits.

Context {P : event -> Prop}.

Lemma emits_ret {A} (a : A) : emits P (mret a).
Proof. intros w. exists []. by rewrite (right_id_L [] (++)). Qed.

Lemma emits_stop {A} (r : result A) : emits P (stop r).
Proof. intros w. exists []. by rewrite (right_id_L [] (++)). Qed.

Lemma emits_emit e : P e -> emits P (emit e).
Proof. intros He w. exists [e]. split; [done | by constructor]. Qed.

Lemma emits_bind {A B} (m : M A) (f : A -> M B) :
  emits P m -> (forall a, emits P (f a)) -> emits P (m ≫= f).
Proof.
  intros Hm Hf w. destruct (Hm w) as (tr1 & E1 & H1).
  unfold mbind, M_bind. destruct (m w) as [[a| | | |] w1]; simpl in *; eauto.
  destruct (Hf a w1) as (tr2 & E2 & H2).
  exists (tr1 ++ tr2). rewrite E2, E1, (assoc_L (++)). split; [done|].
  by apply Forall_app.
Qed.

Lemma emits_deref_bind {A B} (p : option A) (f : A -> M B) :
  (forall a, p = Some a -> emits P (f a)) -> emits P (deref p ≫= f).
Proof.
  intros Hf. destruct p as [a|]; [by apply Hf|].
  intros w. exists []. by rewrite (right_id_L [] (++)).
Qed.

Lemma emits_deref {A} (p : option A) : emits P (deref p).
Proof. destruct p; [apply emits_ret | apply emits_stop]. Qed.

Lemma emits_client_Do req : P (Do req) -> emits P (client_Do req).
Proof.
  intros H w. exists [Do req]. split; [|by constructor].
  unfold client_Do. by destruct (script w) as [|[]].
Qed.

Lemma emits_log_Fatalf {A} format args :
  P (Fatalf format args) -> emits P (log_Fatalf (A:=A) format args).
Proof. intros H w. exists [Fatalf format args]. split; [done | by constructor]. Qed.

Lemma emits_MustCompile pattern : emits P (MustCompile pattern).
Proof. unfold MustCompile. destruct (Compile pattern); [apply emits_ret | apply emits_stop]. Qed.

End Emits.

Section EmitsStages.

Context (lib : Lib) (flags : Flags) (viper : Viper).
Context (R : Request -> Prop).

Lemma emits_traceInfo info : emits (only_requests R) (traceInfo flags info).
Proof.
  unfold traceInfo. destruct (trace flags); [by apply emits_emit | apply emits_ret].
Qed.

Lemma emits_exitOnEmptyString name value :
  emits (only_requests R) (exitOnEmptyString name value).
Proof.
  unfold exitOnEmptyString. destruct (blank value); [by apply emits_log_Fatalf | apply emits_ret].
Qed.

Lemma emits_logFatalError err : emits (only_requests R) (logFatalError err).
Proof. destruct err; [by apply emits_log_Fatalf | apply emits_ret]. Qed.

Lemma emits_index matches i : emits (only_requests R) (index matches i).
Proof. apply emits_deref. Qed.

Lemma emits_validateConfig : emits (only_requests R) (validateConfig lib flags viper).
Proof.
  unfold validateConfig. apply emits_bind.
  - unfold fileExists. destruct (os_Stat _ _); apply emits_ret || apply emits_stop.
  - intros [|]; [|by apply emits_log_Fatalf].
    repeat (apply emits_bind; [apply emits_exitOnEmptyString | intros _]).
    apply emits_exitOnEmptyString.
Qed.

(** The shared tail of the steps that fail on an unexpected status. *)
Lemma emits_h1_failure (b : bool) body :
  emits (only_requests R)
    (if b then
       re ← MustCompile h1_pattern;
       m1 ← index (FindStringSubmatch re body) 1;
       log_Fatalf (txt "Error: %s") [AStr m1]
     else mret ()).
Proof.
  destruct b; [|apply emits_ret].
  apply emits_bind; [apply emits_MustCompile | intros re].
  apply emits_bind; [apply emits_index | intros m1]. by apply emits_log_Fatalf.
Qed.

Lemma emits_getBearerToken :
  (forall req, tokenRequest lib flags viper = Some req -> R req) ->
  emits (only_requests R) (getBearerToken lib flags viper).
Proof.
  intros HR. unfold getBearerToken.
  apply emits_bind; [apply emits_traceInfo | intros _].
  apply emits_deref_bind; intros req Hreq.
  apply emits_bind; [apply emits_client_Do, HR, Hreq | intros [resp err]].
  apply emits_bind; [apply emits_logFatalError | intros _].
  apply emits_deref_bind; intros resp' _.
  apply emits_bind.
  { destruct (negb _); [|apply emits_ret].
    apply emits_bind; [apply emits_MustCompile | intros re].
    apply emits_bind; [apply emits_index | intros m2]. by apply emits_log_Fatalf. }
  intros _. destruct (json_Unmarshal lib (Body resp')) as [g e].
  apply emits_bind; [apply emits_logFatalError | intros _].
  apply emits_bind; [apply emits_exitOnEmptyString | intros _]. apply emits_ret.
Qed.

Lemma emits_getVirtualMachineResourceID token machine :
  (forall req, resourcesRequest lib flags viper token = Some req -> R req) ->
  emits (only_requests R) (getVirtualMachineResourceID lib flags viper token machine).
Proof.
  intros HR. unfold getVirtualMachineResourceID.
  apply emits_bind; [apply emits_traceInfo | intros _].
  apply emits_deref_bind; intros req Hreq.
  apply emits_bind.
  { destruct (ParseForm lib req); [by apply emits_emit | apply emits_ret]. }
  intros _.
  apply emits_bind; [apply emits_client_Do, HR, Hreq | intros [resp err]].
  apply emits_bind; [apply emits_logFatalError | intros _].
  apply emits_deref_bind; intros resp' _.
  apply emits_bind; [apply emits_h1_failure | intros _].
  apply emits_bind; [apply emits_MustCompile | intros re].
  apply emits_bind; [|intros _; apply emits_index].
  destruct (FindStringSubmatch re (Body resp')); [by apply emits_log_Fatalf|].
  apply emits_bind; [apply emits_index | intros m1]. apply emits_exitOnEmptyString.
Qed.

Lemma emits_getSnapshotResourceActionID token vmID :
  (forall req, actionsRequest lib flags viper token vmID = Some req -> R req) ->
  emits (only_requests R) (getSnapshotResourceActionID lib flags viper token vmID).
Proof.
  intros HR. unfold getSnapshotResourceActionID.
  apply emits_bind; [apply emits_traceInfo | intros _].
  apply emits_deref_bind; intros req Hreq.
  apply emits_bind; [apply emits_client_Do, HR, Hreq | intros [resp err]].
  apply emits_bind.
  { destruct err; [by apply emits_emit | apply emits_ret]. }
  intros _.
  apply emits_deref_bind; intros resp' _.
  apply emits_bind; [apply emits_h1_failure | intros _].
  apply emits_bind; [apply emits_MustCompile | intros re].
  apply emits_bind; [|intros _; apply emits_index].
  destruct (FindStringSubmatch re (Body resp')); [by apply emits_log_Fatalf|].
  apply emits_bind; [apply emits_index | intros m1]. apply emits_exitOnEmptyString.
Qed.

End EmitsStages.

(** ** The run as a whole *)

Section RunAsAWhole.

Context (lib : Lib) (flags : Flags) (viper : Viper).

Lemma bind_assoc {A B C} (m : M A) (f : A -> M B) (g : B -> M C) w :
  ((m ≫= f) ≫= g) w = (m ≫= fun a => f a ≫= g) w.
Proof. unfold mbind, M_bind. by destruct (m w) as [[]]. Qed.

Lemma bind_ext {A B} (m : M A) (f g : A -> M B) w :
  (forall a w', f a w' = g a w') -> (m ≫= f) w = (m ≫= g) w.
Proof. intros H. unfold mbind, M_bind. destruct (m w) as [[]]; auto. Qed.

Lemma Run_split w :
  Run lib flags viper w =
  (stages_1_to_4 lib flags viper ≫= stages_5_and_6 lib flags viper) w.
Proof.
  unfold Run, stages_1_to_4.
  repeat (rewrite bind_assoc; apply bind_ext; intros ? ?).
  by rewrite ret_bind.
Qed.

Lemma emits_stages_1_to_4 :
  emits (only_requests (read_request lib flags viper)) (stages_1_to_4 lib flags viper).
Proof.
  unfold stages_1_to_4, read_request.
  apply emits_bind; [apply emits_validateConfig | intros _].
  apply emits_bind; [apply emits_traceInfo | intros _].
  apply emits_bind; [apply emits_getBearerToken; auto | intros token].
  apply emits_bind; [apply emits_getVirtualMachineResourceID; eauto | intros vmID].
  apply emits_bind; [apply emits_getSnapshotResourceActionID; eauto | intros actionID].
  apply emits_bind; [apply emits_traceInfo | intros _]. apply emits_ret.
Qed.

(** A request of steps 1 to 3 is never the submission of step 5. *)
Lemma read_request_not_submission req token vmID actionID :
  (read_request lib flags viper) req ->
  snapshotRequest lib flags viper token vmID actionID <> Some req.
Proof.
  unfold read_request, tokenRequest, resourcesRequest, actionsRequest, snapshotRequest,
    NewRequest.
  intros [H|[[tok H]|(tok & vm & H)]] Hs;
    repeat match goal with
    | H : context [NewRequest_ok lib ?u] |- _ => destruct (NewRequest_ok lib u)
    end; simplify_eq/=.
Qed.

Lemma stages_5_and_6_dry ids w :
  dryRun flags = true ->
  stages_5_and_6 lib flags viper ids w = (Ret (), note w (skipped_lines flags)).
Proof.
  intros Hdry. destruct ids as [[token vmID] actionID]. unfold stages_5_and_6.
  rewrite Hdry. cbn [negb]. rewrite bind_assoc, !traceInfo_bind, traceInfo_run.
  by rewrite !note_note.
Qed.

(** C5.  Under dry-run, step 4 is followed by the closing trace lines only:
    whatever the replies, the run sleeps never and sends no request other
    than those of steps 1 to 3, none of which is the submission of step 5;
    and when steps 1 to 4 succeed it returns normally, with exit status 0,
    having taken no further reply. *)
Theorem C5_dry_run w :
  dryRun flags = true ->
  (exists tr,
     observed (Run lib flags viper w).2 = observed w ++ tr /\
     Forall (only_requests (read_request lib flags viper)) tr /\
     forall req token vmID actionID,
       Do req ∈ tr -> snapshotRequest lib flags viper token vmID actionID <> Some req) /\
  (forall ids w4,
     stages_1_to_4 lib flags viper w = (Ret ids, w4) ->
     Run lib flags viper w = (Ret (), note w4 (skipped_lines flags)) /\
     exit_status (Run lib flags viper w).1 = Some 0%Z).
Proof.
  intros Hdry. split.
  - assert (Hemits : emits (only_requests (read_request lib flags viper)) (Run lib flags viper)).
    { intros w0. rewrite Run_split. revert w0. apply emits_bind.
      - apply emits_stages_1_to_4.
      - intros ids w0. rewrite stages_5_and_6_dry by done.
        exists (skipped_lines flags). split; [done|]. unfold skipped_lines, trace_line.
        destruct (trace flags); repeat constructor. }
    destruct (Hemits w) as (tr & E & Hall). exists tr. split_and!; [done..|].
    intros req token vmID actionID Hin.
    apply read_request_not_submission.
    rewrite Forall_forall in Hall. apply (Hall _ Hin).
  - intros ids w4 H14. rewrite Run_split.
    rewrite (bind_Ret _ _ _ _ _ H14), stages_5_and_6_dry by done. done.
Qed.

Lemma validateConfig_run w :
  validateConfig lib flags viper w =
  match os_Stat lib (ConfigFileUsed viper) with
  | StatInfo false =>
      match (first_blank flags viper) with
      | Some key => (Exit 1, note w [zero_length (txt key)])
      | None => (Ret (), w)
      end
  | StatInfo true | StatNotExist => (Exit 1, note w [(no_config_file viper)])
  | StatOtherError => (Panic, w)
  end.
Proof.
  unfold validateConfig, fileExists, first_blank, required_keys.
  destruct (os_Stat lib (ConfigFileUsed viper)) as [[|]| |]; try done.
  rewrite ret_bind. cbn [List.find negb].
  repeat (rewrite exitOnEmptyString_bind; destruct (blank (GetString _ _ _)); [done|]).
  unfold exitOnEmptyString. by destruct (blank (GetString _ _ _)).
Qed.


End RunAsAWhole.

(** ** Steps 1 and 5 *)

Section TokenAndSubmission.

Context (lib : Lib) (flags : Flags) (viper : Viper).

(** C4.  The payload of the submission is the same text in both modes but
    for the value written after ["provider-deleteExisting": ], which is the
    negation of the keepExisting flag; and this payload is the body of the
    request that the step sends. *)
Theorem C4_delete_existing token vmID actionID req :
  snapshotRequest lib flags viper token vmID actionID = Some req ->
  snapshot_json flags viper =
    payload_head ++ json_bool (negb (keepExisting flags))
    ++ payload_tail (GetString flags viper "tenant") /\
  ReqBody req = Some (snapshot_json flags viper) /\
  forall w, script w <> [] ->
    Do req ∈ observed (sendSnapshotRequest lib flags viper token vmID actionID w).2.
Proof.
  intros Hreq. split_and!.
  - unfold snapshot_json, payload_tail.
    destruct (keepExisting flags); cbn [negb json_bool];
      rewrite !(assoc_L (++)); by do 2 f_equal.
  - unfold snapshotRequest, NewRequest in Hreq.
    destruct (NewRequest_ok lib _); simplify_eq/=. done.
  - intros w Hw. destruct (script w) as [|[resp|err resp] rest] eqn:Hs; [done|..].
    + rewrite (sendSnapshotRequest_Replied lib flags viper _ _ _ _ _ _ _ Hreq Hs). cbv zeta.
      repeat case_match; unfold note; cbn [snd observed]; set_solver.
    + rewrite (sendSnapshotRequest_Failed lib flags viper _ _ _ _ _ _ _ _ Hreq Hs).
      cbn [snd observed]. set_solver.
Qed.

(** C7.  The token step submits the user name joined to the domain by [@];
    on a 200 reply it reads the token from the body with [json.Unmarshal],
    exits fatally when the token is empty or blank, and otherwise returns
    ["Bearer "] followed by the token. *)
Theorem C7_authenticator req resp rest w :
  tokenRequest lib flags viper = Some req ->
  script w = Replied resp :: rest ->
  StatusCode resp = 200%Z ->
  ReqBody req =
    Some (json_Marshal lib
            (MkGetBearerTokenRequest
               (GetString flags viper "userName" ++ txt "@" ++ GetString flags viper "domain")
               (GetString flags viper "password")
               (GetString flags viper "tenant"))) /\
  Method req = txt "POST" /\
  URL req = GetString flags viper "baseURL" ++ txt "/identity/api/tokens" /\
  let w1 := World rest (observed w ++ Step1_line flags ++ [Do req]) in
  getBearerToken lib flags viper w =
    match json_Unmarshal lib (Body resp) with
    | (_, Some e) => (Exit 1, note w1 [Fatalf (txt "Error: %s") [AErr e]])
    | (gbtResponse, None) =>
        if blank (ID gbtResponse)
        then (Exit 1, note w1 [zero_length (txt "bearerToken")])
        else (Ret (txt "Bearer " ++ ID gbtResponse), w1)
    end.
Proof.
  intros Hreq Hs Hstatus.
  rewrite (getBearerToken_Replied lib flags viper _ _ _ _ Hreq Hs). cbv zeta.
  rewrite Hstatus. cbn [Z.eqb Pos.eqb negb].
  unfold tokenRequest, NewRequest in Hreq.
  destruct (NewRequest_ok lib _); simplify_eq/=. done.
Qed.

End TokenAndSubmission.

(** ** Step 2: the resource lookup *)

Lemma parses_Cat_intro r1 r2 s1 s2 c1 c2 c :
  parses r1 s1 c1 -> parses r2 s2 c2 -> c = c2 ++ c1 ->
  parses (Cat r1 r2) (s1 ++ s2) c.
Proof. intros H1 H2 ->. by constructor. Qed.

Lemma parses_resource machine mid c :
  parses (prog (resource_re machine)) mid c <->
  exists id, matched_entry machine id mid /\ c = [(2, machine); (1, id)].
Proof.
  unfold resource_re, matched_entry. cbn [prog]. split.
  - intros Hp. invert_parses.
    match goal with H : length ?i = 36 |- _ => exists i end.
    split; [|done].
    eexists _, _, _, _, _, _. split; [reflexivity|].
    split_and!; [done..|]. by repeat constructor.
  - intros (id & (d1 & d2 & d3 & d4 & d5 & pfx & -> & Hid & Hpfx & Hidl & Hpfxl & Hd) & ->).
    rewrite <- Hid, <- Hpfx.
    apply Forall_cons_1 in Hd as [H1 Hd]. apply Forall_cons_1 in Hd as [H2 Hd].
    apply Forall_cons_1 in Hd as [H3 Hd]. apply Forall_cons_1 in Hd as [H4 Hd].
    apply Forall_cons_1 in Hd as [H5 _].
    repeat first
      [ eapply parses_Cat_intro | apply P_Grp | apply P_Str | apply P_Rep; assumption
      | apply P_Any; assumption ].
    all: reflexivity.
Qed.

Lemma FindStringSubmatch_resource machine body :
  match FindStringSubmatch (resource_re machine) body with
  | [] => ~ has_entry machine body
  | matches =>
      exists whole id, matches = [whole; id; machine] /\ first_entry machine body id
  end.
Proof.
  unfold FindStringSubmatch. destruct (find _ body) as [[whole c]|] eqn:Hf.
  - apply find_leftmost in Hf as (pre & post & -> & Hp & Hleft).
    apply parses_resource in Hp as (id & Hentry & ->).
    exists whole, id. split; [done|]. exists pre, whole, post. split_and!; [done..|].
    intros pre' id' mid' post' Hbody Hentry'. apply (Hleft _ _ _ Hbody).
    eexists. apply parses_resource. eauto.
  - apply find_None in Hf. intros (pre & id & mid & post & -> & Hentry).
    apply Hf. exists pre, mid, post. split; [done|].
    eexists. apply parses_resource. eauto.
Qed.

Lemma first_entry_has_entry machine body id :
  first_entry machine body id -> has_entry machine body.
Proof. intros (pre & whole & post & -> & H & _). by exists pre, id, whole, post. Qed.

Section ResourceLocator.

Context (lib : Lib) (flags : Flags) (viper : Viper).

(** What step 2 does with a 200 reply, for a machine name that has no
    regexp metacharacter. *)
Lemma lookup_plain token machine req resp rest w :
  plain machine = true ->
  resourcesRequest lib flags viper token = Some req ->
  script w = Replied resp :: rest ->
  StatusCode resp = 200%Z ->
  let w1 := World rest (observed w ++ Step2_line flags machine
                        ++ ParseForm_line lib req ++ [Do req]) in
  (~ has_entry machine (Body resp) /\
   getVirtualMachineResourceID lib flags viper token machine w =
     (Exit 1, note w1 [not_found machine])) \/
  (exists id,
     first_entry machine (Body resp) id /\
     getVirtualMachineResourceID lib flags viper token machine w =
       if blank id
       then (Exit 1, note w1 [zero_length (txt "machineID")])
       else (Ret id, w1)).
Proof.
  intros Hplain Hreq Hs Hstatus w1.
  rewrite (getVirtualMachineResourceID_Replied lib flags viper _ _ _ _ _ _ Hreq Hs).
  cbv zeta. fold w1. rewrite Hstatus. cbn [Z.eqb Pos.eqb negb].
  rewrite (Compile_resource _ Hplain).
  pose proof (FindStringSubmatch_resource machine (Body resp)) as Hfind.
  destruct (FindStringSubmatch (resource_re machine) (Body resp)) as [|whole ms].
  - by left.
  - right. destruct Hfind as (whole' & id & [= -> ->] & Hfirst).
    exists id. split; [done|]. cbn [lookup list_lookup]. done.
Qed.

Lemma lookup_plain_outcomes token machine req resp rest w :
  plain machine = true ->
  resourcesRequest lib flags viper token = Some req ->
  script w = Replied resp :: rest ->
  StatusCode resp = 200%Z ->
  let w1 := World rest (observed w ++ Step2_line flags machine
                        ++ ParseForm_line lib req ++ [Do req]) in
  let run := getVirtualMachineResourceID lib flags viper token machine w in
  (~ has_entry machine (Body resp) -> run = (Exit 1, note w1 [not_found machine])) /\
  (forall id, run.1 = Ret id ->
     first_entry machine (Body resp) id /\ blank id = false).
Proof.
  intros Hplain Hreq Hs Hstatus w1 run.
  destruct (lookup_plain _ _ _ _ _ _ Hplain Hreq Hs Hstatus)
    as [[Hno Hrun] | (id & Hfirst & Hrun)]; fold w1 run in Hrun.
  - split; [done|]. intros id. by rewrite Hrun.
  - split.
    + intros Hno. destruct Hno. by eapply first_entry_has_entry.
    + intros id'. rewrite Hrun. destruct (blank id) eqn:Hb; [done|].
      by intros [= <-].
Qed.

(** C2, as the code has it.  For a machine name without regexp
    metacharacters and a 200 listing: when the listing has no entry that
    the pattern accepts for that name (virtual-machine markers, a
    36-character identifier, a name of three characters followed by
    exactly the machine name), the step exits fatally with the diagnostic
    that names the machine; otherwise it takes the leftmost such entry and
    returns its identifier, unless that identifier is blank, in which case
    it exits fatally naming [machineID].  It returns an identifier in no
    other case. *)
Theorem C2_resource_locator token machine req resp rest w :
  plain machine = true ->
  resourcesRequest lib flags viper token = Some req ->
  script w = Replied resp :: rest ->
  StatusCode resp = 200%Z ->
  let w1 := World rest (observed w ++ Step2_line flags machine
                        ++ ParseForm_line lib req ++ [Do req]) in
  let run := getVirtualMachineResourceID lib flags viper token machine w in
  (~ has_entry machine (Body resp) -> run = (Exit 1, note w1 [not_found machine])) /\
  (has_entry machine (Body resp) ->
   exists id,
     first_entry machine (Body resp) id /\ length id = 36 /\
     run = if blank id
           then (Exit 1, note w1 [zero_length (txt "machineID")])
           else (Ret id, w1)) /\
  (forall id, run.1 = Ret id ->
     first_entry machine (Body resp) id /\ blank id = false).
Proof.
  intros Hplain Hreq Hs Hstatus w1 run.
  destruct (lookup_plain_outcomes _ _ _ _ _ _ Hplain Hreq Hs Hstatus) as [Hnone Hret].
  split_and!; [done | | done].
  intros Hhas.
  destruct (lookup_plain _ _ _ _ _ _ Hplain Hreq Hs Hstatus)
    as [[Hno _] | (id & Hfirst & Hrun)]; [done|].
  exists id. split_and!; [done | | done].
  destruct Hfirst as (? & ? & ? & _ & (? & ? & ? & ? & ? & ? & _ & Hlen & _) & _).
  done.
Qed.

End ResourceLocator.

(** ** Step 2 and the command-line flags *)

Section CaseSensitivity.

Context (lib : Lib) (viper : Viper).




End CaseSensitivity.

(** ** Transport errors and unexpected statuses, step by step *)

Section ErrorPolicy.

Context (lib : Lib) (flags : Flags) (viper : Viper).

Lemma getRequestResultState_Failed token url req err rest w :
  statusRequest lib token url = Some req ->
  script w = Failed err None :: rest ->
  getRequestResultState lib flags token url w =
  (Panic, World rest (observed w ++ (Step6_line flags)
                      ++ [Sleep (10 * Second); Do req; Failure_line err])).
Proof.
  intros Hreq Hs. unfold getRequestResultState, Step6_line.
  rewrite traceInfo_bind, Hreq, deref_Some_bind.
  rewrite (MustCompile_bind _ _ _ _ Compile_stateName).
  unfold for_ever. cbn [repeat_until]. unfold mbind at 1, M_bind at 1.
  unfold poll_once, time_Sleep.
  rewrite emit_bind, (client_Do_Failed_bind _ _ _ err None rest) by done.
  cbv beta iota zeta. rewrite log_Println_bind.
  cbn [fmap option_fmap option_map]. rewrite deref_None_bind.
  unfold note; cbn [observed script]. by rewrite <- !(assoc_L (++)).
Qed.

(** C9, at the inputs where the code departs from it.  When the connection
    fails during step 3 or during a poll of step 6, the error is printed
    with [log.Println] and the step goes on to read the body of the nil
    response: the run is brought down by the run-time panic (status 2),
    not by the fatal exit that steps 1, 2 and 5 take on the same error.
    And step 6 never looks at the HTTP status: a reply of any status whose
    body carries the state ["Successful"] ends the run normally. *)
Theorem C9_errors_not_fatal_in_steps_3_and_6 token err rest w :
  script w = Failed err None :: rest ->
  (forall vmID req,
     actionsRequest lib flags viper token vmID = Some req ->
     getSnapshotResourceActionID lib flags viper token vmID w =
       (Panic, World rest (observed w ++ Step3_line flags ++ [Do req; Failure_line err]))) /\
  (forall url req,
     statusRequest lib token url = Some req ->
     getRequestResultState lib flags token url w =
       (Panic, World rest (observed w ++ (Step6_line flags)
                           ++ [Sleep (10 * Second); Do req; Failure_line err]))) /\
  (forall req,
     tokenRequest lib flags viper = Some req ->
     getBearerToken lib flags viper w =
       (Exit 1,
        World rest (observed w ++ Step1_line flags
                    ++ [Do req; Fatalf (txt "Error: %s") [AErr err]]))) /\
  (forall machine req,
     resourcesRequest lib flags viper token = Some req ->
     getVirtualMachineResourceID lib flags viper token machine w =
       (Exit 1,
        World rest (observed w ++ Step2_line flags machine ++ ParseForm_line lib req
                    ++ [Do req; Fatalf (txt "Error: %s") [AErr err]]))) /\
  (forall vmID actionID req,
     snapshotRequest lib flags viper token vmID actionID = Some req ->
     sendSnapshotRequest lib flags viper token vmID actionID w =
       (Exit 1,
        World rest (observed w ++ Step5_line flags
                    ++ [Do req; Fatalf (txt "Error: %s") [AErr err]]))) /\
  (forall url req resp w',
     statusRequest lib token url = Some req ->
     script w' = Replied resp :: rest ->
     stateName (Body resp) = Some (txt "Successful") ->
     (getRequestResultState lib flags token url w').1 = Ret ()).
Proof.
  intros Hs. split_and!.
  - intros vmID req Hreq.
    rewrite (getSnapshotResourceActionID_reply lib flags viper _ _ _ _ _ _ Hreq Hs).
    cbv zeta. unfold note; cbn [observed script]. by rewrite <- !(assoc_L (++)).
  - intros url req Hreq. by apply getRequestResultState_Failed.
  - intros req Hreq.
    apply (getBearerToken_Failed lib flags viper _ _ None _ _ Hreq Hs).
  - intros machine req Hreq.
    apply (getVirtualMachineResourceID_Failed lib flags viper _ _ _ _ None _ _ Hreq Hs).
  - intros vmID actionID req Hreq.
    apply (sendSnapshotRequest_Failed lib flags viper _ _ _ _ _ None _ _ Hreq Hs).
  - intros url req resp w' Hreq Hs' Hst.
    unfold getRequestResultState.
    rewrite traceInfo_bind, Hreq, deref_Some_bind.
    rewrite (MustCompile_bind _ _ _ _ Compile_stateName).
    unfold for_ever. cbn [repeat_until]. unfold mbind at 1, M_bind at 1.
    rewrite (poll_once_Replied _ _ _ resp rest) by done. cbv zeta.
    rewrite Hst. replace (text_eqb (txt "Successful") (txt "Failed")) with false by done.
    by rewrite text_eqb_refl.
Qed.

End ErrorPolicy.

Section Instances.

Import Sample Runs.

(** The claim of C2 fails on a listing whose entry for the machine has a
    blank identifier: the entry is there, with exactly the requested name,
    and the step does not return its identifier but exits fatally. *)
Lemma C2_blank_identifier_counterexample :
  has_entry (txt "web01") blank_listing /\
  getVirtualMachineResourceID lib flags viper token (txt "web01")
    (start [ok blank_listing]) =
  (Exit 1, World [] [Do request2; zero_length (txt "machineID")]).
Proof.
  split; [|by vm_compute].
  exists (jtxt "{'content':[{"), blank_id,
    (jtxt "'@type':'CatalogResource','id':'" ++ blank_id
     ++ jtxt "','iconId':'Infrastructure.CatalogItem.Machine.Virtual.vSphere','resourceTypeRef':{'id':'Infrastructure.Virtual','label':'Virtual Machine'},'name':'KPNweb01','description'"),
    (jtxt ":null}]}").
  split; [by vm_compute|].
  exists 46%N, 46%N, 46%N, 46%N, 46%N, (txt "KPN").
  split_and!; [by vm_compute | done | done | | |]; by repeat constructor.
Qed.

Lemma C2_resource_locator_witness :
  first_entry (txt "web01") (listing [entry web01_id (txt "KPNweb01")]) web01_id /\
  blank web01_id = false.
Proof.
  destruct (C2_resource_locator lib flags viper token (txt "web01") request2
    (MkResponse 200 ∅ (listing [entry web01_id (txt "KPNweb01")])) []
    (start [resources_reply]) eq_refl eq_refl eq_refl eq_refl) as (_ & _ & Hret).
  apply (Hret web01_id). vm_compute. reflexivity.
Defined.

(** The machine name is spliced into the pattern unescaped: the dot of
    [web.1] accepts the [X] of another machine. *)
Example lookup_reads_name_as_pattern :
  (getVirtualMachineResourceID lib flags viper token (txt "web.1")
     (start [ok other_listing])).1 = Ret web01_id.
Proof. by vm_compute. Qed.



Lemma C4_delete_existing_witness :
  snapshot_json flags viper =
  payload_head ++ json_bool (negb (keepExisting flags)) ++ payload_tail (txt "acme").
Proof.
  destruct (C4_delete_existing lib flags viper token web01_id action_id request5 eq_refl)
    as [Hjson _].
  exact Hjson.
Defined.

Lemma C5_dry_run_witness :
  exit_status (Run lib dry viper (start submitted)).1 = Some 0%Z.
Proof.
  destruct (C5_dry_run lib dry viper (start submitted) eq_refl) as [_ Hok].
  eapply Hok. vm_compute. reflexivity.
Defined.


Lemma C7_authenticator_witness :
  getBearerToken lib flags viper (start [token_reply]) =
  (Ret (txt "Bearer MTU1NjUzNzA3NDIxNTo="), World [] [Do request1]).
Proof.
  destruct (C7_authenticator lib flags viper request1
    (MkResponse 200 ∅ (jtxt "{'expires':'2019-05-01T12:00:00.000Z','id':'MTU1NjUzNzA3NDIxNTo=','tenant':'acme'}"))
    [] (start [token_reply]) eq_refl eq_refl eq_refl) as (_ & _ & _ & Hrun).
  rewrite Hrun. vm_compute. reflexivity.
Defined.

Lemma C9_errors_not_fatal_in_steps_3_and_6_witness :
  getSnapshotResourceActionID lib flags viper token web01_id
    (start [Failed refused None]) =
  (Panic, World [] [Do request3; Failure_line refused]).
Proof.
  destruct (C9_errors_not_fatal_in_steps_3_and_6 lib flags viper token refused []
    (start [Failed refused None]) eq_refl) as (Hstep3 & _).
  rewrite (Hstep3 web01_id request3 eq_refl). reflexivity.
Defined.

(** The whole run, with the connection refused at step 3: the last thing
    observed is the printed error, and the process ends with the status of
    a panic. *)
Example run_step3_refused :
  let '(res, w') := Run lib flags viper step3_refused in
  res = Panic /\ exit_status res = Some 2%Z /\
  last (observed w') = Some (Failure_line refused).
Proof. by vm_compute. Qed.

(** The same error one step earlier is fatal. *)
Example run_step2_refused :
  let '(res, w') := Run lib flags viper (start [token_reply; Failed refused None]) in
  res = Exit 1 /\
  last (observed w') = Some (Fatalf (txt "Error: %s") [AErr refused]).
Proof. by vm_compute. Qed.

(** A poll reply with status 500 that carries the state Successful. *)
Example run_poll_status_ignored :
  exit_status
    (Run lib flags viper
       (start (submitted ++
          [Replied (MkResponse 500 ∅ (jtxt "{'stateName':'Successful'}"))]))).1 = Some 0%Z.
Proof. by vm_compute. Qed.

End Instances.

(** * Further properties *)

(** ** Lazy and greedy fields *)

Section Fields.

Context {X : Type}.
Implicit Types (k : text -> option X) (K : text -> caps -> option X).

(** [.*?] stops at the first place where the rest of the pattern matches. *)
Lemma star_lazy_shortest k s v :
  star_lazy k s = Some v ->
  exists s1 s2,
    s = s1 ++ s2 /\ Forall not_nl s1 /\ k s2 = Some v /\
    forall p q, s1 = p ++ q -> q <> [] -> k (q ++ s2) = None.
Proof.
  induction s as [|x s IH]; simpl; intros H.
  - exists [], []. destruct (k []) eqn:Hk; [|done].
    split_and!; [done | constructor | done |]. by intros [|] [|].
  - destruct (k (x :: s)) as [w|] eqn:Hk.
    + exists [], (x :: s). split_and!; [done | constructor | congruence |].
      by intros [|] [|].
    + destruct (is_nl x) eqn:Hx; [discriminate|].
      destruct (IH H) as (s1 & s2 & -> & Hall & Hk' & Hshort).
      exists (x :: s1), s2. split_and!; [done | by constructor | done |].
      intros [|y p] q Hsplit Hq; simpl in Hsplit.
      * by subst q.
      * injection Hsplit as -> ->. by apply (Hshort p).
Qed.

(** [.*] stops at the last place on the line where the rest matches. *)
Lemma star_greedy_longest k s v :
  star_greedy k s = Some v ->
  exists s1 s2,
    s = s1 ++ s2 /\ Forall not_nl s1 /\ k s2 = Some v /\
    forall p q, s2 = p ++ q -> p <> [] -> Forall not_nl p -> k q = None.
Proof.
  induction s as [|x s IH]; simpl; intros H.
  - exists [], []. split_and!; [done | constructor | done |]. by intros [|] [|].
  - destruct (is_nl x) eqn:Hx.
    + exists [], (x :: s). split_and!; [done | constructor | done |].
      intros [|y p] q Hsplit Hp Hall; [done|].
      injection Hsplit as -> ->. apply Forall_cons_1 in Hall as [Hy _].
      unfold not_nl in Hy. congruence.
    + destruct (star_greedy k s) as [w|] eqn:Hs.
      * destruct (IH H) as (s1 & s2 & -> & Hall & Hk & Hlong).
        exists (x :: s1), s2. split_and!; [done | by constructor | done | done].
      * exists [], (x :: s). split_and!; [done | constructor | done |].
        intros [|y p] q Hsplit Hp Hall; [done|].
        injection Hsplit as -> ->. apply Forall_cons_1 in Hall as [_ Hall].
        destruct (k q) as [u|] eqn:Hq; [|done].
        destruct (star_greedy_complete k p q Hall) as [u' Hu']; [by eexists|].
        congruence.
Qed.

Context (r1 r3 : regex) (a e : text) (ca ce : caps) (i : nat).
Context (Hr1 : literal r1 a ca) (Hr3 : literal r3 e ce).

(** A field delimited by [a] on the left and [e] on the right, read
    lazily. *)
Lemma exec_lazy_field K s c v :
  (forall s' c', is_Some (K s' c')) ->
  exec (Cat r1 (Cat (Grp i (AnyStar false)) r3)) K s c = Some v ->
  exists st rest,
    s = a ++ st ++ e ++ rest /\ Forall not_nl st /\
    K rest (ce ++ (i, st) :: ca ++ c) = Some v /\
    forall p q r, st = p ++ q -> q <> [] -> q ++ e ++ rest <> e ++ r.
Proof using Hr1 Hr3.
  intros Htotal H. cbn [exec] in H. rewrite Hr1 in H.
  destruct (strip_prefix a s) as [s1|] eqn:Ha; [|discriminate].
  apply strip_prefix_Some in Ha as ->.
  apply star_lazy_shortest in H as (st & s2 & -> & Hall & Hk & Hshort).
  cbv beta in Hk. rewrite Hr3, take_app_sub in Hk.
  destruct (strip_prefix e s2) as [rest|] eqn:He; [|discriminate].
  apply strip_prefix_Some in He as ->.
  exists st, rest. split_and!; [done..|].
  intros p q r Hsplit Hq Heq. specialize (Hshort p q Hsplit Hq).
  cbv beta in Hshort. rewrite Hr3, Heq, strip_prefix_app in Hshort.
  match type of Hshort with K ?x ?y = None => destruct (Htotal x y) as [u Hu] end.
  congruence.
Qed.

(** The same field read greedily. *)
Lemma exec_greedy_field K s c v :
  (forall s' c', is_Some (K s' c')) ->
  exec (Cat r1 (Cat (Grp i (AnyStar true)) r3)) K s c = Some v ->
  exists st rest,
    s = a ++ st ++ e ++ rest /\ Forall not_nl st /\
    K rest (ce ++ (i, st) :: ca ++ c) = Some v /\
    forall p q, e ++ rest = p ++ e ++ q -> p <> [] -> ~ Forall not_nl p.
Proof using Hr1 Hr3.
  intros Htotal H. cbn [exec] in H. rewrite Hr1 in H.
  destruct (strip_prefix a s) as [s1|] eqn:Ha; [|discriminate].
  apply strip_prefix_Some in Ha as ->.
  apply star_greedy_longest in H as (st & s2 & -> & Hall & Hk & Hlong).
  cbv beta in Hk. rewrite Hr3, take_app_sub in Hk.
  destruct (strip_prefix e s2) as [rest|] eqn:He; [|discriminate].
  apply strip_prefix_Some in He as ->.
  exists st, rest. split_and!; [done..|].
  intros p q Hsplit Hp Hall'. specialize (Hlong p (e ++ q) Hsplit Hp Hall').
  cbv beta in Hlong. rewrite Hr3, strip_prefix_app in Hlong.
  match type of Hlong with K ?x ?y = None => destruct (Htotal x y) as [u Hu] end.
  congruence.
Qed.

(** Wherever such a field stands, the execution succeeds. *)
Lemma exec_field_complete g K st post c :
  (forall s' c', is_Some (K s' c')) ->
  Forall not_nl st ->
  is_Some (exec (Cat r1 (Cat (Grp i (AnyStar g)) r3)) K (a ++ st ++ e ++ post) c).
Proof using Hr1 Hr3.
  intros Htotal Hall. cbn [exec]. rewrite Hr1, strip_prefix_app.
  assert (Hk : forall c', is_Some (exec r3 K (e ++ post) c')).
  { intros c'. rewrite Hr3, strip_prefix_app. apply Htotal. }
  destruct g; [apply star_greedy_complete | apply star_lazy_complete]; auto.
Qed.

End Fields.

Lemma literal_Str a : literal (Str a) a [].
Proof. by intros X K s c. Qed.

Lemma literal_Grp_Str i a : literal (Grp i (Str a)) a [(i, a)].
Proof.
  intros X K s c. cbn [exec].
  destruct (strip_prefix a s) as [s'|] eqn:Ha; [|done].
  apply strip_prefix_Some in Ha as ->. by rewrite take_app_sub.
Qed.

(** A successful search is an execution at the first start position
    where one succeeds. *)
Lemma find_exec r s v :
  find r s = Some v ->
  exists pre rest,
    s = pre ++ rest /\ exec r (found rest) rest [] = Some v /\
    forall pre' rest',
      s = pre' ++ rest' -> length pre' < length pre -> exec r (found rest') rest' [] = None.
Proof.
  unfold found.
  induction s as [|x s IH]; rewrite find_unfold;
    destruct (exec r _ _ []) as [u|] eqn:He; try discriminate.
  - intros [= ->]. exists [], []. split_and!; [done..|]. intros; simpl in *; lia.
  - intros [= ->]. exists [], (x :: s). split_and!; [done..|]. intros; simpl in *; lia.
  - intros H. destruct (IH H) as (pre & rest & -> & Hx & Hleft).
    exists (x :: pre), rest. split_and!; [done..|].
    intros [|y pre'] rest' Hs Hlen; simpl in Hs.
    + by subst rest'.
    + injection Hs as -> Hs. apply (Hleft pre'); [done | simpl in Hlen; lia].
Qed.

Lemma find_None_exec r s :
  find r s = None ->
  forall pre rest, s = pre ++ rest -> exec r (found rest) rest [] = None.
Proof.
  unfold found.
  induction s as [|x s IH]; rewrite find_unfold;
    destruct (exec r _ _ []) as [u|] eqn:He; try discriminate.
  - intros _ [|] [|]; by try discriminate.
  - intros H [|y pre] rest Hs; simpl in Hs; [by subst rest|].
    injection Hs as -> Hs. by apply (IH H pre).
Qed.

Lemma app_eq_split (s1 t1 s2 t2 : text) :
  s1 ++ t1 = s2 ++ t2 -> length s1 <= length s2 ->
  exists d, s2 = s1 ++ d /\ t1 = d ++ t2.
Proof.
  revert s2. induction s1 as [|x s1 IH]; intros s2 Heq Hlen; simpl in *.
  - by exists s2.
  - destruct s2 as [|y s2]; simpl in *; [lia|].
    injection Heq as -> Heq. destruct (IH s2 Heq) as (d & -> & ->); [lia|].
    by exists d.
Qed.

Lemma app_eq_same_length (s1 t1 s2 t2 : text) :
  s1 ++ t1 = s2 ++ t2 -> length s1 = length s2 -> s1 = s2 /\ t1 = t2.
Proof.
  intros Heq Hlen. destruct (app_eq_split _ _ _ _ Heq) as (d & -> & ->); [lia|].
  rewrite length_app in Hlen. destruct d; simpl in Hlen; [|lia].
  by rewrite (right_id_L [] (++)).
Qed.

Section FieldOfAPattern.

Context (r1 r3 : regex) (a e : text) (ca ce : caps) (i : nat).
Context (Hr1 : literal r1 a ca) (Hr3 : literal r3 e ce).

Lemma leftmost_field_unique body pre st post pre' st' post' :
  field_at a e body pre st post -> leftmost_field a e body pre ->
  field_at a e body pre' st' post' -> leftmost_field a e body pre' ->
  pre = pre' /\ st ++ e ++ post = st' ++ e ++ post'.
Proof.
  intros Hf Hl Hf' Hl'.
  pose proof (Hl _ _ _ Hf'). pose proof (Hl' _ _ _ Hf).
  destruct Hf as [Hb _], Hf' as [Hb' _]. rewrite Hb in Hb'.
  apply app_eq_same_length in Hb' as [-> Hb']; [|lia].
  split; [done|]. by apply (inj (app a)) in Hb'.
Qed.

Lemma narrowest_field_unique body st st' :
  narrowest_field a e body st -> narrowest_field a e body st' -> st = st'.
Proof.
  intros (pre & post & Hf & Hl & Hn) (pre' & post' & Hf' & Hl' & Hn').
  destruct (leftmost_field_unique _ _ _ _ _ _ _ Hf Hl Hf' Hl') as [_ Heq].
  destruct (decide (length st <= length st')) as [Hle|Hle].
  - destruct (app_eq_split _ _ _ _ Heq Hle) as (d & -> & Hd).
    destruct d as [|x d]; [by rewrite (right_id_L [] (++))|].
    by destruct (Hn' st (x :: d) post eq_refl).
  - symmetry in Heq.
    destruct (app_eq_split _ _ _ _ Heq) as (d & -> & Hd); [lia|].
    destruct d as [|x d]; [by rewrite (right_id_L [] (++))|].
    by destruct (Hn st' (x :: d) post' eq_refl).
Qed.

Lemma widest_field_unique body st st' :
  widest_field a e body st -> widest_field a e body st' -> st = st'.
Proof.
  intros (pre & post & Hf & Hl & Hn) (pre' & post' & Hf' & Hl' & Hn').
  destruct (leftmost_field_unique _ _ _ _ _ _ _ Hf Hl Hf' Hl') as [_ Heq].
  destruct Hf as [_ Hall], Hf' as [_ Hall'].
  destruct (decide (length st <= length st')) as [Hle|Hle].
  - destruct (app_eq_split _ _ _ _ Heq Hle) as (d & -> & Hd).
    destruct d as [|x d]; [by rewrite (right_id_L [] (++))|].
    apply Forall_app in Hall' as [_ Hall']. by destruct (Hn _ _ Hd).
  - symmetry in Heq.
    destruct (app_eq_split _ _ _ _ Heq) as (d & -> & Hd); [lia|].
    destruct d as [|x d]; [by rewrite (right_id_L [] (++))|].
    apply Forall_app in Hall as [_ Hall]. by destruct (Hn' _ _ Hd).
Qed.

Lemma found_total rest s' c' : is_Some (found rest s' c').
Proof. by eexists. Qed.

Lemma find_leftmost_field g body pre :
  (forall pre' rest',
     body = pre' ++ rest' -> length pre' < length pre ->
     exec (Cat r1 (Cat (Grp i (AnyStar g)) r3)) (found rest') rest' [] = None) ->
  leftmost_field a e body pre.
Proof using Hr1 Hr3.
  intros Hleft pre' st' post' [Hb' Hall'].
  destruct (decide (length pre <= length pre')) as [|Hlt]; [done|].
  specialize (Hleft pre' _ Hb' ltac:(lia)).
  destruct (exec_field_complete r1 r3 a e ca ce i Hr1 Hr3 g
              (found (a ++ st' ++ e ++ post')) st' post' [] (found_total _) Hall')
    as [u Hu].
  congruence.
Qed.

(** What [find] returns for a lazy run between [a] and [e] ... *)
Lemma find_lazy_field body whole c :
  find (Cat r1 (Cat (Grp i (AnyStar false)) r3)) body = Some (whole, c) ->
  exists st,
    whole = a ++ st ++ e /\ c = ce ++ (i, st) :: ca /\ narrowest_field a e body st.
Proof using Hr1 Hr3.
  intros Hf. apply find_exec in Hf as (pre & rest & Hb & Hx & Hleft).
  apply (exec_lazy_field r1 r3 a e ca ce i Hr1 Hr3) in Hx
    as (st & post & -> & Hall & Hk & Hn); [|apply found_total].
  unfold found in Hk. injection Hk as <- <-.
  exists st. split_and!.
  - rewrite !(assoc_L (++)), take_app_sub. by rewrite <- !(assoc_L (++)).
  - by rewrite (right_id_L [] (++)).
  - exists pre, post. split_and!; [done | | done].
    by apply (find_leftmost_field false).
Qed.

(** ... and for a greedy one. *)
Lemma find_greedy_field body whole c :
  find (Cat r1 (Cat (Grp i (AnyStar true)) r3)) body = Some (whole, c) ->
  exists st,
    whole = a ++ st ++ e /\ c = ce ++ (i, st) :: ca /\ widest_field a e body st.
Proof using Hr1 Hr3.
  intros Hf. apply find_exec in Hf as (pre & rest & Hb & Hx & Hleft).
  apply (exec_greedy_field r1 r3 a e ca ce i Hr1 Hr3) in Hx
    as (st & post & -> & Hall & Hk & Hn); [|apply found_total].
  unfold found in Hk. injection Hk as <- <-.
  exists st. split_and!.
  - rewrite !(assoc_L (++)), take_app_sub. by rewrite <- !(assoc_L (++)).
  - by rewrite (right_id_L [] (++)).
  - exists pre, post. split_and!; [done | | done].
    by apply (find_leftmost_field true).
Qed.

(** Where a field stands, the search finds one. *)
Lemma find_field_Some g body pre st post :
  field_at a e body pre st post ->
  is_Some (find (Cat r1 (Cat (Grp i (AnyStar g)) r3)) body).
Proof using Hr1 Hr3.
  intros [Hb Hall].
  destruct (find _ body) as [v|] eqn:Hf; [by eexists|].
  pose proof (find_None_exec _ _ Hf pre _ Hb) as Hx.
  destruct (exec_field_complete r1 r3 a e ca ce i Hr1 Hr3 g
              (found (a ++ st ++ e ++ post)) st post [] (found_total _) Hall)
    as [u Hu].
  congruence.
Qed.

Lemma find_narrowest_field body st :
  narrowest_field a e body st ->
  find (Cat r1 (Cat (Grp i (AnyStar false)) r3)) body
  = Some (a ++ st ++ e, ce ++ (i, st) :: ca).
Proof using Hr1 Hr3.
  intros Hn. pose proof Hn as (pre & post & Hf & _).
  destruct (find_field_Some false _ _ _ _ Hf) as [[whole c] Hfind].
  rewrite Hfind. apply find_lazy_field in Hfind as (st' & -> & -> & Hn').
  by rewrite (narrowest_field_unique _ _ _ Hn Hn').
Qed.

Lemma find_widest_field body st :
  widest_field a e body st ->
  find (Cat r1 (Cat (Grp i (AnyStar true)) r3)) body
  = Some (a ++ st ++ e, ce ++ (i, st) :: ca).
Proof using Hr1 Hr3.
  intros Hn. pose proof Hn as (pre & post & Hf & _).
  destruct (find_field_Some true _ _ _ _ Hf) as [[whole c] Hfind].
  rewrite Hfind. apply find_greedy_field in Hfind as (st' & -> & -> & Hn').
  by rewrite (widest_field_unique _ _ _ Hn Hn').
Qed.

End FieldOfAPattern.

(** ** The fields that the steps read *)

Lemma first_stateName_narrowest body st :
  first_stateName body st <-> narrowest_field stateName_marker [dquote] body st.
Proof.
  split.
  - intros (pre & post & Hb & Hall & Hnot & Hleft).
    exists pre, post. split_and!; [done | |].
    + intros pre' st' post' [Hb' Hall']. by eapply Hleft.
    + intros p [|x q] r -> Hq Heq; [done|]. simpl in Heq. injection Heq as -> _.
      apply Hnot, elem_of_app. right. left.
  - intros (pre & post & [Hb Hall] & Hleft & Hn).
    exists pre, post. split_and!; [done..| |].
    + intros Hin. apply list_elem_of_split in Hin as (p & q & ->).
      by apply (Hn p (dquote :: q) (q ++ [dquote] ++ post)).
    + intros pre' st' post' Hb' Hall'. by apply (Hleft pre' st' post').
Qed.

Lemma stateName_first body st : stateName body = Some st <-> first_stateName body st.
Proof.
  rewrite first_stateName_narrowest.
  unfold stateName, FindStringSubmatch, stateName_re. cbn [prog ngroups]. split.
  - destruct (find _ body) as [[whole c]|] eqn:Hf; [|done].
    apply (find_lazy_field _ _ _ _ _ _ _ (literal_Str _) (literal_Str _)) in Hf
      as (st' & -> & -> & Hn).
    by intros [= <-].
  - intros Hn.
    by rewrite (find_narrowest_field _ _ _ _ _ _ _ (literal_Str _) (literal_Str _) _ _ Hn).
Qed.

Lemma systemMessage_widest body m :
  FindStringSubmatch systemMessage_re body !! 2 = Some m <->
  widest_field systemMessage_open systemMessage_close body m.
Proof.
  unfold FindStringSubmatch, systemMessage_re. cbn [prog ngroups]. split.
  - destruct (find _ body) as [[whole c]|] eqn:Hf; [|done].
    apply (find_greedy_field _ _ _ _ _ _ _ (literal_Grp_Str _ _) (literal_Grp_Str _ _)) in Hf
      as (st' & -> & -> & Hn).
    by intros [= <-].
  - intros Hn.
    by rewrite (find_widest_field _ _ _ _ _ _ _
                  (literal_Grp_Str 1 _) (literal_Grp_Str 3 _) _ _ Hn).
Qed.

Lemma h1_widest body title :
  FindStringSubmatch h1_re body !! 1 = Some title <->
  widest_field h1_open h1_close body title.
Proof.
  unfold FindStringSubmatch, h1_re. cbn [prog ngroups]. split.
  - destruct (find _ body) as [[whole c]|] eqn:Hf; [|done].
    apply (find_greedy_field _ _ _ _ _ _ _ (literal_Str _) (literal_Str _)) in Hf
      as (st' & -> & -> & Hn).
    by intros [= <-].
  - intros Hn.
    by rewrite (find_widest_field _ _ _ _ _ _ _ (literal_Str _) (literal_Str _) _ _ Hn).
Qed.

(** X1.  The state that step 6 reads in the body of a poll reply is the value
    of the first ["stateName":"..."] member that is closed on its line: it
    ends at the next double quote, whatever stands before that quote, and
    a member further left wins over any other. *)
Theorem X1_poll_reads_first_stateName re body st :
  Compile stateName_pattern = Some re ->
  FindStringSubmatch re body !! 1 = Some st <-> first_stateName body st.
Proof.
  rewrite Compile_stateName. intros [= <-]. apply stateName_first.
Qed.

Section Diagnostics.

Context (lib : Lib) (flags : Flags) (viper : Viper).

(** X2.  When the status of the response is not the expected one, step 1 stops
    with the system message of the body, and steps 2, 3 and 5 with its
    heading; the text runs from the leftmost opening delimiter that is
    closed on its line to the last closing delimiter of that line. *)
Theorem X2_unexpected_status_diagnostics w resp rest :
  script w = Replied resp :: rest ->
  (forall req message,
     tokenRequest lib flags viper = Some req ->
     StatusCode resp <> 200%Z ->
     widest_field systemMessage_open systemMessage_close (Body resp) message ->
     getBearerToken lib flags viper w =
     (Exit 1,
      World rest (observed w ++ Step1_line flags
                  ++ [Do req; Unexpected_status (StatusCode resp) message]))) /\
  (forall token machine req title,
     resourcesRequest lib flags viper token = Some req ->
     StatusCode resp <> 200%Z ->
     widest_field h1_open h1_close (Body resp) title ->
     getVirtualMachineResourceID lib flags viper token machine w =
     (Exit 1,
      World rest (observed w ++ Step2_line flags machine ++ ParseForm_line lib req
                  ++ [Do req; Error_line title]))) /\
  (forall token vmID req title,
     actionsRequest lib flags viper token vmID = Some req ->
     StatusCode resp <> 200%Z ->
     widest_field h1_open h1_close (Body resp) title ->
     getSnapshotResourceActionID lib flags viper token vmID w =
     (Exit 1, World rest (observed w ++ Step3_line flags ++ [Do req; Error_line title]))) /\
  (forall token vmID actionID req title,
     snapshotRequest lib flags viper token vmID actionID = Some req ->
     StatusCode resp <> 201%Z ->
     widest_field h1_open h1_close (Body resp) title ->
     sendSnapshotRequest lib flags viper token vmID actionID w =
     (Exit 1, World rest (observed w ++ Step5_line flags ++ [Do req; Error_line title]))).
Proof.
  intros Hs. split_and!.
  - intros req message Hreq Hstatus Hm. apply systemMessage_widest in Hm.
    rewrite (getBearerToken_Replied _ _ _ _ _ _ _ Hreq Hs). cbv zeta.
    rewrite (status_differs _ _ Hstatus), Hm.
    unfold note; cbn [observed script]. by rewrite <- !(assoc_L (++)).
  - intros token machine req title Hreq Hstatus Hm. apply h1_widest in Hm.
    rewrite (getVirtualMachineResourceID_Replied _ _ _ _ _ _ _ _ _ Hreq Hs). cbv zeta.
    rewrite (status_differs _ _ Hstatus), Hm.
    unfold note; cbn [observed script]. by rewrite <- !(assoc_L (++)).
  - intros token vmID req title Hreq Hstatus Hm. apply h1_widest in Hm.
    rewrite (getSnapshotResourceActionID_reply _ _ _ _ _ _ _ _ _ Hreq Hs). cbv zeta.
    unfold action_of. rewrite (status_differs _ _ Hstatus), Hm.
    unfold note; cbn [observed script]. by rewrite <- !(assoc_L (++)).
  - intros token vmID actionID req title Hreq Hstatus Hm. apply h1_widest in Hm.
    rewrite (sendSnapshotRequest_Replied _ _ _ _ _ _ _ _ _ _ Hreq Hs). cbv zeta.
    rewrite (status_differs _ _ Hstatus), Hm.
    unfold note; cbn [observed script]. by rewrite <- !(assoc_L (++)).
Qed.

End Diagnostics.

(** ** Step 3: the identifier of the snapshot action *)

Section ActionPattern.

Lemma exec_Str_lazy {X} a r (K : text -> caps -> option X) s c :
  exec (Cat (Str a) (Cat (AnyStar false) r)) K s c =
  match strip_prefix a s with
  | Some s' => star_lazy (fun s'' => exec r K s'' c) s'
  | None => None
  end.
Proof. reflexivity. Qed.

Lemma exec_action {X} (K : text -> caps -> option X) s c v :
  (forall s' c', is_Some (K s' c')) ->
  exec (prog action_re) K s c = Some v ->
  exists gap id post,
    s = action_name ++ gap ++ action_kind ++ id ++ action_close ++ post /\
    Forall not_nl gap /\ Forall not_nl id /\
    K post ((1, id) :: c) = Some v /\
    (forall p q id' post',
       gap = p ++ q -> q <> [] ->
       ~ field_at action_kind action_close
           (q ++ action_kind ++ id ++ action_close ++ post) [] id' post') /\
    (forall p q r, id = p ++ q -> q <> [] -> q ++ action_close ++ post <> action_close ++ r).
Proof.
  intros Htotal H. unfold action_re in H. cbn [prog] in H.
  rewrite exec_Str_lazy in H.
  destruct (strip_prefix _ s) as [s1|] eqn:Ha; [|discriminate].
  apply strip_prefix_Some in Ha as ->.
  apply star_lazy_shortest in H as (gap & s2 & -> & Hgap & Hk & Hshort).
  cbv beta in Hk.
  apply (exec_lazy_field _ _ _ _ _ _ _ (literal_Str _) (literal_Str _)) in Hk
    as (id & post & -> & Hid & Hk & Hn); [|done].
  exists gap, id, post. split_and!; [done..| |done].
  intros p q id' post' Hsplit Hq [Hb' Hid'].
  specialize (Hshort p q Hsplit Hq). cbv beta in Hshort.
  fold action_kind action_close in Hshort. rewrite Hb' in Hshort.
  destruct (exec_field_complete _ _ _ _ _ _ 1 (literal_Str action_kind)
              (literal_Str action_close) false K id' post' c Htotal Hid') as [u Hu].
  cbn [app] in Hshort. congruence.
Qed.

Lemma exec_action_complete {X} (K : text -> caps -> option X) gap id post c :
  (forall s' c', is_Some (K s' c')) ->
  Forall not_nl gap -> Forall not_nl id ->
  is_Some (exec (prog action_re) K
             (action_name ++ gap ++ action_kind ++ id ++ action_close ++ post) c).
Proof.
  intros Htotal Hgap Hid. unfold action_re. cbn [prog].
  rewrite exec_Str_lazy. fold action_name. rewrite strip_prefix_app.
  apply star_lazy_complete; [done|].
  by apply (exec_field_complete _ _ _ _ _ _ 1 (literal_Str action_kind)
              (literal_Str action_close) false).
Qed.

Lemma find_action body whole c :
  find (prog action_re) body = Some (whole, c) ->
  exists id, c = [(1, id)] /\ first_action body id.
Proof.
  intros Hf. apply find_exec in Hf as (pre & rest & Hb & Hx & Hleft).
  apply exec_action in Hx as (gap & id & post & -> & Hgap & Hid & Hk & Hng & Hni);
    [|apply found_total].
  unfold found in Hk. injection Hk as _ <-.
  exists id. split; [done|]. exists pre, gap, post. split_and!; [done | | done..].
  intros pre' gap' id' post' (Hb' & Hgap' & Hid').
  destruct (decide (length pre <= length pre')) as [|Hlt]; [done|].
  specialize (Hleft pre' _ Hb' ltac:(lia)).
  destruct (exec_action_complete
              (found (action_name ++ gap' ++ action_kind ++ id' ++ action_close ++ post'))
              gap' id' post' [] (found_total _) Hgap' Hid') as [u Hu].
  congruence.
Qed.

Lemma find_action_Some body : has_action body -> is_Some (find (prog action_re) body).
Proof.
  intros (pre & gap & id & post & Hb & Hgap & Hid).
  destruct (find _ body) as [v|] eqn:Hf; [by eexists|].
  pose proof (find_None_exec _ _ Hf pre _ Hb) as Hx.
  destruct (exec_action_complete
              (found (action_name ++ gap ++ action_kind ++ id ++ action_close ++ post))
              gap id post [] (found_total _) Hgap Hid) as [u Hu].
  congruence.
Qed.

Lemma first_action_unique body id id' :
  first_action body id -> first_action body id' -> id = id'.
Proof.
  intros (pre & gap & post & (Hb & Hgap & Hid) & Hl & Hng & Hni)
         (pre' & gap' & post' & (Hb' & Hgap' & Hid') & Hl' & Hng' & Hni').
  assert (Hpre : length pre = length pre').
  { pose proof (Hl pre' gap' id' post' (conj Hb' (conj Hgap' Hid'))).
    pose proof (Hl' pre gap id post (conj Hb (conj Hgap Hid))). lia. }
  rewrite Hb in Hb'. apply app_eq_same_length in Hb' as [_ Heq]; [|done].
  apply (inj (app action_name)) in Heq.
  assert (Hgaps : gap = gap' /\
                  id ++ action_close ++ post = id' ++ action_close ++ post').
  { destruct (decide (length gap <= length gap')) as [Hle|Hle].
    - destruct (app_eq_split _ _ _ _ Heq Hle) as (d & -> & Hd).
      destruct d as [|x d].
      + rewrite (right_id_L [] (++)). split; [done|].
        by apply (inj (app action_kind)) in Hd.
      + destruct (Hng' gap (x :: d) id post eq_refl); [done|].
        split; [|done]. by rewrite <- Hd.
    - symmetry in Heq.
      destruct (app_eq_split _ _ _ _ Heq) as (d & -> & Hd); [lia|].
      destruct d as [|x d].
      + rewrite (right_id_L [] (++)). split; [done|].
        by apply (inj (app action_kind)) in Hd.
      + destruct (Hng gap' (x :: d) id' post' eq_refl); [done|].
        split; [|done]. by rewrite <- Hd. }
  destruct Hgaps as [_ Hids].
  destruct (decide (length id <= length id')) as [Hle|Hle].
  - destruct (app_eq_split _ _ _ _ Hids Hle) as (d & -> & Hd).
    destruct d as [|x d]; [by rewrite (right_id_L [] (++))|].
    by destruct (Hni' id (x :: d) post eq_refl).
  - symmetry in Hids.
    destruct (app_eq_split _ _ _ _ Hids) as (d & -> & Hd); [lia|].
    destruct d as [|x d]; [by rewrite (right_id_L [] (++))|].
    by destruct (Hni id' (x :: d) post' eq_refl).
Qed.

Lemma matches_first_action body id :
  first_action body id -> exists whole, FindStringSubmatch action_re body = [whole; id].
Proof.
  intros Hfirst. pose proof Hfirst as (pre & gap & post & Hat & _).
  destruct (find_action_Some body) as [[whole c] Hf]; [by exists pre, gap, id, post|].
  pose proof (find_action _ _ _ Hf) as (id' & -> & Hfirst').
  rewrite (first_action_unique _ _ _ Hfirst Hfirst').
  exists whole. unfold FindStringSubmatch. by rewrite Hf.
Qed.

Lemma matches_no_action body :
  ~ has_action body -> FindStringSubmatch action_re body = [].
Proof.
  intros Hno. unfold FindStringSubmatch.
  destruct (find (prog action_re) body) as [[whole c]|] eqn:Hf; [|done].
  destruct Hno. apply find_action in Hf as (id & _ & pre & gap & post & Hat & _).
  by exists pre, gap, id, post.
Qed.

Lemma has_action_first body : has_action body -> exists id, first_action body id.
Proof.
  intros Hhas. destruct (find_action_Some body Hhas) as [[whole c] Hf].
  apply find_action in Hf as (id & _ & Hfirst). by exists id.
Qed.

End ActionPattern.

Section ActionLocator.

Context (lib : Lib) (flags : Flags) (viper : Viper).

(** X3.  Step 3 on a reply of status 200.  Without a snapshot action in the
    body the step is fatal; otherwise it reads the one identifier described
    by [first_action], and returns it unless it is blank.  The identifier is
    the first one after the name on its line: the pattern does not require
    that it belongs to the same entry of the listing. *)
Theorem X3_action_locator token vmID req resp rest w :
  actionsRequest lib flags viper token vmID = Some req ->
  script w = Replied resp :: rest ->
  StatusCode resp = 200%Z ->
  let w1 := World rest (observed w ++ Step3_line flags ++ [Do req]) in
  (~ has_action (Body resp) ->
   getSnapshotResourceActionID lib flags viper token vmID w = (Exit 1, note w1 [no_action])) /\
  (has_action (Body resp) -> exists id, first_action (Body resp) id) /\
  (forall id id',
     first_action (Body resp) id -> first_action (Body resp) id' -> id = id') /\
  (forall id,
     first_action (Body resp) id ->
     getSnapshotResourceActionID lib flags viper token vmID w =
     if blank id
     then (Exit 1, note w1 [zero_length (txt "Create Snapshot Action ID")])
     else (Ret id, w1)).
Proof.
  intros Hreq Hs Hstatus w1.
  rewrite (getSnapshotResourceActionID_reply _ _ _ _ _ _ _ _ _ Hreq Hs). cbv zeta.
  unfold action_of. rewrite Hstatus. cbn [Z.eqb Pos.eqb negb]. split_and!.
  - intros Hno. by rewrite (matches_no_action _ Hno).
  - apply has_action_first.
  - apply first_action_unique.
  - intros id Hfirst. by destruct (matches_first_action _ _ Hfirst) as [whole ->].
Qed.

End ActionLocator.

(** ** Programs built alike *)

Section Alike.

Context (f1 f2 : Flags).

Lemma alike_deref {A} (p : option A) : alike f1 f2 A (deref p) (deref p).
Proof. destruct p; constructor. Qed.

Lemma alike_index matches i : alike f1 f2 text (index matches i) (index matches i).
Proof. apply alike_deref. Qed.

Lemma alike_MustCompile pattern :
  alike f1 f2 Regexp (MustCompile pattern) (MustCompile pattern).
Proof. unfold MustCompile. destruct (Compile pattern); constructor. Qed.

Lemma alike_logFatalError err : alike f1 f2 unit (logFatalError err) (logFatalError err).
Proof. destruct err; constructor. Qed.

Lemma alike_exitOnEmptyString name value :
  alike f1 f2 unit (exitOnEmptyString name value) (exitOnEmptyString name value).
Proof. unfold exitOnEmptyString. destruct (blank value); constructor. Qed.

End Alike.

Ltac alike_step :=
  match goal with
  | |- alike _ _ _ (traceInfo _ _) _ => apply alike_traceInfo
  | |- alike _ _ _ (deref _) _ => apply alike_deref
  | |- alike _ _ _ (index _ _) _ => apply alike_index
  | |- alike _ _ _ (MustCompile _) _ => apply alike_MustCompile
  | |- alike _ _ _ (logFatalError _) _ => apply alike_logFatalError
  | |- alike _ _ _ (exitOnEmptyString _ _) _ => apply alike_exitOnEmptyString
  | |- alike _ _ _ (client_Do _) _ => apply alike_Do
  | |- alike _ _ _ (log_Fatalf _ _) _ => apply alike_Fatalf
  | |- alike _ _ _ (log_Println _) _ => apply alike_Println; reflexivity
  | |- alike _ _ _ (time_Sleep _) _ => apply alike_Sleep
  | |- alike _ _ _ (mret _) _ => apply alike_ret
  | |- alike _ _ _ panic _ => apply alike_Panic
  | |- alike _ _ _ (mbind _ _) _ => apply alike_bind; [|intros ?]
  | |- alike _ _ _ (let '(_, _) := ?p in _) _ => destruct p
  | |- alike _ _ _ (match ?x with _ => _ end) _ => destruct x
  | |- alike _ _ _ (if ?x then _ else _) _ => destruct x
  end.

Ltac alike_auto := repeat alike_step.

Section AlikeStages.

Context (lib : Lib) (flags : Flags) (viper : Viper) (b : bool).

Local Abbreviation flags' := (with_trace b flags).

Lemma alike_validateConfig :
  alike flags flags' unit (validateConfig lib flags viper) (validateConfig lib flags' viper).
Proof.
  unfold validateConfig, fileExists.
  destruct (os_Stat lib (ConfigFileUsed viper)) as [[|]| |]; alike_auto.
Qed.

Lemma alike_getBearerToken :
  alike flags flags' text (getBearerToken lib flags viper) (getBearerToken lib flags' viper).
Proof. unfold getBearerToken. alike_auto. Qed.

Lemma alike_getVirtualMachineResourceID token machine :
  alike flags flags' text
    (getVirtualMachineResourceID lib flags viper token machine)
    (getVirtualMachineResourceID lib flags' viper token machine).
Proof. unfold getVirtualMachineResourceID. alike_auto. Qed.

Lemma alike_getSnapshotResourceActionID token vmID :
  alike flags flags' text
    (getSnapshotResourceActionID lib flags viper token vmID)
    (getSnapshotResourceActionID lib flags' viper token vmID).
Proof. unfold getSnapshotResourceActionID. alike_auto. Qed.

Lemma alike_sendSnapshotRequest token vmID actionID :
  alike flags flags' text
    (sendSnapshotRequest lib flags viper token vmID actionID)
    (sendSnapshotRequest lib flags' viper token vmID actionID).
Proof. unfold sendSnapshotRequest. alike_auto. Qed.

Lemma alike_poll_once req re :
  alike flags flags' bool (poll_once flags req re) (poll_once flags' req re).
Proof. unfold poll_once. alike_auto. Qed.

Lemma alike_getRequestResultState token url :
  alike flags flags' unit
    (getRequestResultState lib flags token url) (getRequestResultState lib flags' token url).
Proof.
  unfold getRequestResultState. alike_auto. apply alike_for_ever, alike_poll_once.
Qed.

Lemma alike_Run : alike flags flags' unit (Run lib flags viper) (Run lib flags' viper).
Proof.
  unfold Run. cbn [dryRun with_trace].
  apply alike_bind; [apply alike_validateConfig | intros _].
  apply alike_bind; [apply alike_traceInfo | intros _].
  apply alike_bind; [apply alike_getBearerToken | intros token].
  apply alike_bind; [apply alike_getVirtualMachineResourceID | intros vmID].
  apply alike_bind; [apply alike_getSnapshotResourceActionID | intros actionID].
  apply alike_bind; [apply alike_traceInfo | intros _].
  apply alike_bind; [|intros _; apply alike_traceInfo].
  destruct (dryRun flags); cbn [negb].
  - apply alike_bind; [apply alike_traceInfo | intros _; apply alike_traceInfo].
  - apply alike_bind; [apply alike_sendSnapshotRequest | intros url].
    apply alike_getRequestResultState.
Qed.

End AlikeStages.

(** ** What holds of every program built from the primitives *)

Section AlikeInvariants.

Context (f1 f2 : Flags).

Lemma silent_trace_line f info : List.filter silent (trace_line f info) = [].
Proof. unfold trace_line. by destruct (trace f). Qed.

Lemma same_but_trace_note {A} (r : result A) w1 w2 tr :
  script w1 = script w2 ->
  List.filter silent (observed w1) = List.filter silent (observed w2) ->
  same_but_trace (r, note w1 tr) (r, note w2 tr).
Proof.
  intros Hs Ho. split_and!; [done..|]. cbn [snd note observed].
  by rewrite !List.filter_app, Ho.
Qed.

Lemma same_but_trace_bind {A B} (m1 m2 : M A) (k1 k2 : A -> M B) :
  (forall w1 w2,
     script w1 = script w2 ->
     List.filter silent (observed w1) = List.filter silent (observed w2) ->
     same_but_trace (m1 w1) (m2 w2)) ->
  (forall a w1 w2,
     script w1 = script w2 ->
     List.filter silent (observed w1) = List.filter silent (observed w2) ->
     same_but_trace (k1 a w1) (k2 a w2)) ->
  forall w1 w2,
    script w1 = script w2 ->
    List.filter silent (observed w1) = List.filter silent (observed w2) ->
    same_but_trace ((m1 ≫= k1) w1) ((m2 ≫= k2) w2).
Proof.
  intros Hm Hk w1 w2 Hs Ho. unfold mbind, M_bind.
  destruct (Hm w1 w2 Hs Ho) as (Hr & Hs' & Ho').
  destruct (m1 w1) as [r1 w1'], (m2 w2) as [r2 w2']. cbn [fst snd] in *. subst r2.
  destruct r1; [by apply Hk | done..].
Qed.

(** The trace flag changes nothing but the lines of [traceInfo]. *)
Lemma alike_same_but_trace A m1 m2 :
  alike f1 f2 A m1 m2 ->
  forall w1 w2,
    script w1 = script w2 ->
    List.filter silent (observed w1) = List.filter silent (observed w2) ->
    same_but_trace (m1 w1) (m2 w2).
Proof.
  induction 1 as [A a|A|A|args Hargs|d|A format args|req|info
                 |A B m1 m2 k1 k2 _ IHm _ IHk|body1 body2 _ IHbody].
  - by intros w1 w2 Hs Ho.
  - by intros w1 w2 Hs Ho.
  - by intros w1 w2 Hs Ho.
  - intros w1 w2 Hs Ho. by apply (same_but_trace_note (Ret ())).
  - intros w1 w2 Hs Ho. by apply (same_but_trace_note (Ret ())).
  - intros w1 w2 Hs Ho. by apply (same_but_trace_note (Exit 1)).
  - intros w1 w2 Hs Ho. unfold client_Do. rewrite Hs.
    destruct (script w2) as [|[resp|err resp] rest] eqn:Hs2.
    + apply (same_but_trace_note Waiting); [congruence | done].
    + split_and!; [done..|]. cbn [snd note observed].
      by rewrite !List.filter_app, Ho.
    + split_and!; [done..|]. cbn [snd note observed].
      by rewrite !List.filter_app, Ho.
  - intros w1 w2 Hs Ho. rewrite !traceInfo_run.
    split_and!; [done..|]. cbn [snd note observed].
    by rewrite !List.filter_app, !silent_trace_line, Ho.
  - by apply same_but_trace_bind.
  - intros w1 w2 Hs Ho. unfold for_ever. rewrite Hs.
    generalize (S (length (script w2))). intros n. revert w1 w2 Hs Ho.
    induction n as [|n IHn]; [by intros w1 w2 Hs Ho|].
    cbn [repeat_until]. apply same_but_trace_bind; [done|].
    intros [|] w1 w2 Hs Ho; [done | by apply IHn].
Qed.

Lemma silent_bind {A B} (m : M A) (k : A -> M B) :
  (forall w, exists tr, observed (m w).2 = observed w ++ tr /\ List.filter silent tr = tr) ->
  (forall a w, exists tr, observed (k a w).2 = observed w ++ tr /\ List.filter silent tr = tr) ->
  forall w, exists tr,
    observed ((m ≫= k) w).2 = observed w ++ tr /\ List.filter silent tr = tr.
Proof.
  intros Hm Hk w. unfold mbind, M_bind.
  destruct (Hm w) as (tr1 & E1 & H1). destruct (m w) as [[a| | | |] w']; eauto.
  destruct (Hk a w') as (tr2 & E2 & H2). exists (tr1 ++ tr2). cbn [snd] in *.
  rewrite E2, E1, List.filter_app, H1, H2. by rewrite (assoc_L (++)).
Qed.

(** With the trace flag off nothing of the shape of a trace line is
    printed. *)
Lemma alike_silent A m1 m2 :
  alike f1 f2 A m1 m2 ->
  trace f1 = false ->
  forall w, exists tr, observed (m1 w).2 = observed w ++ tr /\ List.filter silent tr = tr.
Proof.
  intros Halike Hoff.
  induction Halike as [A a|A|A|args Hargs|d|A format args|req|info
                      |A B m1 m2 k1 k2 _ IHm _ IHk|body1 body2 _ IHbody].
  - intros w. exists []. by rewrite (right_id_L [] (++)).
  - intros w. exists []. by rewrite (right_id_L [] (++)).
  - intros w. exists []. by rewrite (right_id_L [] (++)).
  - intros w. exists [Println args]. split; [done|]. cbn [List.filter]. by rewrite Hargs.
  - intros w. by exists [Sleep d].
  - intros w. by exists [Fatalf format args].
  - intros w. exists [Do req]. split; [|done].
    unfold client_Do. by destruct (script w) as [|[|] ?].
  - intros w. exists []. rewrite traceInfo_run. unfold trace_line. by rewrite Hoff.
  - by apply silent_bind.
  - intros w. unfold for_ever. generalize (S (length (script w))). intros n. revert w.
    induction n as [|n IHn].
    + intros w. exists []. by rewrite (right_id_L [] (++)).
    + cbn [repeat_until]. apply silent_bind; [done|]. intros [|] w; [|by apply IHn].
      exists []. by rewrite (right_id_L [] (++)).
Qed.

Lemma fatal_last_bind {A B} (m : M A) (k : A -> M B) :
  (forall w, exists tr, observed (m w).2 = observed w ++ tr /\ fatal_last (m w).1 tr) ->
  (forall a w, exists tr, observed (k a w).2 = observed w ++ tr /\ fatal_last (k a w).1 tr) ->
  forall w, exists tr,
    observed ((m ≫= k) w).2 = observed w ++ tr /\ fatal_last ((m ≫= k) w).1 tr.
Proof.
  intros Hm Hk w. unfold mbind, M_bind.
  destruct (Hm w) as (tr1 & E1 & H1). destruct (m w) as [[a| | | |] w']; eauto.
  destruct (Hk a w') as (tr2 & E2 & H2). exists (tr1 ++ tr2). cbn [fst snd] in *.
  split; [by rewrite E2, E1, (assoc_L (++))|].
  unfold fatal_last in *. destruct (k a w').1.
  - by rewrite List.filter_app, H1, H2.
  - destruct H2 as (-> & tr0 & format & args & -> & H0). split; [done|].
    exists (tr1 ++ tr0), format, args.
    split; [by rewrite (assoc_L (++))|]. by rewrite List.filter_app, H1, H0.
  - by rewrite List.filter_app, H1, H2.
  - by rewrite List.filter_app, H1, H2.
  - by rewrite List.filter_app, H1, H2.
Qed.

(** Every exit has status 1 and follows a fatal diagnostic at once. *)
Lemma alike_fatal_last A m1 m2 :
  alike f1 f2 A m1 m2 ->
  forall w, exists tr, observed (m1 w).2 = observed w ++ tr /\ fatal_last (m1 w).1 tr.
Proof.
  induction 1 as [A a|A|A|args Hargs|d|A format args|req|info
                 |A B m1 m2 k1 k2 _ IHm _ IHk|body1 body2 _ IHbody].
  - intros w. exists []. by rewrite (right_id_L [] (++)).
  - intros w. exists []. by rewrite (right_id_L [] (++)).
  - intros w. exists []. by rewrite (right_id_L [] (++)).
  - intros w. by exists [Println args].
  - intros w. by exists [Sleep d].
  - intros w. exists [Fatalf format args]. split; [done|]. split; [done|].
    by exists [], format, args.
  - intros w. exists [Do req]. unfold client_Do. by destruct (script w) as [|[|] ?].
  - intros w. exists (trace_line f1 info). rewrite traceInfo_run. split; [done|].
    unfold trace_line. by destruct (trace f1).
  - by apply fatal_last_bind.
  - intros w. unfold for_ever. generalize (S (length (script w))). intros n. revert w.
    induction n as [|n IHn].
    + intros w. exists []. by rewrite (right_id_L [] (++)).
    + cbn [repeat_until]. apply fatal_last_bind; [done|]. intros [|] w; [|by apply IHn].
      exists []. by rewrite (right_id_L [] (++)).
Qed.

End AlikeInvariants.

(** X4.  The trace flag changes the outcome of no run, nor the replies it
    takes, nor anything it is seen to do apart from the lines that
    [traceInfo] prints; and with the flag off no such line is printed. *)
Theorem X4_trace_flag_only_adds_lines lib flags viper b w :
  same_but_trace (Run lib flags viper w) (Run lib (with_trace b flags) viper w) /\
  exists tr,
    observed (Run lib (with_trace false flags) viper w).2 = observed w ++ tr /\
    List.filter silent tr = tr.
Proof.
  split.
  - by apply (alike_same_but_trace flags (with_trace b flags) unit _ _
                (alike_Run lib flags viper b)).
  - apply (alike_silent (with_trace false flags) (with_trace false (with_trace false flags))
             unit _ _ (alike_Run lib (with_trace false flags) viper false)).
    reflexivity.
Qed.

(** X5.  The run leaves through [os.Exit] with status 1 only, and exactly when
    the last thing it did was to log a fatal diagnostic: no exit is silent,
    and no fatal diagnostic is followed by anything. *)
Theorem X5_fatal_exit_discipline lib flags viper w :
  exists tr,
    observed (Run lib flags viper w).2 = observed w ++ tr /\
    fatal_last (Run lib flags viper w).1 tr.
Proof.
  apply (alike_fatal_last flags (with_trace (trace flags) flags) unit _ _
           (alike_Run lib flags viper (trace flags))).
Qed.

(** ** The edges of each stage: no request, no reply *)

Section StageEdges.

Context (lib : Lib) (flags : Flags) (viper : Viper).

Lemma getBearerToken_no_request w :
  tokenRequest lib flags viper = None ->
  getBearerToken lib flags viper w = (Panic, note w (Step1_line flags)).
Proof.
  intros Hreq. unfold getBearerToken, Step1_line.
  by rewrite traceInfo_bind, Hreq, deref_None_bind.
Qed.

Lemma getVirtualMachineResourceID_no_request token machine w :
  resourcesRequest lib flags viper token = None ->
  getVirtualMachineResourceID lib flags viper token machine w =
  (Panic, note w (Step2_line flags machine)).
Proof.
  intros Hreq. unfold getVirtualMachineResourceID, Step2_line.
  by rewrite traceInfo_bind, Hreq, deref_None_bind.
Qed.

Lemma getSnapshotResourceActionID_no_request token vmID w :
  actionsRequest lib flags viper token vmID = None ->
  getSnapshotResourceActionID lib flags viper token vmID w = (Panic, note w (Step3_line flags)).
Proof.
  intros Hreq. unfold getSnapshotResourceActionID, Step3_line.
  by rewrite traceInfo_bind, Hreq, deref_None_bind.
Qed.

Lemma sendSnapshotRequest_no_request token vmID actionID w :
  snapshotRequest lib flags viper token vmID actionID = None ->
  sendSnapshotRequest lib flags viper token vmID actionID w =
  (Panic, note w (Step5_line flags)).
Proof.
  intros Hreq. unfold sendSnapshotRequest, Step5_line.
  by rewrite traceInfo_bind, Hreq, deref_None_bind.
Qed.

Lemma getRequestResultState_no_request token url w :
  statusRequest lib token url = None ->
  getRequestResultState lib flags token url w = (Panic, note w (Step6_line flags)).
Proof.
  intros Hreq. unfold getRequestResultState, Step6_line.
  by rewrite traceInfo_bind, Hreq, deref_None_bind.
Qed.

Lemma NewRequest_rejected method url body :
  NewRequest_ok lib url = false -> NewRequest lib method url body = None.
Proof. unfold NewRequest. by intros ->. Qed.

Lemma getBearerToken_Waiting req w :
  tokenRequest lib flags viper = Some req ->
  script w = [] ->
  getBearerToken lib flags viper w = (Waiting, note w (Step1_line flags ++ [Do req])).
Proof.
  intros Hreq Hs. unfold getBearerToken, Step1_line.
  rewrite traceInfo_bind, Hreq, deref_Some_bind, client_Do_Waiting_bind by done.
  by rewrite note_note.
Qed.

Lemma getVirtualMachineResourceID_Waiting token machine req w :
  resourcesRequest lib flags viper token = Some req ->
  script w = [] ->
  getVirtualMachineResourceID lib flags viper token machine w =
  (Waiting, note w (Step2_line flags machine ++ ParseForm_line lib req ++ [Do req])).
Proof.
  intros Hreq Hs. unfold getVirtualMachineResourceID, Step2_line, ParseForm_line.
  rewrite traceInfo_bind, Hreq, deref_Some_bind.
  destruct (ParseForm lib req) as [e|].
  - rewrite log_Println_bind, client_Do_Waiting_bind by done. by rewrite !note_note.
  - rewrite ret_bind, client_Do_Waiting_bind by done. by rewrite !note_note.
Qed.

Lemma sendSnapshotRequest_Waiting token vmID actionID req w :
  snapshotRequest lib flags viper token vmID actionID = Some req ->
  script w = [] ->
  sendSnapshotRequest lib flags viper token vmID actionID w =
  (Waiting, note w (Step5_line flags ++ [Do req])).
Proof.
  intros Hreq Hs. unfold sendSnapshotRequest, Step5_line.
  rewrite traceInfo_bind, Hreq, deref_Some_bind, client_Do_Waiting_bind by done.
  by rewrite note_note.
Qed.

Lemma getSnapshotResourceActionID_Waiting token vmID req w :
  actionsRequest lib flags viper token vmID = Some req ->
  script w = [] ->
  getSnapshotResourceActionID lib flags viper token vmID w =
  (Waiting, note w (Step3_line flags ++ [Do req])).
Proof.
  intros Hreq Hs. unfold getSnapshotResourceActionID, Step3_line.
  rewrite traceInfo_bind, Hreq, deref_Some_bind, client_Do_Waiting_bind by done.
  by rewrite note_note.
Qed.

Lemma poll_once_Waiting req re w :
  script w = [] ->
  poll_once flags req re w = (Waiting, note w [Sleep (10 * Second); Do req]).
Proof.
  intros Hs. unfold poll_once, time_Sleep.
  rewrite emit_bind, client_Do_Waiting_bind by done. by rewrite note_note.
Qed.

Lemma poll_once_Failed req err resp rest w :
  script w = Failed err resp :: rest ->
  poll_once flags req stateName_re w =
  (Panic, World rest (observed w ++ [Sleep (10 * Second); Do req; Failure_line err])).
Proof.
  intros Hs. unfold poll_once, time_Sleep.
  rewrite emit_bind, (client_Do_Failed_bind _ _ _ err resp rest) by done.
  cbv beta iota zeta. rewrite log_Println_bind.
  destruct resp as [resp|]; cbn [fmap option_fmap option_map].
  - rewrite deref_Some_bind.
    change (FindStringSubmatch stateName_re (Body (closed resp))) with (@nil text).
    unfold index. cbn [lookup list_lookup]. rewrite deref_None_bind.
    unfold note; cbn [observed script]. by rewrite <- !(assoc_L (++)).
  - rewrite deref_None_bind.
    unfold note; cbn [observed script]. by rewrite <- !(assoc_L (++)).
Qed.

(** X6.  A URL that [http.NewRequest] rejects leaves the request nil, and the
    step panics on the first header it sets: steps 1, 2, 3 and 5 when the
    base URL of the configuration makes their URL unusable, step 6 when
    the [Location] header of the submission reply does.  Nothing is sent
    and no reply is taken; a run with a valid configuration ends so in
    step 1, with the status 2 of a panic. *)
Theorem X6_rejected_url_panics token vmID actionID url machine w :
  (NewRequest_ok lib (tokens_url flags viper) = false ->
   getBearerToken lib flags viper w = (Panic, note w (Step1_line flags)) /\
   (validateConfig lib flags viper w = (Ret (), w) ->
    Run lib flags viper w =
      (Panic, note w (Creating_line flags viper ++ Step1_line flags)) /\
    exit_status (Run lib flags viper w).1 = Some 2%Z)) /\
  (NewRequest_ok lib (resources_url flags viper) = false ->
   getVirtualMachineResourceID lib flags viper token machine w =
   (Panic, note w (Step2_line flags machine))) /\
  (NewRequest_ok lib (actions_url flags viper vmID) = false ->
   getSnapshotResourceActionID lib flags viper token vmID w =
   (Panic, note w (Step3_line flags))) /\
  (NewRequest_ok lib (requests_url flags viper vmID actionID) = false ->
   sendSnapshotRequest lib flags viper token vmID actionID w =
   (Panic, note w (Step5_line flags))) /\
  (NewRequest_ok lib url = false ->
   getRequestResultState lib flags token url w = (Panic, note w (Step6_line flags))).
Proof.
  split_and!.
  - intros Hno.
    assert (Hstep : forall w0,
      getBearerToken lib flags viper w0 = (Panic, note w0 (Step1_line flags))).
    { intros w0. apply getBearerToken_no_request.
      unfold tokenRequest. by rewrite (NewRequest_rejected _ _ _ Hno). }
    split; [apply Hstep|]. intros Hvalid.
    assert (Hrun : Run lib flags viper w =
                   (Panic, note w (Creating_line flags viper ++ Step1_line flags))).
    { unfold Run. rewrite (bind_Ret _ _ _ _ _ Hvalid), traceInfo_bind.
      unfold mbind at 1, M_bind at 1. rewrite Hstep. by rewrite note_note. }
    by rewrite Hrun.
  - intros Hno. apply getVirtualMachineResourceID_no_request.
    unfold resourcesRequest. by rewrite (NewRequest_rejected _ _ _ Hno).
  - intros Hno. apply getSnapshotResourceActionID_no_request.
    unfold actionsRequest. by rewrite (NewRequest_rejected _ _ _ Hno).
  - intros Hno. apply sendSnapshotRequest_no_request.
    unfold snapshotRequest. by rewrite (NewRequest_rejected _ _ _ Hno).
  - intros Hno. apply getRequestResultState_no_request.
    unfold statusRequest. by rewrite (NewRequest_rejected _ _ _ Hno).
Qed.

End StageEdges.

(** ** The anatomy of a run that succeeds *)

Lemma bind_Ret_inv {A B} (m : M A) (k : A -> M B) w b w' :
  (m ≫= k) w = (Ret b, w') -> exists a w1, m w = (Ret a, w1) /\ k a w1 = (Ret b, w').
Proof.
  unfold mbind, M_bind. destruct (m w) as [[a| | | |] w1]; try discriminate. eauto.
Qed.

Lemma matches_action_inv body id :
  FindStringSubmatch action_re body !! 1 = Some id -> first_action body id.
Proof.
  unfold FindStringSubmatch.
  destruct (find (prog action_re) body) as [[whole c]|] eqn:Hf; [|done].
  apply find_action in Hf as (id' & -> & Hfirst). by intros [= <-].
Qed.

(** The leftmost entry for a machine name is one entry: its identifier is
    determined by the listing. *)
Lemma first_entry_unique machine body id id' :
  first_entry machine body id -> first_entry machine body id' -> id = id'.
Proof.
  intros (pre & whole & post & Hbody & Hentry & Hleft)
         (pre' & whole' & post' & Hbody' & Hentry' & Hleft').
  assert (Hlen : length pre = length pre').
  { apply Nat.le_antisymm.
    - exact (Hleft _ _ _ _ Hbody' Hentry').
    - exact (Hleft' _ _ _ _ Hbody Hentry). }
  rewrite Hbody in Hbody'. apply (app_inj_1 _ _ _ _ Hlen) in Hbody' as [_ Hrest].
  destruct Hentry as (d1 & d2 & d3 & d4 & d5 & pfx & -> & Hid & _).
  destruct Hentry' as (e1 & e2 & e3 & e4 & e5 & pfx' & -> & Hid' & _).
  rewrite <- !(assoc_L (++)) in Hrest. apply app_inv_head in Hrest.
  apply app_inj_1 in Hrest as [Heq _]; [done | by rewrite Hid, Hid'].
Qed.

Section StageInversion.

Context (lib : Lib) (flags : Flags) (viper : Viper).

Lemma getBearerToken_Ret w token w' :
  getBearerToken lib flags viper w = (Ret token, w') ->
  exists req resp rest gbt,
    tokenRequest lib flags viper = Some req /\
    script w = Replied resp :: rest /\
    StatusCode resp = 200%Z /\
    json_Unmarshal lib (Body resp) = (gbt, None) /\
    blank (ID gbt) = false /\
    token = txt "Bearer " ++ ID gbt /\
    w' = World rest (observed w ++ Step1_line flags ++ [Do req]).
Proof.
  destruct (tokenRequest lib flags viper) as [req|] eqn:Hreq;
    [|by rewrite getBearerToken_no_request].
  destruct (script w) as [|[resp|err resp] rest] eqn:Hs.
  - by rewrite (getBearerToken_Waiting _ _ _ req).
  - rewrite (getBearerToken_Replied _ _ _ _ _ _ _ Hreq Hs). cbv zeta.
    destruct (StatusCode resp =? 200)%Z eqn:Hst; cbn [negb];
      [|by destruct (_ !! 2)].
    destruct (json_Unmarshal lib (Body resp)) as [gbt [e|]] eqn:Hj; [done|].
    destruct (blank (ID gbt)) eqn:Hblank; [done|]. intros [= <- <-].
    exists req, resp, rest, gbt.
    split_and!; [done | done | by apply Z.eqb_eq | done..].
  - by rewrite (getBearerToken_Failed _ _ _ _ _ _ _ _ Hreq Hs).
Qed.

Lemma getVirtualMachineResourceID_Ret token machine w vmID w' :
  plain machine = true ->
  getVirtualMachineResourceID lib flags viper token machine w = (Ret vmID, w') ->
  exists req resp rest,
    resourcesRequest lib flags viper token = Some req /\
    script w = Replied resp :: rest /\
    StatusCode resp = 200%Z /\
    first_entry machine (Body resp) vmID /\
    blank vmID = false /\
    w' = World rest (observed w ++ Step2_line flags machine ++ ParseForm_line lib req
                     ++ [Do req]).
Proof.
  intros Hplain.
  destruct (resourcesRequest lib flags viper token) as [req|] eqn:Hreq;
    [|by rewrite getVirtualMachineResourceID_no_request].
  destruct (script w) as [|[resp|err resp] rest] eqn:Hs.
  - by rewrite (getVirtualMachineResourceID_Waiting _ _ _ _ _ req).
  - destruct (StatusCode resp =? 200)%Z eqn:Hst.
    + apply Z.eqb_eq in Hst.
      destruct (lookup_plain lib flags viper _ _ _ _ _ _ Hplain Hreq Hs Hst)
        as [[_ ->] | (id & Hfirst & ->)]; [done|].
      destruct (blank id) eqn:Hblank; [done|]. intros [= <- <-].
      exists req, resp, rest.
      split_and!; [reflexivity | reflexivity | exact Hst | exact Hfirst | exact Hblank
                  | reflexivity].
    + rewrite (getVirtualMachineResourceID_Replied _ _ _ _ _ _ _ _ _ Hreq Hs). cbv zeta.
      rewrite Hst. cbn [negb]. by destruct (_ !! 1).
  - by rewrite (getVirtualMachineResourceID_Failed _ _ _ _ _ _ _ _ _ _ Hreq Hs).
Qed.

(** The converse: on a 200 listing, the identifier of the leftmost entry is
    what step 2 returns, when it is not blank. *)
Lemma getVirtualMachineResourceID_first_entry token machine req resp rest w vmID :
  plain machine = true ->
  resourcesRequest lib flags viper token = Some req ->
  StatusCode resp = 200%Z ->
  first_entry machine (Body resp) vmID ->
  blank vmID = false ->
  script w = Replied resp :: rest ->
  getVirtualMachineResourceID lib flags viper token machine w =
  (Ret vmID,
   World rest (observed w ++ Step2_line flags machine ++ ParseForm_line lib req
               ++ [Do req])).
Proof.
  intros Hplain Hreq Hst Hfirst Hblank Hs.
  destruct (lookup_plain lib flags viper _ _ _ _ _ _ Hplain Hreq Hs Hst)
    as [[Hno _] | (id & Hfirst' & ->)].
  - destruct Hno. by eapply first_entry_has_entry.
  - rewrite (first_entry_unique _ _ _ _ Hfirst' Hfirst). by rewrite Hblank.
Qed.

Lemma action_of_Ret resp w1 actionID w' :
  action_of resp w1 = (Ret actionID, w') ->
  StatusCode resp = 200%Z /\ first_action (Body resp) actionID /\
  blank actionID = false /\ w' = w1.
Proof.
  unfold action_of.
  destruct (StatusCode resp =? 200)%Z eqn:Hst; cbn [negb];
    [|by destruct (_ !! 1)].
  destruct (FindStringSubmatch action_re (Body resp)) as [|whole ms] eqn:Hm; [done|].
  destruct ((whole :: ms) !! 1) as [m1|] eqn:Hm1; [|done].
  destruct (blank m1) eqn:Hblank; [done|]. intros [= <- <-].
  split_and!; [by apply Z.eqb_eq | | done | done].
  apply matches_action_inv. by rewrite Hm.
Qed.

Lemma getSnapshotResourceActionID_Ret token vmID w actionID w' :
  getSnapshotResourceActionID lib flags viper token vmID w = (Ret actionID, w') ->
  exists req resp rest,
    actionsRequest lib flags viper token vmID = Some req /\
    script w = Replied resp :: rest /\
    StatusCode resp = 200%Z /\
    first_action (Body resp) actionID /\
    blank actionID = false /\
    w' = World rest (observed w ++ Step3_line flags ++ [Do req]).
Proof.
  destruct (actionsRequest lib flags viper token vmID) as [req|] eqn:Hreq;
    [|by rewrite getSnapshotResourceActionID_no_request].
  destruct (script w) as [|r rest] eqn:Hs.
  - by rewrite (getSnapshotResourceActionID_Waiting _ _ _ _ _ req).
  - rewrite (getSnapshotResourceActionID_reply _ _ _ _ _ _ _ _ _ Hreq Hs). cbv zeta.
    destruct r as [resp|err [resp|]]; [| |done].
    + intros (Hst & Hfirst & Hblank & ->)%action_of_Ret. by exists req, resp, rest.
    + intros (_ & (pre & gap & post & (Hb & _) & _) & _)%action_of_Ret.
      cbn [Body closed] in Hb. by destruct pre.
Qed.

Lemma sendSnapshotRequest_Ret token vmID actionID w url w' :
  sendSnapshotRequest lib flags viper token vmID actionID w = (Ret url, w') ->
  exists req resp rest,
    snapshotRequest lib flags viper token vmID actionID = Some req /\
    script w = Replied resp :: rest /\
    StatusCode resp = 201%Z /\
    url = Header_Get (RespHeader resp) "Location" /\
    blank url = false /\
    w' = World rest (observed w ++ Step5_line flags ++ [Do req]).
Proof.
  destruct (snapshotRequest lib flags viper token vmID actionID) as [req|] eqn:Hreq;
    [|by rewrite sendSnapshotRequest_no_request].
  destruct (script w) as [|[resp|err resp] rest] eqn:Hs.
  - by rewrite (sendSnapshotRequest_Waiting _ _ _ _ _ _ req).
  - rewrite (sendSnapshotRequest_Replied _ _ _ _ _ _ _ _ _ _ Hreq Hs). cbv zeta.
    destruct (StatusCode resp =? 201)%Z eqn:Hst; cbn [negb];
      [|by destruct (_ !! 1)].
    destruct (blank _) eqn:Hblank; [done|]. intros [= <- <-].
    exists req, resp, rest.
    split_and!; [done | done | by apply Z.eqb_eq | done..].
  - by rewrite (sendSnapshotRequest_Failed _ _ _ _ _ _ _ _ _ _ _ Hreq Hs).
Qed.

Lemma turns_app req rs1 rs2 :
  turns flags req (rs1 ++ rs2) = turns flags req rs1 ++ turns flags req rs2.
Proof. unfold turns. by rewrite map_app, concat_app. Qed.

(** The loop returns only after a reply that reads ["Successful"], and
    every reply before it was pending. *)
Lemma repeat_until_Ret req n w w' :
  repeat_until n (poll_once flags req stateName_re) w = (Ret (), w') ->
  exists pending last,
    Forall pending_reply pending /\
    script w = pending ++ Replied last :: script w' /\
    stateName (Body last) = Some (txt "Successful") /\
    observed w' = observed w ++ turns flags req (pending ++ [Replied last]).
Proof.
  revert w. induction n as [|n IH]; intros w; [done|].
  cbn [repeat_until]. unfold mbind at 1, M_bind at 1.
  destruct (script w) as [|[resp|err resp] rest] eqn:Hs.
  - by rewrite poll_once_Waiting.
  - rewrite (poll_once_Replied _ _ _ _ _ Hs). cbv zeta.
    destruct (stateName (Body resp)) as [st|] eqn:Hst; [|done].
    destruct (text_eqb st (txt "Failed")) eqn:Hfailed; [done|].
    destruct (text_eqb st (txt "Successful")) eqn:Hsucc.
    + intros [= <-]. exists [], resp. cbn [script observed app].
      apply bool_decide_eq_true in Hsucc as ->.
      split_and!; [constructor | done | done |].
      unfold turns, turn. cbn [map concat]. rewrite Hst.
      by rewrite (right_id_L [] (++)).
    + intros (pending & last & Hall & Hscript & Hlast & Hobs)%IH.
      cbn [script observed] in *.
      apply bool_decide_eq_false in Hfailed, Hsucc.
      exists (Replied resp :: pending), last. split_and!.
      * constructor; [by exists resp, st | done].
      * by rewrite Hscript.
      * done.
      * rewrite Hobs.
        change ((Replied resp :: pending) ++ [Replied last])
          with ([Replied resp] ++ (pending ++ [Replied last])).
        rewrite (turns_app _ [Replied resp]). unfold turns at 2, turn.
        cbn [map concat]. rewrite Hst.
        by rewrite (right_id_L [] (++)), <- !(assoc_L (++)).
  - by rewrite (poll_once_Failed _ _ _ _ _ _ Hs).
Qed.

Lemma getRequestResultState_Ret token url w w' :
  getRequestResultState lib flags token url w = (Ret (), w') ->
  exists req pending last,
    statusRequest lib token url = Some req /\
    Forall pending_reply pending /\
    script w = pending ++ Replied last :: script w' /\
    stateName (Body last) = Some (txt "Successful") /\
    observed w' =
      observed w ++ Step6_line flags ++ turns flags req (pending ++ [Replied last]).
Proof.
  destruct (statusRequest lib token url) as [req|] eqn:Hreq;
    [|by rewrite getRequestResultState_no_request].
  unfold getRequestResultState.
  rewrite traceInfo_bind, Hreq, deref_Some_bind.
  rewrite (MustCompile_bind _ _ _ _ Compile_stateName). unfold for_ever.
  intros (pending & last & Hall & Hscript & Hlast & Hobs)%repeat_until_Ret.
  exists req, pending, last. split_and!; [done..|].
  rewrite Hobs. cbn [note observed]. by rewrite <- (assoc_L (++)).
Qed.

Lemma validateConfig_Ret w w' :
  validateConfig lib flags viper w = (Ret (), w') <->
  os_Stat lib (ConfigFileUsed viper) = StatInfo false /\
  first_blank flags viper = None /\ w' = w.
Proof.
  rewrite validateConfig_run.
  destruct (os_Stat lib (ConfigFileUsed viper)) as [[|]| |];
    try (split; [done | by intros (? & _)]).
  destruct (first_blank flags viper); [split; [done | by intros (_ & ? & _)]|].
  split; [by intros [= <-] | by intros (_ & _ & ->)].
Qed.

Lemma for_ever_Successful req pending last rest w :
  Forall pending_reply pending ->
  stateName (Body last) = Some (txt "Successful") ->
  script w = pending ++ Replied last :: rest ->
  for_ever (poll_once flags req stateName_re) w =
  (Ret (), World rest (observed w ++ turns flags req (pending ++ [Replied last]))).
Proof.
  intros Hpending Hlast Hs.
  rewrite <- (for_ever_fuel flags req stateName_re (length pending + S (S (length rest))))
    by (rewrite Hs, length_app; simpl; lia).
  rewrite (repeat_until_pending _ _ _ (Replied last :: rest)) by done.
  cbn [repeat_until]. unfold mbind at 1, M_bind at 1.
  rewrite (poll_once_Replied _ _ _ last rest) by done. cbv zeta. rewrite Hlast.
  replace (text_eqb (txt "Successful") (txt "Failed")) with false by done.
  rewrite text_eqb_refl. cbn [mret M_ret observed]. rewrite turns_app.
  replace (turns flags req [Replied last])
    with ([Sleep (10 * Second); Do req] ++ status_line flags (txt "Successful")).
  - by rewrite <- !(assoc_L (++)).
  - unfold turns, turn. cbn [map concat]. rewrite Hlast.
    by rewrite (right_id_L [] (++)).
Qed.

(** X7.  For a machine name without regexp metacharacters, a run that is
    not a dry run returns normally exactly along one path: the
    configuration is accepted; five or more replies are taken; the first
    four are responses of status 200, 200, 200 and 201, each to the request
    built from what the replies before it held (the token of the first in
    the Authorization header of every later request, the identifier of the
    leftmost entry of the listing that is named with the machine name and
    the action identifier in the URLs of steps 3 and 5, the [Location]
    header of the fourth as the URL that is polled), and none of these
    values is blank; the polls see pending states and then ["Successful"].
    The observations are those of the six steps in their order, and
    nothing else.  (A machine name that holds regexp syntax is read as a
    pattern by step 2; such names are not covered.) *)
Theorem X7_successful_run_anatomy w w' :
  plain (machineName flags) = true ->
  dryRun flags = false ->
  Run lib flags viper w = (Ret (), w') <-> success_path lib flags viper w w'.
Proof.
  intros Hplain Hdry. unfold Run. rewrite Hdry. cbn [negb]. split.
  - intros ([] & w0 & Hvalid & H)%bind_Ret_inv.
    rewrite traceInfo_bind in H.
    apply bind_Ret_inv in H as (token & w1 & H1 & H).
    apply bind_Ret_inv in H as (vmID & w2 & H2 & H).
    apply bind_Ret_inv in H as (actionID & w3 & H3 & H).
    unfold getResourceActionTemplate in H. rewrite traceInfo_bind in H.
    apply bind_Ret_inv in H as ([] & w6 & H & Hbye).
    apply bind_Ret_inv in H as (url & w5 & H5 & H6).
    rewrite traceInfo_run in Hbye. injection Hbye as <-.
    apply validateConfig_Ret in Hvalid as (Hstat & Hkeys & ->).
    apply getBearerToken_Ret in H1
      as (q1 & r1 & rest1 & gbt & Hq1 & Hs1 & Hst1 & Hj & Hb1 & -> & ->).
    apply (getVirtualMachineResourceID_Ret _ _ _ _ _ Hplain) in H2
      as (q2 & r2 & rest2 & Hq2 & Hs2 & Hst2 & Hvm & Hb2 & ->).
    apply getSnapshotResourceActionID_Ret in H3
      as (q3 & r3 & rest3 & Hq3 & Hs3 & Hst3 & Hact & Hb3 & ->).
    apply sendSnapshotRequest_Ret in H5
      as (q5 & r4 & rest4 & Hq5 & Hs5 & Hst4 & -> & Hb4 & ->).
    apply getRequestResultState_Ret in H6
      as (q6 & pending & last & Hq6 & Hpending & Hs6 & Hlast & Hobs).
    cbn [script observed note] in *. subst rest1 rest2 rest3 rest4.
    exists r1, r2, r3, r4, pending, last, q1, q2, q3, q5, q6, gbt, vmID, actionID.
    cbv zeta.
    split_and!;
      [ exact Hstat | exact Hkeys | exact Hs1
      | exact Hq1 | exact Hq2 | exact Hq3 | exact Hq5 | exact Hq6
      | exact Hst1 | exact Hj | exact Hb1
      | exact Hst2 | exact Hvm | exact Hb2
      | exact Hst3 | exact Hact | exact Hb3
      | exact Hst4 | exact Hb4 | exact Hpending | exact Hlast | ].
    cbn [observed note]. rewrite Hobs. unfold Creating_line, Step4_line, Bye_line.
    rewrite <- !(assoc_L (++)). reflexivity.
  - intros (r1 & r2 & r3 & r4 & pending & last & q1 & q2 & q3 & q5 & q6 & gbt & vmID
            & actionID & H). cbv zeta in H.
    destruct H as ((Hstat & Hkeys) & Hs & (Hq1 & Hq2 & Hq3 & Hq5 & Hq6)
                   & (Hst1 & Hj & Hb1) & (Hst2 & Hvm & Hb2) & (Hst3 & Hact & Hb3)
                   & (Hst4 & Hb4) & (Hpending & Hlast) & Hobs).
    assert (Hvalid : validateConfig lib flags viper w = (Ret (), w)).
    { apply (proj2 (validateConfig_Ret w w)).
      split_and!; [exact Hstat | exact Hkeys | reflexivity]. }
    assert (E1 : forall w0 rest,
      script w0 = Replied r1 :: rest ->
      getBearerToken lib flags viper w0 =
      (Ret (txt "Bearer " ++ ID gbt),
       World rest (observed w0 ++ Step1_line flags ++ [Do q1]))).
    { intros w0 rest Hs0. rewrite (getBearerToken_Replied _ _ _ _ _ _ _ Hq1 Hs0).
      cbv zeta. by rewrite Hst1, Hj, Hb1. }
    assert (E2 : forall w0 rest,
      script w0 = Replied r2 :: rest ->
      getVirtualMachineResourceID lib flags viper (txt "Bearer " ++ ID gbt)
        (machineName flags) w0 =
      (Ret vmID,
       World rest (observed w0 ++ Step2_line flags (machineName flags)
                   ++ ParseForm_line lib q2 ++ [Do q2]))).
    { intros w0 rest Hs0.
      exact (getVirtualMachineResourceID_first_entry _ _ _ _ _ _ _
               Hplain Hq2 Hst2 Hvm Hb2 Hs0). }
    assert (E3 : forall w0 rest,
      script w0 = Replied r3 :: rest ->
      getSnapshotResourceActionID lib flags viper (txt "Bearer " ++ ID gbt) vmID w0 =
      (Ret actionID, World rest (observed w0 ++ Step3_line flags ++ [Do q3]))).
    { intros w0 rest Hs0.
      rewrite (getSnapshotResourceActionID_reply _ _ _ _ _ _ _ _ _ Hq3 Hs0).
      cbv zeta. unfold action_of. rewrite Hst3. cbn [Z.eqb Pos.eqb negb].
      destruct (matches_first_action _ _ Hact) as [whole ->].
      cbn [lookup list_lookup]. by rewrite Hb3. }
    assert (E5 : forall w0 rest,
      script w0 = Replied r4 :: rest ->
      sendSnapshotRequest lib flags viper (txt "Bearer " ++ ID gbt) vmID actionID w0 =
      (Ret (Header_Get (RespHeader r4) "Location"),
       World rest (observed w0 ++ Step5_line flags ++ [Do q5]))).
    { intros w0 rest Hs0.
      rewrite (sendSnapshotRequest_Replied _ _ _ _ _ _ _ _ _ _ Hq5 Hs0).
      cbv zeta. by rewrite Hst4, Hb4. }
    assert (E6 : forall w0 rest,
      script w0 = pending ++ Replied last :: rest ->
      getRequestResultState lib flags (txt "Bearer " ++ ID gbt)
        (Header_Get (RespHeader r4) "Location") w0 =
      (Ret (),
       World rest (observed w0 ++ Step6_line flags
                   ++ turns flags q6 (pending ++ [Replied last])))).
    { intros w0 rest Hs0. unfold getRequestResultState.
      rewrite traceInfo_bind, Hq6, deref_Some_bind.
      rewrite (MustCompile_bind _ _ _ _ Compile_stateName).
      rewrite (for_ever_Successful _ pending last rest) by done.
      cbn [note observed]. by rewrite <- (assoc_L (++)). }
    unfold mbind at 1, M_bind at 1. rewrite Hvalid. rewrite traceInfo_bind.
    unfold mbind at 1, M_bind at 1. erewrite E1 by (cbn [script note]; exact Hs).
    unfold mbind at 1, M_bind at 1. erewrite E2 by (cbn [script]; reflexivity).
    unfold mbind at 1, M_bind at 1. erewrite E3 by (cbn [script]; reflexivity).
    unfold getResourceActionTemplate. rewrite traceInfo_bind.
    unfold mbind at 1 2, M_bind at 1 2.
    erewrite E5 by (cbn [script note]; reflexivity).
    erewrite E6 by (cbn [script]; reflexivity).
    rewrite traceInfo_run. f_equal. destruct w' as [s o]. unfold note.
    cbn [script observed] in *. f_equal. rewrite Hobs.
    unfold Creating_line, Step4_line, Bye_line.
    rewrite <- !(assoc_L (++)). reflexivity.
Qed.

End StageInversion.

(** ** The anatomy of a dry run *)

Section DryRun.

Context (lib : Lib) (flags : Flags) (viper : Viper).

Lemma stages_1_to_4_Ret w ids w4 :
  plain (machineName flags) = true ->
  stages_1_to_4 lib flags viper w = (Ret ids, w4) <-> read_path lib flags viper w w4 ids.
Proof.
  intros Hplain. unfold stages_1_to_4. split.
  - intros ([] & w0 & Hvalid & H)%bind_Ret_inv.
    rewrite traceInfo_bind in H.
    apply bind_Ret_inv in H as (token & w1 & H1 & H).
    apply bind_Ret_inv in H as (vmID & w2 & H2 & H).
    apply bind_Ret_inv in H as (actionID & w3 & H3 & H).
    unfold getResourceActionTemplate in H. rewrite traceInfo_bind in H.
    injection H as <- <-.
    apply validateConfig_Ret in Hvalid as (Hstat & Hkeys & ->).
    apply getBearerToken_Ret in H1
      as (q1 & r1 & rest1 & gbt & Hq1 & Hs1 & Hst1 & Hj & Hb1 & -> & ->).
    apply (getVirtualMachineResourceID_Ret _ _ _ _ _ _ _ _ Hplain) in H2
      as (q2 & r2 & rest2 & Hq2 & Hs2 & Hst2 & Hvm & Hb2 & ->).
    apply getSnapshotResourceActionID_Ret in H3
      as (q3 & r3 & rest3 & Hq3 & Hs3 & Hst3 & Hact & Hb3 & ->).
    cbn [script observed note] in *. subst rest1 rest2.
    exists r1, r2, r3, q1, q2, q3, gbt.
    split_and!;
      [ exact Hstat | exact Hkeys | exact Hs1 | exact Hq1 | exact Hq2 | exact Hq3
      | exact Hst1 | exact Hj | exact Hb1 | reflexivity
      | exact Hst2 | exact Hvm | exact Hb2
      | exact Hst3 | exact Hact | exact Hb3 | ].
    cbn [observed note]. unfold Creating_line, Step4_line.
    rewrite <- !(assoc_L (++)). reflexivity.
  - destruct ids as [[token vmID] actionID].
    intros (r1 & r2 & r3 & q1 & q2 & q3 & gbt & (Hstat & Hkeys) & Hs
            & (Hq1 & Hq2 & Hq3) & (Hst1 & Hj & Hb1 & ->) & (Hst2 & Hvm & Hb2)
            & (Hst3 & Hact & Hb3) & Hobs).
    assert (Hvalid : validateConfig lib flags viper w = (Ret (), w)).
    { apply (proj2 (validateConfig_Ret lib flags viper w w)).
      split_and!; [exact Hstat | exact Hkeys | reflexivity]. }
    unfold mbind at 1, M_bind at 1. rewrite Hvalid. rewrite traceInfo_bind.
    unfold mbind at 1, M_bind at 1.
    rewrite (getBearerToken_Replied _ _ _ _ _ _ (note w _) Hq1 Hs). cbv zeta.
    rewrite Hst1, Hj, Hb1. cbn [Z.eqb Pos.eqb negb].
    unfold mbind at 1, M_bind at 1.
    erewrite (getVirtualMachineResourceID_first_entry _ _ _ _ _ _ _ _ _ _
                Hplain Hq2 Hst2 Hvm Hb2)
      by (cbn [script]; reflexivity).
    unfold mbind at 1, M_bind at 1.
    erewrite (getSnapshotResourceActionID_reply _ _ _ _ _ _ _ _ _ Hq3)
      by (cbn [script]; reflexivity).
    cbv zeta.
    unfold action_of. rewrite Hst3. cbn [Z.eqb Pos.eqb negb].
    destruct (matches_first_action _ _ Hact) as [whole' ->].
    cbn [lookup list_lookup]. rewrite Hb3.
    unfold getResourceActionTemplate. rewrite traceInfo_bind.
    rewrite mret_run. f_equal. destruct w4 as [s o]. unfold note.
    cbn [script observed] in *. f_equal. rewrite Hobs.
    unfold Creating_line, Step4_line. rewrite <- !(assoc_L (++)). reflexivity.
Qed.

(** X8.  For a machine name without regexp metacharacters, a dry run
    returns normally exactly when steps 1 to 4 go through: the
    configuration is accepted and the first three replies are responses of
    status 200 that hold a token, an entry named with the machine name
    (the identifier of the leftmost one is taken) and an action identifier,
    none of them blank.  It then prints the two lines about the skipped
    steps and the closing line, takes no fourth reply, and has sent the
    three requests of steps 1 to 3 and nothing else.  (A machine name that
    holds regexp syntax is read as a pattern by step 2; such names are not
    covered.) *)
Theorem X8_dry_run_anatomy w w' :
  plain (machineName flags) = true ->
  dryRun flags = true ->
  Run lib flags viper w = (Ret (), w') <->
  exists ids w4,
    read_path lib flags viper w w4 ids /\ w' = note w4 (skipped_lines flags).
Proof.
  intros Hplain Hdry. rewrite Run_split. split.
  - intros (ids & w4 & H14 & H56)%bind_Ret_inv.
    rewrite stages_5_and_6_dry in H56 by done. injection H56 as <-.
    exists ids, w4. split; [by apply (stages_1_to_4_Ret _ _ _ Hplain) | done].
  - intros (ids & w4 & Hread & ->). apply (stages_1_to_4_Ret _ _ _ Hplain) in Hread.
    by rewrite (bind_Ret _ _ _ _ _ Hread), stages_5_and_6_dry.
Qed.

End DryRun.

(** ** The patterns of a run lie in the embedded fragment *)

Section Modelled.

Lemma modelled_ret {A} (a : A) : modelled (mret a).
Proof. by intros w. Qed.

Lemma modelled_panic {A} : modelled (@panic A).
Proof. by intros w. Qed.

Lemma modelled_bind {A B} (m : M A) (k : A -> M B) :
  modelled m -> (forall a, modelled (k a)) -> modelled (m ≫= k).
Proof.
  intros Hm Hk w. unfold mbind, M_bind. specialize (Hm w).
  destruct (m w) as [[a| | | |] w1]; try done. apply Hk.
Qed.

Lemma modelled_deref {A} (p : option A) : modelled (deref p).
Proof. by destruct p. Qed.

Lemma modelled_index matches i : modelled (index matches i).
Proof. apply modelled_deref. Qed.

Lemma modelled_emit e : modelled (emit e).
Proof. by intros w. Qed.

Lemma modelled_log_Fatalf {A} format args : modelled (@log_Fatalf A format args).
Proof. by intros w. Qed.

Lemma modelled_client_Do req : modelled (client_Do req).
Proof. intros w. unfold client_Do. by destruct (script w) as [|[|] ?]. Qed.

Lemma modelled_logFatalError err : modelled (logFatalError err).
Proof. by destruct err. Qed.

Lemma modelled_exitOnEmptyString name value : modelled (exitOnEmptyString name value).
Proof. unfold exitOnEmptyString. by destruct (blank value). Qed.

Lemma modelled_traceInfo flags info : modelled (traceInfo flags info).
Proof. intros w. by rewrite traceInfo_run. Qed.

Lemma modelled_MustCompile pattern re :
  Compile pattern = Some re -> modelled (MustCompile pattern).
Proof. unfold MustCompile. by intros ->. Qed.

Lemma modelled_for_ever body : modelled body -> modelled (for_ever body).
Proof.
  intros Hbody w. unfold for_ever. generalize (S (length (script w))). intros n.
  revert w. induction n as [|n IH]; [done|].
  cbn [repeat_until]. apply modelled_bind; [done|]. by intros [|].
Qed.

End Modelled.

Ltac modelled_step :=
  match goal with
  | |- modelled (traceInfo _ _) => apply modelled_traceInfo
  | |- modelled (deref _) => apply modelled_deref
  | |- modelled (index _ _) => apply modelled_index
  | |- modelled (MustCompile h1_pattern) => apply (modelled_MustCompile _ _ Compile_h1)
  | |- modelled (MustCompile systemMessage_pattern) =>
      apply (modelled_MustCompile _ _ Compile_systemMessage)
  | |- modelled (MustCompile action_pattern) =>
      apply (modelled_MustCompile _ _ Compile_action)
  | |- modelled (MustCompile stateName_pattern) =>
      apply (modelled_MustCompile _ _ Compile_stateName)
  | |- modelled (logFatalError _) => apply modelled_logFatalError
  | |- modelled (exitOnEmptyString _ _) => apply modelled_exitOnEmptyString
  | |- modelled (client_Do _) => apply modelled_client_Do
  | |- modelled (log_Fatalf _ _) => apply modelled_log_Fatalf
  | |- modelled (log_Println _) => apply modelled_emit
  | |- modelled (time_Sleep _) => apply modelled_emit
  | |- modelled (mret _) => apply modelled_ret
  | |- modelled panic => apply modelled_panic
  | |- modelled (mbind _ _) => apply modelled_bind; [|intros ?]
  | |- modelled (let '(_, _) := ?p in _) => destruct p
  | |- modelled (match ?x with _ => _ end) => destruct x
  | |- modelled (if ?x then _ else _) => destruct x
  end.

Section ModelledStages.

Context (lib : Lib) (flags : Flags) (viper : Viper).

Lemma modelled_validateConfig : modelled (validateConfig lib flags viper).
Proof.
  unfold validateConfig, fileExists.
  destruct (os_Stat lib (ConfigFileUsed viper)) as [[|]| |]; repeat modelled_step.
Qed.

Lemma modelled_getBearerToken : modelled (getBearerToken lib flags viper).
Proof. unfold getBearerToken. repeat modelled_step. Qed.

Lemma modelled_getVirtualMachineResourceID token machine :
  plain machine = true ->
  modelled (getVirtualMachineResourceID lib flags viper token machine).
Proof.
  intros Hplain. unfold getVirtualMachineResourceID.
  repeat first
    [ modelled_step
    | apply (modelled_MustCompile _ _ (Compile_resource machine Hplain)) ].
Qed.

Lemma modelled_getSnapshotResourceActionID token vmID :
  modelled (getSnapshotResourceActionID lib flags viper token vmID).
Proof. unfold getSnapshotResourceActionID. repeat modelled_step. Qed.

Lemma modelled_sendSnapshotRequest token vmID actionID :
  modelled (sendSnapshotRequest lib flags viper token vmID actionID).
Proof. unfold sendSnapshotRequest. repeat modelled_step. Qed.

Lemma modelled_getRequestResultState token url :
  modelled (getRequestResultState lib flags token url).
Proof.
  unfold getRequestResultState. repeat modelled_step.
  apply modelled_for_ever. unfold poll_once. repeat modelled_step.
Qed.

(** For a machine name without regexp metacharacters, every pattern that a
    run compiles lies in the embedded fragment: the four fixed patterns of
    the steps, and the pattern of step 2 with the name spliced in.  The
    embedding follows every run for such a name to its end. *)
Lemma Run_modelled w :
  plain (machineName flags) = true ->
  (Run lib flags viper w).1 <> Unmodelled.
Proof.
  intros Hplain. revert w. change (modelled (Run lib flags viper)). unfold Run.
  apply modelled_bind; [apply modelled_validateConfig | intros _].
  apply modelled_bind; [apply modelled_traceInfo | intros _].
  apply modelled_bind; [apply modelled_getBearerToken | intros token].
  apply modelled_bind; [by apply modelled_getVirtualMachineResourceID | intros vmID].
  apply modelled_bind; [apply modelled_getSnapshotResourceActionID | intros actionID].
  apply modelled_bind; [apply modelled_traceInfo | intros _].
  apply modelled_bind; [|intros _; apply modelled_traceInfo].
  destruct (dryRun flags); cbn [negb].
  - apply modelled_bind; [apply modelled_traceInfo | intros _; apply modelled_traceInfo].
  - apply modelled_bind; [apply modelled_sendSnapshotRequest | intros url].
    apply modelled_getRequestResultState.
Qed.

End ModelledStages.

(** ** Step 2 for a machine name with a dot *)

Lemma step_dot st :
  mode st = Normal -> step st dot = Some (with_top st (Any :: top st)).
Proof. unfold step. by intros ->. Qed.

Lemma Compile_dotted m1 m2 :
  plain m1 = true -> plain m2 = true ->
  Compile (resource_pattern (m1 ++ [dot] ++ m2)) = Some (dotted_re m1 m2).
Proof.
  intros H1 H2. unfold Compile, resource_pattern.
  rewrite steps_app.
  match goal with |- context [steps ?st (jtxt ?s)] =>
    let v := eval vm_compute in (steps st (jtxt s)) in
    change (steps st (jtxt s)) with v
  end.
  cbn [mbind option_bind]. rewrite !steps_app.
  rewrite steps_plain by done.
  cbn [mbind option_bind steps app]. rewrite step_dot by done.
  rewrite steps_plain by done.
  cbn [mbind option_bind].
  destruct m1 as [|x m1], m2 as [|y m2]; reflexivity.
Qed.

Lemma parses_dotted_name m1 m2 s c :
  parses (dotted_name m1 m2) s c <->
  exists d, not_nl d /\ s = m1 ++ [d] ++ m2 /\ c = [].
Proof.
  unfold dotted_name.
  destruct m1 as [|x m1], m2 as [|y m2]; cbn [lits_onto rev app cat_all]; split.
  - intros Hp. invert_parses. eexists. by split_and!.
  - intros (d & Hd & -> & ->). by constructor.
  - intros Hp. invert_parses. eexists. by split_and!.
  - intros (d & Hd & -> & ->).
    by apply (parses_Cat_intro Any (Str (y :: m2)) [d] (y :: m2) [] []);
      [constructor | constructor |].
  - intros Hp. invert_parses. eexists. split_and!; [done | | done].
    first [done | by rewrite <- (assoc_L (++))].
  - intros (d & Hd & -> & ->).
    by apply (parses_Cat_intro (Str (x :: m1)) Any (x :: m1) [d] [] []);
      [constructor | constructor |].
  - intros Hp. invert_parses. eexists. split_and!; [done | | done].
    first [done | by rewrite <- (assoc_L (++))].
  - intros (d & Hd & -> & ->).
    apply (parses_Cat_intro (Str (x :: m1)) (Cat Any (Str (y :: m2)))
             (x :: m1) ([d] ++ y :: m2) [] []); [constructor | | done].
    by apply (parses_Cat_intro Any (Str (y :: m2)) [d] (y :: m2) [] []);
      [constructor | constructor |].
Qed.

Lemma parses_dotted m1 m2 mid c :
  parses (prog (dotted_re m1 m2)) mid c <->
  exists id d,
    not_nl d /\ matched_entry (m1 ++ [d] ++ m2) id mid /\
    c = [(2, m1 ++ [d] ++ m2); (1, id)].
Proof.
  unfold dotted_re, matched_entry. cbn [prog]. split.
  - intros Hp. invert_parses.
    match goal with H : parses (dotted_name _ _) _ _ |- _ =>
      apply parses_dotted_name in H as (d & Hd & -> & ->)
    end.
    match goal with H : length ?i = 36 |- _ => exists i, d end.
    split; [done|]. split; [|done].
    eexists _, _, _, _, _, _. split; [reflexivity|].
    split_and!; [done..|]. by repeat constructor.
  - intros (id & d & Hd & (d1 & d2 & d3 & d4 & d5 & pfx & -> & Hid & Hpfx & Hidl & Hpfxl & Hds)
            & ->).
    rewrite <- Hid, <- Hpfx.
    apply Forall_cons_1 in Hds as [H1 Hds]. apply Forall_cons_1 in Hds as [H2 Hds].
    apply Forall_cons_1 in Hds as [H3 Hds]. apply Forall_cons_1 in Hds as [H4 Hds].
    apply Forall_cons_1 in Hds as [H5 _].
    assert (Hname : parses (dotted_name m1 m2) (m1 ++ [d] ++ m2) [])
      by (apply parses_dotted_name; eauto).
    repeat first
      [ eapply parses_Cat_intro | apply P_Grp; exact Hname | apply P_Grp
      | apply P_Str | apply P_Rep; assumption | apply P_Any; assumption ].
    all: reflexivity.
Qed.

Lemma FindStringSubmatch_dotted m1 m2 body :
  match FindStringSubmatch (dotted_re m1 m2) body with
  | [] => ~ has_dotted_entry m1 m2 body
  | matches =>
      exists whole id name,
        matches = [whole; id; name] /\ first_dotted_entry m1 m2 body id
  end.
Proof.
  unfold FindStringSubmatch. destruct (find _ body) as [[whole c]|] eqn:Hf.
  - apply find_leftmost in Hf as (pre & post & -> & Hp & Hleft).
    apply parses_dotted in Hp as (id & d & Hd & Hentry & ->).
    exists whole, id, (m1 ++ [d] ++ m2). split; [done|].
    exists pre, whole, post. split_and!; [done | by exists d |].
    intros pre' id' mid' post' Hbody (d' & Hd' & Hentry'). apply (Hleft _ _ _ Hbody).
    eexists. apply parses_dotted. eauto.
  - apply find_None in Hf. intros (pre & id & mid & post & -> & d & Hd & Hentry).
    apply Hf. exists pre, mid, post. split; [done|].
    eexists. apply parses_dotted. eauto.
Qed.

Section DottedName.

Context (lib : Lib) (flags : Flags) (viper : Viper).

(** X10.  The machine name is spliced into the pattern of step 2 as it
    is, so a dot in it stands for any character.  For the name [m1.m2]
    (no other metacharacter in it) and a listing of status 200, step 2
    accepts every entry of a virtual machine whose name is three
    characters followed by [m1], any one character, and [m2]: it fails
    with the diagnostic that names the machine only when the listing has
    no such entry, and otherwise returns the identifier of the leftmost
    one (or exits on a blank identifier), whether or not that entry is
    the machine that was asked for. *)
Theorem X10_dot_is_a_wildcard token m1 m2 req resp rest w :
  plain m1 = true -> plain m2 = true ->
  resourcesRequest lib flags viper token = Some req ->
  script w = Replied resp :: rest ->
  StatusCode resp = 200%Z ->
  let machine := m1 ++ [dot] ++ m2 in
  let w1 := World rest (observed w ++ Step2_line flags machine
                        ++ ParseForm_line lib req ++ [Do req]) in
  let run := getVirtualMachineResourceID lib flags viper token machine w in
  (~ has_dotted_entry m1 m2 (Body resp) -> run = (Exit 1, note w1 [not_found machine])) /\
  (has_dotted_entry m1 m2 (Body resp) ->
   exists id,
     first_dotted_entry m1 m2 (Body resp) id /\
     run = if blank id
           then (Exit 1, note w1 [zero_length (txt "machineID")])
           else (Ret id, w1)).
Proof.
  intros H1 H2 Hreq Hs Hstatus machine w1 run. subst run machine.
  rewrite (getVirtualMachineResourceID_Replied lib flags viper _ _ _ _ _ _ Hreq Hs).
  cbv zeta. fold w1. rewrite Hstatus. cbn [Z.eqb Pos.eqb negb].
  rewrite (Compile_dotted _ _ H1 H2).
  pose proof (FindStringSubmatch_dotted m1 m2 (Body resp)) as Hfind.
  destruct (FindStringSubmatch (dotted_re m1 m2) (Body resp)) as [|whole ms].
  - by split.
  - destruct Hfind as (whole' & id & name & [= -> ->] & Hfirst). split.
    + intros Hno. destruct Hno.
      destruct Hfirst as (pre & mid & post & -> & Hentry & _).
      by exists pre, id, mid, post.
    + intros _. exists id. split; [done|]. cbn [lookup list_lookup]. done.
Qed.

End DottedName.

(** ** The [generateConfig] command *)

Section GenerateConfigFacts.

Context (lib : Lib) (os_Create_error : text -> option error).

(** X11.  [writeSampleConfigFile] leaves a regular file that exists alone, and
    only says so.  Otherwise it calls [os.Create] (also when the name is
    that of a directory, which [fileExists] reports as not existing): when
    that succeeds, the file receives the seven lines of the sample, is
    synced and closed; when it fails, the error is logged, nothing is
    written, and the line that announces the new file is logged all the
    same.  An error of [os.Stat] other than that the file does not exist
    makes the command panic. *)
Theorem X11_writeSampleConfigFile_outcomes name :
  let '(res, tr) := writeSampleConfigFile lib os_Create_error name [] in
  match os_Stat lib name with
  | StatInfo false => res = Ret () /\ tr = [already_exists name]
  | StatOtherError => res = Panic /\ tr = []
  | StatInfo true | StatNotExist =>
      res = Ret () /\
      match os_Create_error name with
      | Some err =>
          tr = [Printf (txt "Error: %s") [AErr err]; Created_line name] /\
          List.filter touches tr = []
      | None =>
          tr = Created name :: map (fun l => Wrote name (l ++ [nl])) sample_lines
               ++ [Synced name; Closed name; Created_line name] /\
          written name tr = concat (map (fun l => l ++ [nl]) sample_lines)
      end
  end.
Proof.
  unfold writeSampleConfigFile, beside, fileExists, os_Create.
  unfold mbind at 1, FsM_bind at 1.
  destruct (os_Stat lib name) as [[|]| |]; cbn [fst negb mret M_ret panic stop].
  - destruct (os_Create_error name) as [err|]; [by vm_compute|].
    split; [done|]. split; [done|].
    cbn -[txt jtxt text_eqb]. rewrite !text_eqb_refl.
    by rewrite !(right_id_L [] (++)).
  - done.
  - destruct (os_Create_error name) as [err|]; [by vm_compute|].
    split; [done|]. split; [done|].
    cbn -[txt jtxt text_eqb]. rewrite !text_eqb_refl.
    by rewrite !(right_id_L [] (++)).
  - done.
Qed.

End GenerateConfigFacts.

(** ** The headers of the requests *)

(** X12.  The token request of step 1 carries no Authorization header; every
    later request carries the bearer token as its one Authorization value.
    Steps 1, 2, 3 and 5 name the program in the User-Agent header; the
    status request of step 6 sets none. *)
Theorem X12_request_credentials lib flags viper token vmID actionID url :
  (forall req,
     tokenRequest lib flags viper = Some req ->
     ReqHeader req !! "Authorization"%string = None /\
     ReqHeader req !! "User-Agent"%string = Some [userAgent]) /\
  (forall req,
     resourcesRequest lib flags viper token = Some req \/
     actionsRequest lib flags viper token vmID = Some req \/
     snapshotRequest lib flags viper token vmID actionID = Some req ->
     ReqHeader req !! "Authorization"%string = Some [token] /\
     ReqHeader req !! "User-Agent"%string = Some [userAgent]) /\
  (forall req,
     statusRequest lib token url = Some req ->
     ReqHeader req !! "Authorization"%string = Some [token] /\
     ReqHeader req !! "User-Agent"%string = None).
Proof.
  unfold tokenRequest, resourcesRequest, actionsRequest, snapshotRequest, statusRequest,
    NewRequest.
  split_and!.
  - intros req. destruct (NewRequest_ok lib _); [|done]. intros [= <-]. by vm_compute.
  - intros req [H|[H|H]]; destruct (NewRequest_ok lib _); try done;
      injection H as <-; by vm_compute.
  - intros req. destruct (NewRequest_ok lib _); [|done]. intros [= <-]. by vm_compute.
Qed.

(** ** Instances of the further properties *)

Section FurtherInstances.

Import Sample Runs Cases.

Lemma X1_poll_reads_first_stateName_witness :
  first_stateName poll_body (txt "In Progress").
Proof.
  apply (proj1 (X1_poll_reads_first_stateName stateName_re poll_body (txt "In Progress")
                  eq_refl)).
  vm_compute. reflexivity.
Defined.

Lemma X2_unexpected_status_diagnostics_witness :
  getBearerToken lib flags viper (start [Replied identity_error]) =
  (Exit 1,
   World [] [Do request1;
             Unexpected_status 400 (txt "Invalid username or password.")]) /\
  sendSnapshotRequest lib flags viper token web01_id action_id
    (start [Replied server_error]) =
  (Exit 1,
   World [] [Do request5; Error_line (txt "HTTP Status 500 - Internal Server Error")]).
Proof.
  split.
  - destruct (X2_unexpected_status_diagnostics lib flags viper
                (start [Replied identity_error]) identity_error [] eq_refl)
      as (H1 & _).
    apply (H1 request1 (txt "Invalid username or password.")).
    + reflexivity.
    + vm_compute. discriminate.
    + apply systemMessage_widest. vm_compute. reflexivity.
  - destruct (X2_unexpected_status_diagnostics lib flags viper
                (start [Replied server_error]) server_error [] eq_refl)
      as (_ & _ & _ & H5).
    apply (H5 token web01_id action_id request5
             (txt "HTTP Status 500 - Internal Server Error")).
    + reflexivity.
    + vm_compute. discriminate.
    + apply h1_widest. vm_compute. reflexivity.
Defined.

Lemma X3_action_locator_witness :
  getSnapshotResourceActionID lib flags viper token web01_id
    (start [Replied actions_response]) =
  (Ret action_id, World [] [Do request3]).
Proof.
  destruct (X3_action_locator lib flags viper token web01_id request3 actions_response []
              (start [Replied actions_response]) eq_refl eq_refl eq_refl)
    as (_ & _ & _ & H).
  rewrite (H action_id); [reflexivity|].
  apply matches_action_inv. vm_compute. reflexivity.
Defined.

Lemma X6_rejected_url_panics_witness :
  exit_status (Run strict flags spaced (start [token_reply])).1 = Some 2%Z.
Proof.
  destruct (X6_rejected_url_panics strict flags spaced [] [] [] [] [] (start [token_reply]))
    as (H1 & _).
  destruct (H1 ltac:(vm_compute; reflexivity)) as [_ Hrun].
  destruct (Hrun ltac:(vm_compute; reflexivity)) as [_ Hexit].
  exact Hexit.
Defined.

Lemma X7_successful_run_anatomy_witness :
  success_path lib flags viper
    (start (submitted ++ [in_progress; successful]))
    (Run lib flags viper (start (submitted ++ [in_progress; successful]))).2.
Proof.
  apply (proj1 (X7_successful_run_anatomy lib flags viper _ _ eq_refl eq_refl)).
  vm_compute. reflexivity.
Defined.

Lemma X8_dry_run_anatomy_witness :
  script (Run lib dry viper (start (submitted ++ [successful]))).2
  = [created_reply; successful].
Proof.
  assert (Hrun : Run lib dry viper (start (submitted ++ [successful])) =
                 (Ret (), (Run lib dry viper (start (submitted ++ [successful]))).2))
    by (vm_compute; reflexivity).
  apply (proj1 (X8_dry_run_anatomy lib dry viper _ _ eq_refl eq_refl)) in Hrun
    as ([[token vmID] actionID] & w4 & (r1 & r2 & r3 & q1 & q2 & q3 & gbt & H) & Hw).
  destruct H as (_ & Hs & _). rewrite Hw. cbn [script note].
  cbn [start script submitted app] in Hs. by injection Hs as _ _ _ <-.
Defined.

Lemma X10_dot_is_a_wildcard_witness :
  getVirtualMachineResourceID lib flags viper token (txt "web.1")
    (start [ok other_listing]) =
  (Ret web01_id, World [] [Do request2]).
Proof.
  destruct (X10_dot_is_a_wildcard lib flags viper token (txt "web") (txt "1") request2
              (MkResponse 200 ∅ other_listing) [] (start [ok other_listing])
              eq_refl eq_refl eq_refl eq_refl eq_refl) as [_ Hfound].
  destruct Hfound as (id & _ & Hrun).
  - pose proof (FindStringSubmatch_dotted (txt "web") (txt "1") other_listing) as Hfind.
    revert Hfind.
    destruct (FindStringSubmatch (dotted_re (txt "web") (txt "1")) other_listing) eqn:E;
      [vm_compute in E; discriminate|].
    intros (whole & id & name & _ & pre & mid & post & Hbody & Hentry & _).
    exists pre, id, mid, post. split; [exact Hbody | exact Hentry].
  - vm_compute. reflexivity.
Defined.

Lemma X12_request_credentials_witness :
  ReqHeader request1 !! "Authorization"%string = None /\
  ReqHeader request5 !! "Authorization"%string = Some [token] /\
  ReqHeader request6 !! "User-Agent"%string = None.
Proof.
  destruct (X12_request_credentials lib flags viper token web01_id action_id status_url)
    as (H1 & H5 & H6).
  split_and!.
  - apply (H1 request1). reflexivity.
  - apply (H5 request5). right. right. reflexivity.
  - apply (H6 request6). reflexivity.
Defined.

End FurtherInstances.

(** ** The submission step, outcome by outcome *)

Section Submission.

Context (lib : Lib) (flags : Flags) (viper : Viper).

(** A body with a heading has one that the greedy pattern reads. *)
Lemma has_h1_widest body :
  has_h1 body <-> exists title, widest_field h1_open h1_close body title.
Proof.
  rewrite <- contains_h1. split.
  - intros Hc.
    destruct (proj2 (matches_lookup h1_re body 1)) as [title Ht];
      [split; [exact Hc | reflexivity]|].
    exists title. by apply h1_widest.
  - intros [title Ht%h1_widest].
    by destruct (proj1 (matches_lookup h1_re body 1)); [rewrite Ht|].
Qed.

(** When step 5 stops, so does the run, in the same world. *)
Lemma Run_stops_with_step_5 token vmID actionID w0 w w' :
  dryRun flags = false ->
  stages_1_to_4 lib flags viper w0 = (Ret (token, vmID, actionID), w) ->
  (forall code,
     sendSnapshotRequest lib flags viper token vmID actionID w = (Exit code, w') ->
     Run lib flags viper w0 = (Exit code, w')) /\
  (sendSnapshotRequest lib flags viper token vmID actionID w = (Panic, w') ->
   Run lib flags viper w0 = (Panic, w')).
Proof.
  intros Hdry H14. rewrite Run_split, (bind_Ret _ _ _ _ _ H14).
  unfold stages_5_and_6. rewrite Hdry. cbn [negb]. unfold mbind, M_bind.
  split; [intros code|]; by intros ->.
Qed.

(** C3.  The submission step takes status 201 and nothing else for success.
    On any other status the run ends there with a non-zero exit status,
    and the request of step 5 is the last thing it sends: no reply is taken
    afterwards, nothing is slept, no poll occurs.  How it ends depends on
    the body.  With a heading on one line, the step prints the heading
    (from the leftmost opening tag to the last closing tag of the line) and
    exits with status 1.  Without one, the index into the empty submatch
    slice panics: the run ends with status 2 and prints no diagnostic of
    its own.  On 201 the step returns the first value of the [Location]
    header when that value is not blank; when the header is absent, has no
    value, or its first value is blank, it exits with status 1 and the
    zero-length diagnostic. *)
Theorem C3_request_submitter token vmID actionID req resp rest w :
  snapshotRequest lib flags viper token vmID actionID = Some req ->
  script w = Replied resp :: rest ->
  let w1 := World rest (observed w ++ Step5_line flags ++ [Do req]) in
  let run := sendSnapshotRequest lib flags viper token vmID actionID w in
  (StatusCode resp <> 201%Z ->
   (has_h1 (Body resp) ->
    exists title,
      widest_field h1_open h1_close (Body resp) title /\
      run = (Exit 1, note w1 [Error_line title])) /\
   (~ has_h1 (Body resp) -> run = (Panic, w1)) /\
   (exists code, exit_status run.1 = Some code /\ code <> 0%Z) /\
   (forall w0,
      dryRun flags = false ->
      stages_1_to_4 lib flags viper w0 = (Ret (token, vmID, actionID), w) ->
      (has_h1 (Body resp) ->
       exists title,
         widest_field h1_open h1_close (Body resp) title /\
         Run lib flags viper w0 = (Exit 1, note w1 [Error_line title])) /\
      (~ has_h1 (Body resp) -> Run lib flags viper w0 = (Panic, w1)))) /\
  (StatusCode resp = 201%Z ->
   (forall url more,
      RespHeader resp !! "Location"%string = Some (url :: more) ->
      blank url = false ->
      run = (Ret url, w1)) /\
   (RespHeader resp !! "Location"%string = None \/
    RespHeader resp !! "Location"%string = Some [] \/
    (exists url more,
       RespHeader resp !! "Location"%string = Some (url :: more) /\ blank url = true) ->
    run = (Exit 1, note w1 [zero_length (txt "Resource Action Request URL")]))).
Proof.
  intros Hreq Hs w1 run.
  assert (Hrun := sendSnapshotRequest_Replied lib flags viper _ _ _ _ _ _ _ Hreq Hs).
  cbv zeta in Hrun. fold w1 run in Hrun. split.
  - intros Hstatus. rewrite (status_differs _ _ Hstatus) in Hrun.
    assert (Hyes : has_h1 (Body resp) ->
      exists title,
        widest_field h1_open h1_close (Body resp) title /\
        run = (Exit 1, note w1 [Error_line title])).
    { intros [title Ht]%has_h1_widest. exists title. split; [exact Ht|].
      apply h1_widest in Ht. by rewrite Ht in Hrun. }
    assert (Hno : ~ has_h1 (Body resp) -> run = (Panic, w1)).
    { intros Hno. rewrite <- contains_h1 in Hno.
      apply (matches_lookup_None h1_re _ 1) in Hno; [|reflexivity].
      by rewrite Hno in Hrun. }
    split_and!; [exact Hyes | exact Hno | |].
    + rewrite Hrun. destruct (_ !! 1); [by exists 1%Z | by exists 2%Z].
    + intros w0 Hdry H14.
      destruct (Run_stops_with_step_5 token vmID actionID w0 w
                  (note w1 match FindStringSubmatch h1_re (Body resp) !! 1 with
                           | Some title => [Error_line title]
                           | None => []
                           end) Hdry H14) as [Hexit Hpanic].
      split.
      * intros Hh. destruct (Hyes Hh) as (title & Ht & Hr). exists title.
        split; [exact Ht|]. apply h1_widest in Ht. rewrite Ht in Hexit.
        apply Hexit. exact Hr.
      * intros Hh. pose proof (Hno Hh) as Hr. rewrite <- contains_h1 in Hh.
        apply (matches_lookup_None h1_re _ 1) in Hh; [|reflexivity].
        rewrite Hh, note_nil in Hpanic. apply Hpanic. exact Hr.
  - intros Hstatus. rewrite Hstatus in Hrun. cbn [Z.eqb Pos.eqb negb] in Hrun.
    unfold Header_Get in Hrun. split.
    + intros url more Hloc Hblank. by rewrite Hloc, Hblank in Hrun.
    + intros [Hloc | [Hloc | (url & more & Hloc & Hblank)]]; rewrite Hloc in Hrun;
        [exact Hrun | exact Hrun | by rewrite Hblank in Hrun].
Qed.

End Submission.

(** ** Which sites index the submatch slice without a guard *)

Section IndexedSites.

Context (lib : Lib) (flags : Flags) (viper : Viper).

(** C10, as the code has it.  The submatch slice is indexed without a nil
    guard at five of the seven sites: in the polling loop and on the
    unexpected-status paths of steps 1, 2, 3 and 5.  There an index is in
    bounds exactly when the body has a substring that matches the pattern:
    a poll reply without a ["stateName":"..."] member makes the loop
    panic; a non-200 token reply without the system-message pattern, a
    non-201 submission reply without a heading, and likewise a non-200
    reply of steps 2 and 3, make those steps panic; with the pattern
    present they exit fatally instead.  The two other sites, on the 200
    paths of steps 2 and 3, test the slice for nil before they index it:
    there a body without a match gives the fatal exit with the "Unable to
    find" diagnostic, and no body makes the step panic (for step 2, with a
    machine name that has no regexp metacharacter). *)
Theorem C10_unguarded_extraction w resp rest :
  script w = Replied resp :: rest ->
  (forall re i,
     is_Some (FindStringSubmatch re (Body resp) !! i) <->
     contains_match (prog re) (Body resp) /\ i <= ngroups re) /\
  (forall token url req,
     statusRequest lib token url = Some req ->
     ((poll_once flags req stateName_re w).1 = Panic <-> ~ has_stateName (Body resp)) /\
     (~ has_stateName (Body resp) ->
      (getRequestResultState lib flags token url w).1 = Panic)) /\
  (forall req,
     tokenRequest lib flags viper = Some req ->
     StatusCode resp <> 200%Z ->
     ((getBearerToken lib flags viper w).1 = Panic <-> ~ has_systemMessage (Body resp)) /\
     (has_systemMessage (Body resp) -> (getBearerToken lib flags viper w).1 = Exit 1)) /\
  (forall token vmID actionID req,
     snapshotRequest lib flags viper token vmID actionID = Some req ->
     StatusCode resp <> 201%Z ->
     ((sendSnapshotRequest lib flags viper token vmID actionID w).1 = Panic <->
      ~ has_h1 (Body resp)) /\
     (has_h1 (Body resp) ->
      (sendSnapshotRequest lib flags viper token vmID actionID w).1 = Exit 1)) /\
  (forall token machine req,
     resourcesRequest lib flags viper token = Some req ->
     StatusCode resp <> 200%Z ->
     ((getVirtualMachineResourceID lib flags viper token machine w).1 = Panic <->
      ~ has_h1 (Body resp)) /\
     (has_h1 (Body resp) ->
      (getVirtualMachineResourceID lib flags viper token machine w).1 = Exit 1)) /\
  (forall token vmID req,
     actionsRequest lib flags viper token vmID = Some req ->
     StatusCode resp <> 200%Z ->
     ((getSnapshotResourceActionID lib flags viper token vmID w).1 = Panic <->
      ~ has_h1 (Body resp)) /\
     (has_h1 (Body resp) ->
      (getSnapshotResourceActionID lib flags viper token vmID w).1 = Exit 1)) /\
  (forall token machine req,
     plain machine = true ->
     resourcesRequest lib flags viper token = Some req ->
     StatusCode resp = 200%Z ->
     (getVirtualMachineResourceID lib flags viper token machine w).1 <> Panic /\
     (~ has_entry machine (Body resp) ->
      getVirtualMachineResourceID lib flags viper token machine w =
      (Exit 1,
       World rest (observed w ++ Step2_line flags machine ++ ParseForm_line lib req
                   ++ [Do req; not_found machine])))) /\
  (forall token vmID req,
     actionsRequest lib flags viper token vmID = Some req ->
     StatusCode resp = 200%Z ->
     (getSnapshotResourceActionID lib flags viper token vmID w).1 <> Panic /\
     (~ has_action (Body resp) ->
      getSnapshotResourceActionID lib flags viper token vmID w =
      (Exit 1, World rest (observed w ++ Step3_line flags ++ [Do req; no_action])))).
Proof.
  intros Hs. split_and!.
  - intros re i. apply matches_lookup.
  - intros token url req Hreq. split.
    + rewrite (poll_once_Replied _ _ _ _ _ Hs), <- stateName_None. cbv zeta.
      destruct (stateName (Body resp)) as [st|]; [|done].
      destruct (text_eqb st (txt "Failed")); by split.
    + intros Hno. apply stateName_None in Hno.
      unfold getRequestResultState.
      rewrite traceInfo_bind, Hreq, deref_Some_bind.
      rewrite (MustCompile_bind _ _ _ _ Compile_stateName).
      unfold for_ever. cbn [repeat_until]. unfold mbind, M_bind.
      rewrite (poll_once_Replied _ _ _ resp rest) by done. cbv zeta.
      by rewrite Hno.
  - intros req Hreq Hstatus.
    rewrite (getBearerToken_Replied _ _ _ _ _ _ _ Hreq Hs). cbv zeta.
    rewrite (status_differs _ _ Hstatus), <- contains_systemMessage.
    by apply (unguarded_index_outcome systemMessage_re); [simpl; lia|].
  - intros token vmID actionID req Hreq Hstatus.
    rewrite (sendSnapshotRequest_Replied _ _ _ _ _ _ _ _ _ _ Hreq Hs). cbv zeta.
    rewrite (status_differs _ _ Hstatus), <- contains_h1.
    by apply (unguarded_index_outcome h1_re).
  - intros token machine req Hreq Hstatus.
    rewrite (getVirtualMachineResourceID_Replied _ _ _ _ _ _ _ _ _ Hreq Hs). cbv zeta.
    rewrite (status_differs _ _ Hstatus), <- contains_h1.
    by apply (unguarded_index_outcome h1_re).
  - intros token vmID req Hreq Hstatus.
    rewrite (getSnapshotResourceActionID_reply _ _ _ _ _ _ _ _ _ Hreq Hs). cbv zeta.
    unfold action_of.
    rewrite (status_differs _ _ Hstatus), <- contains_h1.
    by apply (unguarded_index_outcome h1_re).
  - intros token machine req Hplain Hreq Hstatus.
    destruct (lookup_plain lib flags viper _ _ _ _ _ _ Hplain Hreq Hs Hstatus)
      as [[Hno ->] | (id & Hfirst & ->)].
    + split; [done|]. intros _. unfold note; cbn [observed script].
      by rewrite <- !(assoc_L (++)).
    + split; [by destruct (blank id)|].
      intros Hno. destruct Hno. by eapply first_entry_has_entry.
  - intros token vmID req Hreq Hstatus.
    rewrite (getSnapshotResourceActionID_reply _ _ _ _ _ _ _ _ _ Hreq Hs). cbv zeta.
    unfold action_of. rewrite Hstatus. cbn [Z.eqb Pos.eqb negb]. split.
    + unfold FindStringSubmatch.
      destruct (find (prog action_re) (Body resp)) as [[whole c]|] eqn:Hf;
        [|cbn [fst]; discriminate].
      apply find_action in Hf as (id & -> & _).
      cbn [ngroups action_re seq map lookup list_lookup].
      destruct (blank _); cbn [fst]; discriminate.
    + intros Hno. rewrite (matches_no_action _ Hno).
      unfold note; cbn [observed script]. by rewrite <- !(assoc_L (++)).
Qed.

End IndexedSites.

(** ** Instances of the submission step and of the indexed sites *)

Section LastInstances.

Import Sample Runs Cases.

Lemma C3_request_submitter_witness :
  sendSnapshotRequest lib flags viper token web01_id action_id
    (start [Replied server_error; in_progress; successful]) =
  (Exit 1,
   World [in_progress; successful]
     [Do request5; Error_line (txt "HTTP Status 500 - Internal Server Error")]) /\
  Run lib flags viper
    (start [token_reply; resources_reply; actions_reply; Replied forbidden;
            in_progress; successful]) =
  (Panic,
   World [in_progress; successful] [Do request1; Do request2; Do request3; Do request5]) /\
  sendSnapshotRequest lib flags viper token web01_id action_id
    (start [created_reply; successful]) =
  (Ret status_url, World [successful] [Do request5]) /\
  sendSnapshotRequest lib flags viper token web01_id action_id
    (start [Replied (MkResponse 201 ∅ []); successful]) =
  (Exit 1,
   World [successful] [Do request5; zero_length (txt "Resource Action Request URL")]).
Proof.
  split_and!.
  - destruct (C3_request_submitter lib flags viper token web01_id action_id request5
                server_error [in_progress; successful]
                (start [Replied server_error; in_progress; successful]) eq_refl eq_refl)
      as [Hfail _].
    destruct (Hfail ltac:(discriminate)) as (Hyes & _).
    destruct Hyes as (title & Ht & Hrun).
    + apply has_h1_widest. exists (txt "HTTP Status 500 - Internal Server Error").
      apply h1_widest. vm_compute. reflexivity.
    + rewrite Hrun. apply h1_widest in Ht. vm_compute in Ht. injection Ht as <-.
      reflexivity.
  - destruct (C3_request_submitter lib flags viper token web01_id action_id request5
                forbidden [in_progress; successful]
                (World [Replied forbidden; in_progress; successful]
                   [Do request1; Do request2; Do request3]) eq_refl eq_refl)
      as [Hfail _].
    destruct (Hfail ltac:(discriminate)) as (_ & _ & _ & Hwhole).
    destruct (Hwhole (start [token_reply; resources_reply; actions_reply; Replied forbidden;
                             in_progress; successful]) eq_refl)
      as [_ Hpanic]; [vm_compute; reflexivity|].
    rewrite Hpanic; [reflexivity|].
    rewrite <- contains_h1. apply (matches_lookup_None h1_re _ 1); [reflexivity|].
    vm_compute. reflexivity.
  - destruct (C3_request_submitter lib flags viper token web01_id action_id request5
                (MkResponse 201 {[ "Location"%string := [status_url] ]} [])
                [successful] (start [created_reply; successful]) eq_refl eq_refl)
      as [_ Hok].
    destruct (Hok eq_refl) as [Hret _].
    rewrite (Hret status_url []); [reflexivity | vm_compute; reflexivity | reflexivity].
  - destruct (C3_request_submitter lib flags viper token web01_id action_id request5
                (MkResponse 201 ∅ []) [successful]
                (start [Replied (MkResponse 201 ∅ []); successful]) eq_refl eq_refl)
      as [_ Hok].
    destruct (Hok eq_refl) as [_ Hexit].
    rewrite Hexit; [reflexivity|]. left. reflexivity.
Defined.

(** The claim of C10 fails at the two guarded sites: a 200 reply whose body
    has no match for the pattern of step 2, or of step 3, leaves the
    submatch slice empty, and the step does not index it; it exits fatally
    with its diagnostic.  On these paths the extraction is total. *)
Lemma C10_guarded_sites_counterexample :
  Compile (resource_pattern (txt "web01")) = Some (resource_re (txt "web01")) /\
  FindStringSubmatch (resource_re (txt "web01")) (txt "{}") = [] /\
  getVirtualMachineResourceID lib flags viper token (txt "web01") (start [empty_object]) =
  (Exit 1, World [] [Do request2; not_found (txt "web01")]) /\
  Compile action_pattern = Some action_re /\
  FindStringSubmatch action_re (txt "{}") = [] /\
  getSnapshotResourceActionID lib flags viper token web01_id (start [empty_object]) =
  (Exit 1, World [] [Do request3; no_action]).
Proof. split_and!; by vm_compute. Qed.

Lemma C10_unguarded_extraction_witness :
  (getRequestResultState lib flags token status_url
     (start [ok (jtxt "{'message':'Not Found'}")])).1 = Panic /\
  (getSnapshotResourceActionID lib flags viper token web01_id
     (start [ok (jtxt "{'message':'Not Found'}")])).1 <> Panic.
Proof.
  pose proof (C10_unguarded_extraction lib flags viper
    (start [ok (jtxt "{'message':'Not Found'}")])
    (MkResponse 200 ∅ (jtxt "{'message':'Not Found'}")) [] eq_refl)
    as (_ & Hpoll & _ & _ & _ & _ & _ & Hguarded).
  split.
  - destruct (Hpoll token status_url _ eq_refl) as [_ Hpanic].
    apply Hpanic. apply stateName_None. vm_compute. reflexivity.
  - destruct (Hguarded token web01_id request3 eq_refl eq_refl) as [Hnot _].
    exact Hnot.
Defined.

End LastInstances.
